(** * mahindrabot: booking state, tool wrappers, filter validation, FAQ search

    A shallow embedding of the parts of the assistant backend that carry the
    specification's testable properties:

    - [StateManager] (core/state.py): the in-memory OTP session store;
    - [AgentToolKit], [FAQTool], [CarTool] (core/toolkit.py): the tool
      wrappers handed to the model;
    - [CarService], [CarCatalogue] (services/car_service.py): loading,
      filter validation, lookup, comparison, listing and search;
    - [FAQService] (services/faq_service.py): embeddings, cache and search;
    - [EVChargerLocationService] (services/ev_charger_service.py): the
      nearest charging stations.

    Python strings are modelled as byte strings (the UTF-8 encoding of the
    text), integers as [Z], floats as the binary64 numbers of [PrimFloat],
    exceptions as values of the type [exn] returned in a sum. *)

From Stdlib Require Import ZArith List String Ascii Bool Lia Floats.
From Stdlib Require Import Sorting.Permutation Sorting.Sorted.
From Stdlib Require Import DecimalString DecimalNat.
From stdpp Require Import base gmap strings list.
Import ListNotations.
Local Open Scope string_scope.
Local Open Scope Z_scope.

(* ===================================================================== *)
(** * Part I: the model *)
(* ===================================================================== *)

(** ** Python runtime *)

(** Exceptions that the modelled code raises and catches.  The three named
    classes are the ones the source tells apart in its [except] clauses;
    [OtherException] stands for every other subclass of [Exception] and
    carries the text [str(e)] yields. *)
Inductive exn : Type :=
| CarNotFoundError (message : string)
| InvalidFilterError (filter_name invalid_value : string)
                     (suggestions : list string)
| ValueError (message : string)
| OtherException (message : string).

(** A computation that either raises or returns. *)
Inductive result (A : Type) : Type :=
| Raise (e : exn)
| Return (a : A).
Arguments Raise {A} e.
Arguments Return {A} a.

#[global] Instance result_ret : MRet result := fun A a => Return a.
#[global] Instance result_bind : MBind result := fun A B k m =>
  match m with
  | Raise e => Raise e
  | Return a => k a
  end.

(** [try: m except h]: run [m]; an exception is passed to the handler. *)
Definition try_except {A : Type} (m : result A) (h : exn -> result A)
  : result A :=
  match m with
  | Raise e => h e
  | Return a => Return a
  end.

(** [str(i)] for a non-negative integer. *)
Definition str_of_nat (n : nat) : string :=
  NilEmpty.string_of_uint (Nat.to_uint n).

(** Dictionaries keyed by strings.  A Python [dict] iterates in insertion
    order, assigning to a present key keeps the key's position, and [del]
    removes the entry; the entries are kept in a list in that order. *)
Module PyDict.
Section Dict.
Context {V : Type}.

(** [d.get(k)] *)
Fixpoint get (k : string) (d : list (string * V)) : option V :=
  match d with
  | [] => None
  | (k', v) :: d' => if String.eqb k k' then Some v else get k d'
  end.

(** [k in d] *)
Definition contains (k : string) (d : list (string * V)) : bool :=
  match get k d with Some _ => true | None => false end.

(** [d[k] = v] *)
Fixpoint set (k : string) (v : V) (d : list (string * V))
  : list (string * V) :=
  match d with
  | [] => [(k, v)]
  | (k', v') :: d' =>
      if String.eqb k k' then (k', v) :: d' else (k', v') :: set k v d'
  end.

(** [del d[k]] *)
Definition del (k : string) (d : list (string * V)) : list (string * V) :=
  List.filter (fun kv => negb (String.eqb k (fst kv))) d.

(** [d.keys()] and [d.values()] *)
Definition keys (d : list (string * V)) : list string := map fst d.
Definition values (d : list (string * V)) : list V := map snd d.
End Dict.
End PyDict.

(** ** core/state.py *)

Module StateManager.

(** The value stored under a phone number:
    [{"otp": ..., "name": ..., "timestamp": ...}].  Times are counted in
    microseconds, the resolution of [datetime]. *)
Record session : Type := Session {
  otp : string;
  name : string;
  timestamp : Z
}.

(** [self._state] *)
Definition state : Type := list (string * session).

(** [__init__] *)
Definition init : state := [].

(** [timedelta(minutes=m)], in microseconds. *)
Definition timedelta_minutes (m : Z) : Z := m * 60 * 1000000.

(** [store_otp]; [now] is what [datetime.now()] reads. *)
Definition store_otp (now : Z) (phone otp name : string) (st : state)
  : state :=
  PyDict.set phone (Session otp name now) st.

(** [verify_otp]; returns the pair the method returns and the state it
    leaves. *)
Definition verify_otp (now : Z) (phone otp : string) (st : state)
  : (bool * option string) * state :=
  match PyDict.get phone st with
  | None => ((false, None), st)
  | Some stored =>
      if now - timestamp stored >? timedelta_minutes 10 then
        ((false, None), PyDict.del phone st)
      else if String.eqb (StateManager.otp stored) otp then
        ((true, Some (StateManager.name stored)), PyDict.del phone st)
      else ((false, None), st)
  end.

(** [cleanup_expired] *)
Definition cleanup_expired (now : Z) (expiry_minutes : Z) (st : state)
  : state :=
  let expired :=
    map fst
      (List.filter
         (fun pd => now - timestamp (snd pd) >? timedelta_minutes expiry_minutes)
         st) in
  fold_left (fun s phone => PyDict.del phone s) expired st.

(** The calls a client can make, and the state a sequence of them leaves. *)
Inductive op : Type :=
| Store (now : Z) (phone otp name : string)
| Verify (now : Z) (phone otp : string)
| Cleanup (now : Z) (expiry_minutes : Z).

Definition step (st : state) (o : op) : state :=
  match o with
  | Store now phone otp name => store_otp now phone otp name st
  | Verify now phone otp => snd (verify_otp now phone otp st)
  | Cleanup now m => cleanup_expired now m st
  end.

Definition run (ops : list op) (st : state) : state :=
  fold_left step ops st.

End StateManager.

(** ** Sorting and slicing as Python does them *)

Section Sort.
Context {A : Type} (lt : A -> A -> bool).

(** [x] goes before the first element that is greater than it, hence
    after every element that was there and is not greater: the sort is
    stable. *)
Fixpoint insert_sorted (x : A) (l : list A) : list A :=
  match l with
  | [] => [x]
  | y :: l' => if lt x y then x :: y :: l' else y :: insert_sorted x l'
  end.

Fixpoint sort_into (acc l : list A) : list A :=
  match l with
  | [] => acc
  | x :: l' => sort_into (insert_sorted x acc) l'
  end.

(** [sorted(l)] and [l.sort()]: ascending and stable.  Python fixes the
    result of its sort only when [<] orders the elements consistently; this
    is the result it has then. *)
Definition py_sorted (l : list A) : list A := sort_into [] l.

(** [sorted(l, reverse=True)] and [l.sort(reverse=True)]: the list is
    reversed, sorted and reversed again, which keeps equal elements in
    their original order.  As for [py_sorted], this is Python's result when
    [<] orders the elements consistently: it is then the only stable sort of
    the list.  When [<] does not, as with a NaN among floats, Python still
    returns a permutation of the list, but for three elements or more it
    need not be this one; for two elements [a] and [b] it is: [[b; a]] when
    [a < b], and [[a; b]] otherwise. *)
Definition py_sorted_reverse (l : list A) : list A := rev (py_sorted (rev l)).

(** Two elements have the same rank when neither is below the other. *)
Definition same_rank (x y : A) : bool := negb (lt x y) && negb (lt y x).
End Sort.

(** [l[:stop]] *)
Definition slice_to {A : Type} (stop : Z) (l : list A) : list A :=
  if 0 <=? stop then firstn (Z.to_nat stop) l
  else firstn (Z.to_nat (Z.of_nat (length l) + stop)) l.

(** The line feed. *)
Definition LF : string := String (ascii_of_nat 10) EmptyString.

(** [enumerate(l, start)] *)
Fixpoint enumerate {A : Type} (start : nat) (l : list A) : list (nat * A) :=
  match l with
  | [] => []
  | x :: l' => (start, x) :: enumerate (S start) l'
  end.

(** [str(e)] *)
Definition exn_str (e : exn) : string :=
  match e with
  | CarNotFoundError message => message
  | InvalidFilterError filter_name invalid_value suggestions =>
      fold_left
        (fun message '(i, suggestion) =>
           message +:+ "  " +:+ str_of_nat i +:+ ". " +:+ suggestion +:+ LF)
        (enumerate 1 (firstn 5 suggestions))
        ("Invalid " +:+ filter_name +:+ ": '" +:+ invalid_value +:+ "'" +:+ LF
         +:+ "Did you mean one of these?" +:+ LF)
  | ValueError message => message
  | OtherException message => message
  end.

(** ** services/car_service.py *)

Module CarService.

(** The fields of [CarDetail] that the service reads; the extended fields
    that no modelled function inspects (colours, rating, review, ...) are
    gathered in [extended]. *)
Record BasicInfo : Type := {
  name : string;
  manufacturer : option string;
  model : string;
  body_type : option string
}.

Record Price : Type := { value : Z; currency : string }.

Record Brand : Type := { brand_name : string }.

Record Engine : Type := {
  displacement : option (list (Z * string));
  engine_fuel_type : option (list string)
}.

Record Dimensions : Type := { seating_capacity : Z }.

Record CarDetail (Fuel Extended : Type) : Type := {
  id : string;
  basic_info : BasicInfo;
  price : Price;
  brand : Brand;
  engine : option Engine;
  transmission : option (list string);
  fuel : option Fuel;
  dimensions : option Dimensions;
  extended : option Extended
}.
Arguments id {Fuel Extended} _.
Arguments basic_info {Fuel Extended} _.
Arguments price {Fuel Extended} _.
Arguments brand {Fuel Extended} _.
Arguments engine {Fuel Extended} _.
Arguments transmission {Fuel Extended} _.
Arguments fuel {Fuel Extended} _.
Arguments dimensions {Fuel Extended} _.
Arguments extended {Fuel Extended} _.

(** The arguments of [list_cars] and [search] after [limit]. *)
Record filters : Type := {
  min_price : option Z;
  max_price : option Z;
  f_brand : option string;
  f_body_type : option string;
  f_fuel_type : option string;
  mileage_more_than : option float;
  mileage_less_than : option float;
  f_seating_capacity : option Z;
  f_transmission : option string;
  engine_displacement_more_than : option Z;
  engine_displacement_less_than : option Z;
  sort_by : option string;
  sort_order : string
}.

Section Service.
(** Types of the fuel record (whose [efficiency] holds values built by the
    preprocessor) and of the extended details. *)
Context {Fuel Extended : Type}.
(** [str.lower]. *)
Context (lower : string -> string).
(** [thefuzz.process.extract(query, choices, limit=...)]: the choices with
    their scores. *)
Context (extract : string -> list string -> Z -> list (string * Z)).

Abbreviation Car := (CarDetail Fuel Extended).

(** The attributes of a loaded service. *)
Record t : Type := {
  fuzzy_threshold : Z;
  cars : list (string * Car);
  available_brands : gset string;
  available_body_types : gset string;
  available_fuel_types : gset string;
  available_transmissions : gset string
}.

(** [CarDetail.get_basic_only] *)
Definition get_basic_only (car : Car) : Car :=
  {| id := id car; basic_info := basic_info car; price := price car;
     brand := brand car; engine := None; transmission := None;
     fuel := None; dimensions := None; extended := None |}.

(** [get_car_details] *)
Definition get_car_details (self : t) (car_id : string) : result Car :=
  match PyDict.get (lower car_id) (cars self) with
  | Some car => Return (get_basic_only car)
  | None =>
      let available_ids := PyDict.keys (cars self) in
      let suggestions := extract (lower car_id) available_ids 5 in
      let suggestion_list := map fst suggestions in
      Raise (CarNotFoundError
               ("Car '" +:+ car_id +:+ "' not found." +:+ LF
                +:+ "Did you mean one of these?" +:+ LF
                +:+ String.concat LF
                      (map (fun '(i, s) => "  " +:+ str_of_nat i +:+ ". " +:+ s)
                           (enumerate 1 suggestion_list))))
  end.

(** [_validate_filter_value]; [elements] lists the set in the order Python
    happens to iterate it. *)
Definition _validate_filter_value
    (filter_name value : string) (available_values : gset string)
  : result unit :=
  let available_values_lower := map lower (elements available_values) in
  if bool_decide (lower value ∈ available_values_lower) then Return tt
  else
    let suggestions := extract value (elements available_values) 5 in
    let suggestion_list :=
      map fst (List.filter (fun s => 60 <? snd s) suggestions) in
    let suggestion_list :=
      match suggestion_list with
      | [] => firstn 5 (py_sorted String.ltb (elements available_values))
      | _ => suggestion_list
      end in
    Raise (InvalidFilterError filter_name value suggestion_list).

(** The validation that opens both [list_cars] and [search]. *)
Definition validate_optional
    (filter_name : string) (value : option string) (available : gset string)
  : result unit :=
  match value with
  | Some v => _validate_filter_value filter_name v available
  | None => Return tt
  end.

Definition valid_sort_fields : list string :=
  ["price"; "mileage"; "seating_capacity"; "engine_displacement"].

Definition validate_arguments (self : t) (f : filters) : result unit :=
  _ ← validate_optional "brand" (f_brand f) (available_brands self);
  _ ← validate_optional "body_type" (f_body_type f) (available_body_types self);
  _ ← validate_optional "fuel_type" (f_fuel_type f) (available_fuel_types self);
  _ ← validate_optional "transmission" (f_transmission f)
        (available_transmissions self);
  _ ← match sort_by f with
      | Some sb =>
          if bool_decide (sb ∈ valid_sort_fields) then Return tt
          else Raise (ValueError
                        ("Invalid sort_by: '" +:+ sb +:+ "'. Must be one of: "
                         +:+ String.concat ", " valid_sort_fields))
      | None => Return tt
      end;
  if bool_decide (sort_order f ∈ ["asc"; "desc"]) then Return tt
  else Raise (ValueError
                ("Invalid sort_order: '" +:+ sort_order f
                 +:+ "'. Must be 'asc' or 'desc'")).

(** A value matches when its lower-case form is that of an available
    value. *)
Definition matches (value : string) (available : gset string) : Prop :=
  lower value ∈ map lower (elements available).

(** The suggestions an error carries: the choices [extract] scores above
    60, or else the first five available values in sorted order. *)
Definition suggestions_for (value : string) (available : gset string)
  : list string :=
  match map fst (List.filter (fun s => 60 <? snd s)
                             (extract value (elements available) 5)) with
  | [] => firstn 5 (py_sorted String.ltb (elements available))
  | found => found
  end.

(** The four validated filters in the order both methods check them. *)
Definition categorical (self : t) (f : filters)
  : list (string * option string * gset string) :=
  [("brand", f_brand f, available_brands self);
   ("body_type", f_body_type f, available_body_types self);
   ("fuel_type", f_fuel_type f, available_fuel_types self);
   ("transmission", f_transmission f, available_transmissions self)].

Definition accepted (c : string * option string * gset string) : Prop :=
  match c with
  | (_, Some value, available) => matches value available
  | (_, None, _) => True
  end.

(** What follows the validation: filtering over [self.cars], sorting and
    pagination, ending in [get_basic_only] for each car kept.  These steps
    compare prices, mileages and displacements whose values come from the
    preprocessor and raise nothing of their own; an exception that escapes
    them is a [TypeError] or a validation error of the data model, given
    here by its text. *)
Context (select_cars : t -> Z -> Z -> filters -> string + list Car).
Context (search_cars : t -> string -> Z -> filters -> string + list Car).

Definition after_validation (r : string + list Car) : result (list Car) :=
  match r with
  | inl message => Raise (OtherException message)
  | inr found => Return found
  end.

(** [list_cars] *)
Definition list_cars (self : t) (limit offset : Z) (f : filters)
  : result (list Car) :=
  _ ← validate_arguments self f;
  after_validation (select_cars self limit offset f).

(** [search] *)
Definition search (self : t) (query : string) (limit : Z) (f : filters)
  : result (list Car) :=
  _ ← validate_arguments self f;
  after_validation (search_cars self query limit f).

End Service.
End CarService.

(** ** core/toolkit.py *)

Module AgentToolKit.

Section CarTools.
Context {Fuel Extended : Type}.
Context (lower : string -> string).
Context (extract : string -> list string -> Z -> list (string * Z)).
Context (select_cars :
  CarService.t (Fuel := Fuel) (Extended := Extended) ->
  Z -> Z -> CarService.filters ->
  string + list (CarService.CarDetail Fuel Extended)).
Context (search_cars :
  CarService.t (Fuel := Fuel) (Extended := Extended) ->
  string -> Z -> CarService.filters ->
  string + list (CarService.CarDetail Fuel Extended)).
(** [serializers.serialize_car_detail], which may raise. *)
Context (serialize_car_detail :
  CarService.CarDetail Fuel Extended -> result string).

(** [list_cars] *)
Definition list_cars
    (car_service : CarService.t) (limit offset : Z) (f : CarService.filters)
  : result string :=
  try_except
    (cars ← CarService.list_cars lower extract select_cars
              car_service limit offset f;
     serialized_cars ← mapM serialize_car_detail cars;
     Return (String.concat (LF +:+ LF) serialized_cars))
    (fun e =>
       match e with
       | InvalidFilterError _ _ _ => Return ("Filter error: " +:+ exn_str e)
       | _ => Return ("Error listing cars: " +:+ exn_str e)
       end).

(** [search_car] *)
Definition search_car
    (car_service : CarService.t) (query : string) (limit : Z)
    (f : CarService.filters)
  : result string :=
  try_except
    (cars ← CarService.search lower extract search_cars
              car_service query limit f;
     match cars with
     | [] => Return "No cars found matching your search criteria."
     | _ =>
         serialized_cars ← mapM serialize_car_detail cars;
         Return (String.concat (LF +:+ LF) serialized_cars)
     end)
    (fun e =>
       match e with
       | InvalidFilterError _ _ _ => Return ("Filter error: " +:+ exn_str e)
       | _ => Return ("Error searching cars: " +:+ exn_str e)
       end).

(** [get_car_details] *)
Definition get_car_details (car_service : CarService.t) (car_id : string)
  : result string :=
  try_except
    (car ← CarService.get_car_details lower extract car_service car_id;
     serialize_car_detail car)
    (fun e =>
       match e with
       | CarNotFoundError _ => Return ("Car not found: " +:+ exn_str e)
       | _ => Return ("Error getting car details: " +:+ exn_str e)
       end).

End CarTools.

(** [book_ride].  [drawn] is the integer [random.randint(100000, 999999)]
    returns.  The Slack notification is sent inside its own [try] and its
    failure is only printed, so it leaves no trace in the result. *)
Definition book_ride
    (now : Z) (drawn : nat) (name phone_number : string)
    (st : StateManager.state)
  : string * StateManager.state :=
  let otp := str_of_nat drawn in
  ("Thank you, " +:+ name +:+ "! We've initiated your test drive booking. "
   +:+ "An OTP has been sent to " +:+ phone_number +:+ ". "
   +:+ "Please provide the OTP to confirm your booking.",
   StateManager.store_otp now phone_number otp name st).

Definition internal_confirmed : string :=
  "âœ… Booking confirmed with internal OTP! "
  +:+ "Our team will contact you shortly to schedule your test drive.".

Definition confirmed (name phone : string) : string :=
  "âœ… Booking confirmed! Thank you, " +:+ name +:+ ". "
  +:+ "Our team will contact you shortly at " +:+ phone
  +:+ " to schedule your test drive.".

Definition invalid_or_expired : string :=
  "âŒ Invalid or expired OTP. Please request a new booking or "
  +:+ "check the OTP and try again.".

(** A Python string is true when it is not empty. *)
Definition truthy (s : string) : bool := negb (String.eqb s "").

(** [confirm_ride].  [secret_otp] is what [os.getenv("INTERNAL_SECRET_OTP")]
    returns and [now] what [datetime.now()] reads inside [verify_otp].  The
    loop stops at the first session whose code is [otp], whatever the
    verification answers; nothing in the body raises, so the enclosing
    [except] is not entered. *)
Definition confirm_ride
    (secret_otp : option string) (now : Z) (otp : string)
    (st : StateManager.state)
  : string * StateManager.state :=
  let is_secret :=
    match secret_otp with
    | Some secret => truthy secret && String.eqb otp secret
    | None => false
    end in
  if is_secret then (internal_confirmed, st)
  else
    match List.find (fun pd => String.eqb (StateManager.otp (snd pd)) otp) st with
    | Some (phone, _) =>
        match StateManager.verify_otp now phone otp st with
        | ((true, Some name), st') => (confirmed name phone, st')
        | ((true, None), st') => (confirmed "None" phone, st')
        | ((false, _), st') => (invalid_or_expired, st')
        end
    | None => (invalid_or_expired, st)
    end.

(** An environment that does not make [otp] the internal code: the variable
    is unset, or empty, or differs from [otp]. *)
Definition not_internal (secret_otp : option string) (otp : string) : Prop :=
  match secret_otp with
  | Some secret => secret = "" \/ otp <> secret
  | None => True
  end.

End AgentToolKit.

(** ** services/faq_service.py *)

Module FAQService.

(** What [json.load] returns. *)
#[warnings="-register-all"]
Inductive json : Type :=
| JNull
| JBool (b : bool)
| JInt (n : Z)
| JFloat (x : float)
| JStr (s : string)
| JArr (items : list json)
| JObj (entries : list (string * json)).

(** [len(s)] for a string: its code points, which are the bytes of the
    UTF-8 text that are not continuation bytes. *)
Definition str_len (s : string) : nat :=
  length
    (List.filter (fun c => negb ((128 <=? nat_of_ascii c) && (nat_of_ascii c <? 192))%nat)
                 (list_ascii_of_string s)).

(** [len(v)]; [None] where Python raises [TypeError]. *)
Definition py_len (v : json) : option nat :=
  match v with
  | JStr s => Some (str_len s)
  | JArr items => Some (length items)
  | JObj entries => Some (length entries)
  | JNull | JBool _ | JInt _ | JFloat _ => None
  end.

(** One record of [self.faqs]. *)
Record faq : Type := {
  id : string;
  question : string;
  answer : string;
  category : string;
  subcategory : string
}.

Record QNAResult : Type := {
  r_id : string;
  r_question : string;
  r_answer : string;
  score : float;
  r_category : string;
  r_subcategory : string
}.

(** A two-dimensional array is the list of its rows; [np.array([])], which
    has one dimension and no element, is the empty list. *)
Definition vector : Type := list float.
Definition matrix : Type := list (list float).

(** [np.linalg.norm]: the square root of the sum of the squares.  numpy
    does not fix the order of the additions; they are made from left to
    right here. *)
Definition norm (v : vector) : float :=
  PrimFloat.sqrt (fold_left (fun acc x => acc + x * x)%float v 0%float).

(** [np.dot] of two vectors, the products added from left to right. *)
Definition dot (u v : vector) : float :=
  fold_left (fun acc ab => acc + fst ab * snd ab)%float (combine u v) 0%float.

(** [v / d]: numpy divides element by element and does not raise when the
    divisor is zero (it warns and yields [nan] or an infinity). *)
Definition divide (v : vector) (d : float) : vector :=
  map (fun x => x / d)%float v.

(** [cosine_similarity] *)
Definition cosine_similarity (a b : vector) : result float :=
  if (length a =? length b)%nat
  then Return (dot a b / (norm a * norm b))%float
  else Raise (ValueError "shapes not aligned").

(** [cosine_similarity_batch].  [np.linalg.norm(embeddings, axis=1)] raises
    on an array of one dimension, and [np.dot] on rows whose length is not
    the query's. *)
Definition cosine_similarity_batch
    (query_embedding : vector) (embeddings : matrix) : result (list float) :=
  let query_norm := divide query_embedding (norm query_embedding) in
  match embeddings with
  | [] =>
      Raise (OtherException
               "axis 1 is out of bounds for array of dimension 1")
  | _ =>
      let embeddings_norm :=
        map (fun row => divide row (norm row)) embeddings in
      if forallb (fun row => (length row =? length query_norm)%nat)
                 embeddings_norm
      then Return (map (fun row => dot row query_norm) embeddings_norm)
      else Raise (ValueError "shapes not aligned")
  end.

(** An entry of the FAQ file: a JSON object whose values are strings. *)
Definition raw_faq : Type := list (string * string).

(** [faq.get(key, "")] *)
Definition get_or_empty (key : string) (entry : raw_faq) : string :=
  match PyDict.get key entry with
  | Some v => v
  | None => ""
  end.

(** The loop of [__init__] that gives each record its index as [id]. *)
Definition add_ids (faq_data : list raw_faq) : list faq :=
  map (fun '(i, entry) =>
         {| id := str_of_nat i;
            question := get_or_empty "question" entry;
            answer := get_or_empty "answer" entry;
            category := get_or_empty "category" entry;
            subcategory := get_or_empty "subcategory" entry |})
      (enumerate 0 faq_data).

(** A record as [json.dump] writes it into ["metadata"]. *)
Definition faq_to_json (f : faq) : json :=
  JObj [("id", JStr (id f)); ("question", JStr (question f));
        ("answer", JStr (answer f)); ("category", JStr (category f));
        ("subcategory", JStr (subcategory f))].

(** [ndarray.tolist()] *)
Definition tolist (m : matrix) : json :=
  JArr (map (fun row => JArr (map JFloat row)) m).

(** The cache file as [open] and [json.load] find it. *)
Inductive cache_read : Type :=
| Unreadable
| Parsed (cache_data : json).

(** [_validate_cache]: every exception inside is caught and answers
    [False]. *)
Definition _validate_cache (cache_file : cache_read) (faqs : list faq) : bool :=
  match cache_file with
  | Parsed (JObj cache_data) =>
      if negb (forallb (fun k => PyDict.contains k cache_data)
                       ["questions"; "answers"; "metadata"])
      then false
      else
        match PyDict.get "questions" cache_data ≫= py_len,
              PyDict.get "answers" cache_data ≫= py_len,
              PyDict.get "metadata" cache_data ≫= py_len with
        | Some n_questions, Some n_answers, Some n_metadata =>
            if negb (n_questions =? n_answers)%nat
               || negb (n_questions =? n_metadata)%nat
            then false
            else if negb (n_metadata =? length faqs)%nat then false
            else true
        | _, _, _ => false
        end
  | Parsed _ => false
  | Unreadable => false
  end.

(** Where [__init__] takes the embeddings from. *)
Inductive source : Type :=
| LoadFromCache
| GenerateAndCache.

(** The test of [__init__]: [self._cache_exists() and
    self._validate_cache()].  [None] is a cache path that does not exist. *)
Definition choose_source (cache_file : option cache_read) (faqs : list faq)
  : source :=
  match cache_file with
  | Some file =>
      if _validate_cache file faqs then LoadFromCache else GenerateAndCache
  | None => GenerateAndCache
  end.

Section Service.
(** [openai.embeddings.create] for one batch: the embeddings of the
    texts. *)
Context (embeddings_create : list string -> result matrix).
(** [np.array] applied to a value read from the cache. *)
Context (np_array : json -> result matrix).

(** [texts[i:i+batch_size]] for [i] in [range(0, len(texts), batch_size)];
    there are at most [len(texts)] batches. *)
Fixpoint batches (fuel batch_size : nat) (texts : list string)
  : list (list string) :=
  match fuel, texts with
  | O, _ | _, [] => []
  | S fuel', _ =>
      firstn batch_size texts :: batches fuel' batch_size (skipn batch_size texts)
  end.

(** [get_embeddings] with its default batch size. *)
Definition get_embeddings (texts : list string) : result matrix :=
  parts ← mapM embeddings_create (batches (length texts) 50 texts);
  Return (List.concat parts).

(** The attributes of the service. *)
Record t : Type := {
  faqs : list faq;
  question_embeddings : matrix;
  answer_embeddings : matrix
}.

(** [_load_from_cache] *)
Definition _load_from_cache (cache_file : cache_read) (faqs : list faq)
  : result t :=
  match cache_file with
  | Parsed (JObj cache_data) =>
      match PyDict.get "questions" cache_data,
            PyDict.get "answers" cache_data with
      | Some q, Some a =>
          question_embeddings ← np_array q;
          answer_embeddings ← np_array a;
          Return {| faqs := faqs;
                    question_embeddings := question_embeddings;
                    answer_embeddings := answer_embeddings |}
      | _, _ => Raise (OtherException "KeyError")
      end
  | _ => Raise (OtherException "cache file cannot be read")
  end.

(** [_generate_and_cache_embeddings]: the service and the cache it
    writes. *)
Definition _generate_and_cache_embeddings (faqs : list faq)
  : result (t * json) :=
  question_embeddings ← get_embeddings (map question faqs);
  answer_embeddings ← get_embeddings (map answer faqs);
  Return ({| faqs := faqs;
             question_embeddings := question_embeddings;
             answer_embeddings := answer_embeddings |},
          JObj [("questions", tolist question_embeddings);
                ("answers", tolist answer_embeddings);
                ("metadata", JArr (map faq_to_json faqs))]).

(** [__init__] from the parsed FAQ file and the cache file found: the
    service, and the cache file written if one is. *)
Definition init (faq_data : list raw_faq) (cache_file : option cache_read)
  : result (t * option json) :=
  let faqs := add_ids faq_data in
  match choose_source cache_file faqs, cache_file with
  | LoadFromCache, Some file =>
      self ← _load_from_cache file faqs;
      Return (self, None)
  | _, _ =>
      '(self, written) ← _generate_and_cache_embeddings faqs;
      Return (self, Some written)
  end.

(** [self.faqs[i]] *)
Definition faq_at (self : t) (i : nat) : result faq :=
  match nth_error (faqs self) i with
  | Some f => Return f
  | None => Raise (OtherException "list index out of range")
  end.

(** The first loop of [search]: the question scores enter the dictionary. *)
Fixpoint add_question_matches
    (self : t) (scores : list (nat * float))
    (results_dict : list (string * (faq * float)))
  : result (list (string * (faq * float))) :=
  match scores with
  | [] => Return results_dict
  | (i, score) :: rest =>
      f ← faq_at self i;
      add_question_matches self rest (PyDict.set (id f) (f, score) results_dict)
  end.

(** The second loop: an answer score replaces a smaller score. *)
Fixpoint merge_answer_matches
    (self : t) (scores : list (nat * float))
    (results_dict : list (string * (faq * float)))
  : result (list (string * (faq * float))) :=
  match scores with
  | [] => Return results_dict
  | (i, score) :: rest =>
      f ← faq_at self i;
      let faq_id := id f in
      merge_answer_matches self rest
        match PyDict.get faq_id results_dict with
        | Some (_, existing_score) =>
            if (existing_score <? score)%float
            then PyDict.set faq_id (f, score) results_dict
            else results_dict
        | None => PyDict.set faq_id (f, score) results_dict
        end
  end.

Definition to_result (entry : faq * float) : QNAResult :=
  let '(f, s) := entry in
  {| r_id := id f; r_question := question f; r_answer := answer f;
     score := s; r_category := category f; r_subcategory := subcategory f |}.

(** The comparison of the sort key, [x.score]. *)
Definition by_score (x y : QNAResult) : bool := (score x <? score y)%float.

(** [search] *)
Definition search (self : t) (query : string) (limit : Z)
  : result (list QNAResult) :=
  embedded ← get_embeddings [query];
  query_embedding ←
    match embedded with
    | q :: _ => Return q
    | [] => Raise (OtherException "index 0 is out of bounds")
    end;
  question_similarities ←
    cosine_similarity_batch query_embedding (question_embeddings self);
  answer_similarities ←
    cosine_similarity_batch query_embedding (answer_embeddings self);
  results_dict ←
    add_question_matches self (enumerate 0 question_similarities) [];
  results_dict ←
    merge_answer_matches self (enumerate 0 answer_similarities) results_dict;
  let results := map to_result (PyDict.values results_dict) in
  let results := py_sorted_reverse by_score results in
  Return (slice_to limit results).

End Service.

(** *** What the properties speak of *)

(** What the validation looks at: the three entries and their lengths. *)
Definition counts_agree (cache_data : list (string * json)) (n : nat) : Prop :=
  exists q a m,
    PyDict.get "questions" cache_data = Some q
    /\ PyDict.get "answers" cache_data = Some a
    /\ PyDict.get "metadata" cache_data = Some m
    /\ py_len q = Some n /\ py_len a = Some n /\ py_len m = Some n.

(** The similarity the batch computes for one row: the dot product of the
    normalised row and the normalised query. *)
Definition cos (query row : vector) : float :=
  dot (divide row (norm row)) (divide query (norm query)).

(** What the merge keeps of a question score [q] and an answer score [a]:
    the answer's when it is greater, the question's otherwise.  This is
    Python's [max(q, a)]. *)
Definition best (q a : float) : float := if (q <? a)%float then a else q.

(** Every record with its merged score, in the order of the records. *)
Definition merged (self : t) (query_embedding : vector) : list QNAResult :=
  map to_result
    (combine (faqs self)
       (zip_with best
          (map (cos query_embedding) (question_embeddings self))
          (map (cos query_embedding) (answer_embeddings self)))).

Definition entries (fs : list faq) (ss : list float)
  : list (string * (faq * float)) :=
  map (fun e => (id (fst e), e)) (combine fs ss).

End FAQService.

(** ** core/toolkit.py: the FAQ tool *)

Module FAQTool.
Section Tool.
Context (embeddings_create : list string -> result FAQService.matrix).
(** [json.dumps([result.model_dump() for result in results], indent=2)] *)
Context (json_dumps : list FAQService.QNAResult -> string).

Definition no_relevant_information : string :=
  "I couldn't find any relevant information in our FAQ database. "
  +:+ "Please contact customer support for assistance.".

(** [search_faq] *)
Definition search_faq
    (faq_service : FAQService.t) (query : string) (limit : Z)
  : result string :=
  try_except
    (let limit := Z.min limit 15 in
     results ← FAQService.search embeddings_create faq_service query limit;
     match results with
     | [] => Return no_relevant_information
     | first :: _ =>
         if (FAQService.score first <? 0.5)%float
         then Return no_relevant_information
         else Return (json_dumps results)
     end)
    (fun e => Return ("Error searching FAQs: " +:+ exn_str e)).

End Tool.
End FAQTool.

(** ** services/car_service.py: lookup, comparison, filtering and paging *)

(** [l[start:stop]]: a negative index counts from the end, and both ends
    are brought into the list. *)
Definition slice_index (i : Z) (n : nat) : nat :=
  if i <? 0 then Z.to_nat (Z.max (i + Z.of_nat n) 0)
  else Nat.min (Z.to_nat i) n.

Definition slice {A : Type} (start stop : Z) (l : list A) : list A :=
  let first := slice_index start (length l) in
  let last := slice_index stop (length l) in
  firstn (last - first) (skipn first l).

(** [needle in text] for two strings. *)
Fixpoint str_contains (needle text : string) : bool :=
  String.prefix needle text
  || match text with
     | EmptyString => false
     | String _ rest => str_contains needle rest
     end.

(** [str(i)] for an integer. *)
Definition str_of_Z (i : Z) : string :=
  if i <? 0 then "-" +:+ str_of_nat (Z.to_nat (- i))
  else str_of_nat (Z.to_nat i).

Module CarCatalogue.
Import CarService.

(** A value of type [Any]: what [json.load] can return. *)
Abbreviation Any := FAQService.json.
Abbreviation JNull := FAQService.JNull.
Abbreviation JInt := FAQService.JInt.
Abbreviation JFloat := FAQService.JFloat.
Abbreviation JStr := FAQService.JStr.

(** [Fuel], and of the extended fields of [CarDetail] the one that is read,
    [rating], with its [value]. *)
Record Fuel : Type := {
  type : list string;
  efficiency : option (list (string * Any))
}.

Record Rating : Type := { rating_value : option float }.

Record Extended : Type := { rating : option Rating }.

Abbreviation Car := (CarDetail Fuel Extended).
Abbreviation Service := (CarService.t (Fuel := Fuel) (Extended := Extended)).

Record CarComparison : Type := {
  compared_cars : list Car;
  comparison_matrix : list (string * list Any)
}.

Section Catalogue.
Context (lower : string -> string).
Context (extract : string -> list string -> Z -> list (string * Z)).
(** [str(v)], which an f-string applies to the value it formats. *)
Context (py_str : Any -> string).
(** [v <= bound] and [v >= bound] for a value of the efficiency dictionary
    and a float; they raise where Python does, as for a string. *)
Context (any_le any_ge : Any -> float -> result bool).
(** [list.sort(key=..., reverse=...)] when some key holds a value that is
    not an integer: which pairs Python then compares, and so whether and
    what it raises, is left to the interpreter. *)
Context (sort_other_keys :
  (Car -> bool * Any) -> bool -> list Car -> result (list Car)).

(** [get_extended_car_details] *)
Definition get_extended_car_details (self : Service) (car_id : string)
  : result Car :=
  match PyDict.get (lower car_id) (cars self) with
  | Some car => Return car
  | None =>
      let available_ids := PyDict.keys (cars self) in
      let suggestions := extract (lower car_id) available_ids 5 in
      let suggestion_list := map fst suggestions in
      Raise (CarNotFoundError
               ("Car '" +:+ car_id +:+ "' not found." +:+ LF
                +:+ "Did you mean one of these?" +:+ LF
                +:+ String.concat LF
                      (map (fun '(i, s) => "  " +:+ str_of_nat i +:+ ". " +:+ s)
                           (enumerate 1 suggestion_list))))
  end.

(** The rows of the comparison matrix, one function per row: what the row
    holds for one car. *)
Definition na : Any := JStr "N/A".

Definition row_price (car : Car) : Any := JInt (value (price car)).

Definition row_brand (car : Car) : Any := JStr (brand_name (brand car)).

Definition row_body_type (car : Car) : Any :=
  match body_type (basic_info car) with
  | Some bt => if AgentToolKit.truthy bt then JStr bt else na
  | None => na
  end.

Definition row_displacement (car : Car) : Any :=
  match engine car with
  | Some e =>
      match displacement e with
      | Some ((_ :: _) as ds) =>
          JStr (String.concat ", "
                  (map (fun d => str_of_Z (fst d) +:+ snd d) ds))
      | _ => na
      end
  | None => na
  end.

Definition row_fuel_type (car : Car) : Any :=
  match fuel car with
  | Some {| type := (_ :: _) as types |} => JStr (String.concat ", " types)
  | _ =>
      match engine car with
      | Some e =>
          match engine_fuel_type e with
          | Some ((_ :: _) as types) => JStr (String.concat ", " types)
          | _ => na
          end
      | None => na
      end
  end.

Definition row_transmission (car : Car) : Any :=
  match transmission car with
  | Some ((_ :: _) as ts) => JStr (String.concat ", " ts)
  | _ => na
  end.

(** [eff.get('unit', '')] *)
Definition unit_of (eff : list (string * Any)) : Any :=
  match PyDict.get "unit" eff with
  | Some u => u
  | None => JStr ""
  end.

Definition row_mileage (car : Car) : Any :=
  match fuel car with
  | Some {| efficiency := Some ((_ :: _) as eff) |} =>
      match PyDict.get "value" eff with
      | Some v => JStr (py_str v +:+ " " +:+ py_str (unit_of eff))
      | None =>
          match PyDict.get "min" eff, PyDict.get "max" eff with
          | Some lo, Some hi =>
              JStr (py_str lo +:+ "-" +:+ py_str hi +:+ " "
                    +:+ py_str (unit_of eff))
          | _, _ => na
          end
      end
  | _ => na
  end.

Definition row_seating (car : Car) : Any :=
  match dimensions car with
  | Some d => JInt (seating_capacity d)
  | None => na
  end.

Definition row_rating (car : Car) : Any :=
  match extended car with
  | Some {| rating := Some {| rating_value := Some v |} |} =>
      JStr (py_str (JFloat v) +:+ "/10")
  | _ => na
  end.

(** The rows in the order the matrix is filled. *)
Definition matrix_rows : list (string * (Car -> Any)) :=
  [("Price (INR)", row_price); ("Brand", row_brand);
   ("Body Type", row_body_type);
   ("Engine Displacement", row_displacement);
   ("Fuel Type", row_fuel_type); ("Transmission", row_transmission);
   ("Mileage", row_mileage); ("Seating Capacity", row_seating);
   ("Rating", row_rating)].

(** [get_car_comparison] *)
Definition get_car_comparison (self : Service) (car_ids : list string)
  : result CarComparison :=
  cars ← mapM (get_extended_car_details self) car_ids;
  match cars with
  | [] => Raise (ValueError "No cars provided for comparison")
  | _ =>
      Return {| compared_cars := cars;
                comparison_matrix :=
                  map (fun '(label, row) => (label, map row cars))
                      matrix_rows |}
  end.

(** One test of [_matches_filters]: [if c: return False]. *)
Definition reject_if (c : bool) (rest : result bool) : result bool :=
  if c then Return false else rest.

Definition is_set {A : Type} (o : option A) : bool :=
  match o with Some _ => true | None => false end.

(** [ft.lower()] for the fuel types of the car, those of [fuel] first. *)
Definition fuel_types_lower (car : Car) : list string :=
  (match fuel car with
   | Some fu => map lower (type fu)
   | None => []
   end
   ++ match engine car with
      | Some e =>
          match engine_fuel_type e with
          | Some types => map lower types
          | None => []
          end
      | None => []
      end)%list.

(** The mileage both the filter and the sort key read: the single value,
    or else the upper end of the range, or else the lower. *)
Definition mileage_of (eff : list (string * Any)) : option Any :=
  match PyDict.get "value" eff with
  | Some v => Some v
  | None =>
      match PyDict.get "max" eff with
      | Some v => Some v
      | None => PyDict.get "min" eff
      end
  end.

Definition max_of (first : Z) (others : list Z) : Z :=
  fold_left Z.max others first.

Definition min_of (first : Z) (others : list Z) : Z :=
  fold_left Z.min others first.

(** [_matches_filters] *)
Definition _matches_filters (car : Car) (f : filters) : result bool :=
  reject_if
    match min_price f with
    | Some m => value (price car) <? m
    | None => false
    end
  (reject_if
    match max_price f with
    | Some m => value (price car) >? m
    | None => false
    end
  (reject_if
    match f_brand f with
    | Some b =>
        negb (AgentToolKit.truthy (brand_name (brand car)))
        || negb (String.eqb (lower (brand_name (brand car))) (lower b))
    | None => false
    end
  (reject_if
    match f_body_type f with
    | Some b =>
        match body_type (basic_info car) with
        | Some bt =>
            negb (AgentToolKit.truthy bt)
            || negb (String.eqb (lower bt) (lower b))
        | None => true
        end
    | None => false
    end
  (reject_if
    match f_fuel_type f with
    | Some ft => negb (existsb (String.eqb (lower ft)) (fuel_types_lower car))
    | None => false
    end
  (reject_if
    match f_transmission f with
    | Some t =>
        match transmission car with
        | Some ((_ :: _) as ts) =>
            negb (existsb (String.eqb (lower t)) (map lower ts))
        | _ => true
        end
    | None => false
    end
  (reject_if
    match f_seating_capacity f with
    | Some sc =>
        match dimensions car with
        | Some d => negb (seating_capacity d =? sc)
        | None => true
        end
    | None => false
    end
  (reject_if
    (if is_set (engine_displacement_more_than f)
        || is_set (engine_displacement_less_than f)
     then
       match engine car ≫= displacement with
       | Some (d :: ds) =>
           let max_displacement := max_of (fst d) (map fst ds) in
           let min_displacement := min_of (fst d) (map fst ds) in
           match engine_displacement_more_than f with
           | Some m => max_displacement <=? m
           | None => false
           end
           || match engine_displacement_less_than f with
              | Some m => min_displacement >=? m
              | None => false
              end
       | _ => true
       end
     else false)
  (if is_set (mileage_more_than f) || is_set (mileage_less_than f)
   then
     match fuel car ≫= efficiency with
     | Some ((_ :: _) as eff) =>
         match mileage_of eff with
         | None | Some FAQService.JNull => Return false
         | Some car_mileage =>
             too_low ← match mileage_more_than f with
                       | Some m => any_le car_mileage m
                       | None => Return false
                       end;
             reject_if too_low
               (too_high ← match mileage_less_than f with
                           | Some m => any_ge car_mileage m
                           | None => Return false
                           end;
                reject_if too_high (Return true))
         end
     | _ => Return false
     end
   else Return true)))))))).

(** [_get_sort_value] *)
Definition _get_sort_value (car : Car) (sort_by : string) : bool * Any :=
  if String.eqb sort_by "price" then (true, JInt (value (price car)))
  else if String.eqb sort_by "mileage" then
    match fuel car ≫= efficiency with
    | Some ((_ :: _) as eff) =>
        match mileage_of eff with
        | Some v => (true, v)
        | None => (false, JInt 0)
        end
    | _ => (false, JInt 0)
    end
  else if String.eqb sort_by "seating_capacity" then
    match dimensions car with
    | Some d => (true, JInt (seating_capacity d))
    | None => (false, JInt 0)
    end
  else if String.eqb sort_by "engine_displacement" then
    match engine car ≫= displacement with
    | Some (d :: ds) => (true, JInt (max_of (fst d) (map fst ds)))
    | _ => (false, JInt 0)
    end
  else (true, JInt 0).

(** Keys whose second component is an integer, and Python's order of such
    pairs: by the first component, [False] before [True], then by the
    second. *)
Definition int_key (k : bool * Any) : option (bool * Z) :=
  match k with
  | (has_value, FAQService.JInt n) => Some (has_value, n)
  | _ => None
  end.

Definition pair_lt (a b : bool * Z) : bool :=
  if Bool.eqb (fst a) (fst b) then snd a <? snd b
  else negb (fst a) && fst b.

Definition key_lt (a b : bool * Any) : bool :=
  match int_key a, int_key b with
  | Some x, Some y => pair_lt x y
  | _, _ => false
  end.

(** [cars.sort(key=key, reverse=reverse)] *)
Definition sort_cars (key : Car -> bool * Any) (reverse : bool) (l : list Car)
  : result (list Car) :=
  if forallb (fun car => is_set (int_key (key car))) l then
    Return ((if reverse then py_sorted_reverse else py_sorted)
              (fun a b => key_lt (key a) (key b)) l)
  else sort_other_keys key reverse l.

(** The loop that collects the cars passing the filters. *)
Fixpoint filter_cars (f : filters) (l : list Car) : result (list Car) :=
  match l with
  | [] => Return []
  | car :: rest =>
      keep ← _matches_filters car f;
      kept ← filter_cars f rest;
      Return (if keep : bool then car :: kept else kept)
  end.

(** What [list_cars] does after the validation: filter, sort, page and
    strip. *)
Definition list_cars_body (self : Service) (limit offset : Z) (f : filters)
  : result (list Car) :=
  filtered_cars ← filter_cars f (PyDict.values (cars self));
  sorted_cars ←
    match sort_by f with
    | Some sb =>
        if AgentToolKit.truthy sb then
          sort_cars (fun c => _get_sort_value c sb)
                    (String.eqb (sort_order f) "desc") filtered_cars
        else
          Return (py_sorted (fun a b => value (price a) <? value (price b))
                            filtered_cars)
    | None =>
        Return (py_sorted (fun a b => value (price a) <? value (price b))
                          filtered_cars)
    end;
  let paginated := slice offset (offset + limit) sorted_cars in
  Return (map get_basic_only paginated).

(** The same as the value [CarService.list_cars] takes for its filtering
    step, and [list_cars] whole. *)
Definition select_cars (self : Service) (limit offset : Z) (f : filters)
  : string + list Car :=
  match list_cars_body self limit offset f with
  | Raise e => inl (exn_str e)
  | Return found => inr found
  end.

Definition list_cars (self : Service) (limit offset : Z) (f : filters)
  : result (list Car) :=
  CarService.list_cars lower extract select_cars self limit offset f.

(** One turn of the loop of [_load_cars] for a file that loads: the car
    is stored under the lower-case stem of the file name and its values
    are added to the sets the validation reads.  [update] with an empty
    list adds nothing, as the guard of the source has it. *)
Definition track (car_id : string) (car : Car) (self : Service) : Service :=
  {| fuzzy_threshold := fuzzy_threshold self;
     cars := PyDict.set car_id car (cars self);
     available_brands :=
       if AgentToolKit.truthy (brand_name (brand car))
       then {[brand_name (brand car)]} ∪ available_brands self
       else available_brands self;
     available_body_types :=
       match body_type (basic_info car) with
       | Some bt =>
           if AgentToolKit.truthy bt
           then {[bt]} ∪ available_body_types self
           else available_body_types self
       | None => available_body_types self
       end;
     available_fuel_types :=
       match engine car ≫= engine_fuel_type with
       | Some types => list_to_set types
       | None => ∅
       end
       ∪ (match fuel car with
          | Some fu => list_to_set (type fu)
          | None => ∅
          end
          ∪ available_fuel_types self);
     available_transmissions :=
       match transmission car with
       | Some ts => list_to_set ts ∪ available_transmissions self
       | None => available_transmissions self
       end |}.

(** [_load_cars] over the files found, each with its stem and with the car
    that reading, preprocessing and validating it yields, if they succeed;
    a file that fails is reported and skipped. *)
Definition _load_cars (json_files : list (string * option Car)) (self : Service)
  : Service :=
  fold_left
    (fun self '(stem, loaded) =>
       match loaded with
       | Some car => track (lower stem) car self
       | None => self
       end)
    json_files self.

(** [__init__]; [None] is a folder that does not exist. *)
Definition init
    (json_folder : string) (found : option (list (string * option Car)))
    (fuzzy_threshold : Z)
  : result Service :=
  let self :=
    {| fuzzy_threshold := fuzzy_threshold; cars := [];
       available_brands := ∅; available_body_types := ∅;
       available_fuel_types := ∅; available_transmissions := ∅ |} in
  match found with
  | None => Raise (ValueError ("JSON folder not found: " +:+ json_folder))
  | Some [] => Raise (ValueError ("No JSON files found in: " +:+ json_folder))
  | Some json_files => Return (_load_cars json_files self)
  end.

(** [thefuzz.fuzz.partial_ratio] *)
Context (partial_ratio : string -> string -> Z).
(** The sort of [search] when some key holds a value that is not an
    integer: the key negates the value for a descending order, which
    raises for a value that has no negation, and compares what remains as
    Python does. *)
Context (sort_scored_other_keys :
  string -> string -> list (Car * Z) -> result (list (Car * Z))).

(** The test of the direct search: the query occurs in the name, in the
    manufacturer if there is one, or in the model. *)
Definition text_matches (query_lower : string) (car : Car) : bool :=
  str_contains query_lower (lower (name (basic_info car)))
  || match manufacturer (basic_info car) with
     | Some m => AgentToolKit.truthy m && str_contains query_lower (lower m)
     | None => false
     end
  || str_contains query_lower (lower (model (basic_info car))).

(** The first loop of [search]: the cars in which the query occurs and
    that pass the filters, each with the score 100. *)
Fixpoint direct_matches (f : filters) (query_lower : string) (l : list Car)
  : result (list (Car * Z)) :=
  match l with
  | [] => Return []
  | car :: rest =>
      if text_matches query_lower car then
        keep ← _matches_filters car f;
        others ← direct_matches f query_lower rest;
        Return (if keep : bool then (car, 100) :: others else others)
      else direct_matches f query_lower rest
  end.

(** The second loop, run when the first found nothing: the cars whose name
    is scored at least the threshold and that pass the filters. *)
Fixpoint fuzzy_matches
    (threshold : Z) (f : filters) (query_lower : string) (l : list Car)
  : result (list (Car * Z)) :=
  match l with
  | [] => Return []
  | car :: rest =>
      let score := partial_ratio query_lower (lower (name (basic_info car))) in
      if score >=? threshold then
        keep ← _matches_filters car f;
        others ← fuzzy_matches threshold f query_lower rest;
        Return (if keep : bool then (car, score) :: others else others)
      else fuzzy_matches threshold f query_lower rest
  end.

(** The key of the sort on a field, when the value is an integer:
    [(has_value, value or -value, -score)]. *)
Definition scored_key (sort_by sort_order : string) (x : Car * Z)
  : option (bool * Z * Z) :=
  match int_key (_get_sort_value (fst x) sort_by) with
  | Some (has_value, v) =>
      Some (has_value, if String.eqb sort_order "asc" then v else - v, - snd x)
  | None => None
  end.

(** Python's order of triples and of pairs of integers. *)
Definition triple_lt (a b : bool * Z * Z) : bool :=
  let '(a1, a2, a3) := a in
  let '(b1, b2, b3) := b in
  if Bool.eqb a1 b1 then
    if a2 =? b2 then a3 <? b3 else a2 <? b2
  else negb a1 && b1.

Definition score_price_lt (a b : Car * Z) : bool :=
  if - snd a =? - snd b then value (price (fst a)) <? value (price (fst b))
  else - snd a <? - snd b.

Definition sort_scored (sort_by sort_order : string) (l : list (Car * Z))
  : result (list (Car * Z)) :=
  if forallb (fun x => is_set (scored_key sort_by sort_order x)) l then
    Return (py_sorted
              (fun a b =>
                 match scored_key sort_by sort_order a,
                       scored_key sort_by sort_order b with
                 | Some x, Some y => triple_lt x y
                 | _, _ => false
                 end)
              l)
  else sort_scored_other_keys sort_by sort_order l.

(** What [search] does after the validation. *)
Definition search_body (self : Service) (query : string) (limit : Z) (f : filters)
  : result (list Car) :=
  let query_lower := lower query in
  matching_cars ← direct_matches f query_lower (PyDict.values (cars self));
  matching_cars ←
    match matching_cars with
    | [] =>
        fuzzy_matches (fuzzy_threshold self) f query_lower
          (PyDict.values (cars self))
    | _ => Return matching_cars
    end;
  sorted_cars ←
    match sort_by f with
    | Some sb =>
        if AgentToolKit.truthy sb
        then sort_scored sb (sort_order f) matching_cars
        else Return (py_sorted score_price_lt matching_cars)
    | None => Return (py_sorted score_price_lt matching_cars)
    end;
  let results := map fst (slice_to limit sorted_cars) in
  Return (map get_basic_only results).

(** The value [CarService.search] takes for its search step, and [search]
    whole. *)
Definition search_cars (self : Service) (query : string) (limit : Z) (f : filters)
  : string + list Car :=
  match search_body self query limit f with
  | Raise e => inl (exn_str e)
  | Return found => inr found
  end.

Definition search (self : Service) (query : string) (limit : Z) (f : filters)
  : result (list Car) :=
  CarService.search lower extract search_cars self query limit f.

End Catalogue.

(** *** What the properties speak of *)

(** The order of the default sort of [search]: the higher score first, and
    among equal scores the lower price first. *)
Definition by_score_then_price (a b : Car * Z) : Prop :=
  snd b < snd a \/ (snd a = snd b /\ value (price (fst a)) <= value (price (fst b))).

(** The order of the sort of [search] on a field: cars that lack the value
    first; then by the value, ascending or descending; then the higher
    score first. *)
Definition by_scored_key (sort_by sort_order : string) (a b : Car * Z) : Prop :=
  match scored_key sort_by sort_order a, scored_key sort_by sort_order b with
  | Some (a1, a2, a3), Some (b1, b2, b3) =>
      match a1, b1 with
      | false, true => True
      | true, false => False
      | _, _ => a2 < b2 \/ (a2 = b2 /\ a3 <= b3)
      end
  | _, _ => False
  end.

(** What the filters ask of a car, mileage apart: a price within the
    bounds; the brand and the body type of the filter, case ignored; the
    fuel type among the car's or its engine's; the transmission among the
    car's; the seating capacity; and, for the displacement bounds, some
    variant of the engine above the lower bound and some variant below the
    upper one. *)
Definition passes (lower : string -> string) (car : Car) (f : filters) : Prop :=
  (forall m, min_price f = Some m -> m <= value (price car))
  /\ (forall m, max_price f = Some m -> value (price car) <= m)
  /\ (forall b, f_brand f = Some b ->
                brand_name (brand car) <> ""
                /\ lower (brand_name (brand car)) = lower b)
  /\ (forall b, f_body_type f = Some b ->
                exists bt, body_type (basic_info car) = Some bt
                           /\ bt <> "" /\ lower bt = lower b)
  /\ (forall ft, f_fuel_type f = Some ft ->
                 In (lower ft) (fuel_types_lower lower car))
  /\ (forall t, f_transmission f = Some t ->
                exists ts, transmission car = Some ts
                           /\ In (lower t) (map lower ts))
  /\ (forall sc, f_seating_capacity f = Some sc ->
                 exists d, dimensions car = Some d /\ seating_capacity d = sc)
  /\ (forall m, engine_displacement_more_than f = Some m ->
                exists e ds d, engine car = Some e
                               /\ displacement e = Some ds
                               /\ In d ds /\ m < fst d)
  /\ (forall m, engine_displacement_less_than f = Some m ->
                exists e ds d, engine car = Some e
                               /\ displacement e = Some ds
                               /\ In d ds /\ fst d < m).

(** The values of a car are among those the validation accepts: its
    brand and body type when not empty, the fuel types of its fuel record
    and of its engine, and its transmissions. *)
Definition values_available (car : Car) (self : Service) : Prop :=
  (brand_name (brand car) <> "" -> brand_name (brand car) ∈ available_brands self)
  /\ (forall bt, body_type (basic_info car) = Some bt -> bt <> "" ->
                 bt ∈ available_body_types self)
  /\ (forall fu t, fuel car = Some fu -> In t (type fu) ->
                   t ∈ available_fuel_types self)
  /\ (forall e ts t, engine car = Some e -> engine_fuel_type e = Some ts ->
                     In t ts -> t ∈ available_fuel_types self)
  /\ (forall ts t, transmission car = Some ts -> In t ts ->
                   t ∈ available_transmissions self).

(** Whether [_matches_filters] answers [True] for the car. *)
Definition kept_by
    (lower : string -> string) (any_le any_ge : Any -> float -> result bool)
    (f : filters) (car : Car) : bool :=
  match _matches_filters lower any_le any_ge car f with
  | Return true => true
  | _ => false
  end.

(** The order of the sort keys that hold integers. *)
Definition pair_le (a b : bool * Z) : Prop :=
  match fst a, fst b with
  | false, true => True
  | true, false => False
  | _, _ => snd a <= snd b
  end.

Definition key_le (a b : bool * Any) : Prop :=
  match int_key a, int_key b with
  | Some x, Some y => pair_le x y
  | _, _ => False
  end.

(** Cars in the order of their prices, and in the order of their keys for
    a sort field. *)
Definition by_price (a b : Car) : Prop := value (price a) <= value (price b).

Definition by_key (sort_by : string) (a b : Car) : Prop :=
  key_le (_get_sort_value a sort_by) (_get_sort_value b sort_by).

End CarCatalogue.

(** ** core/toolkit.py: the tools on one car and on a comparison *)

Module CarTool.
Section Tool.
Context (lower : string -> string).
Context (extract : string -> list string -> Z -> list (string * Z)).
Context (py_str : CarCatalogue.Any -> string).
(** [serializers.serialize_car_detail] and
    [serializers.serialize_car_comparison], which may raise. *)
Context (serialize_car_detail : CarCatalogue.Car -> result string).
Context (serialize_car_comparison :
  CarCatalogue.CarComparison -> result string).

(** [get_extended_car_details] *)
Definition get_extended_car_details
    (car_service : CarCatalogue.Service) (car_id : string)
  : result string :=
  try_except
    (car ← CarCatalogue.get_extended_car_details lower extract
             car_service car_id;
     serialize_car_detail car)
    (fun e =>
       match e with
       | CarNotFoundError _ => Return ("Car not found: " +:+ exn_str e)
       | _ => Return ("Error getting extended car details: " +:+ exn_str e)
       end).

(** [get_car_comparison] *)
Definition get_car_comparison
    (car_service : CarCatalogue.Service) (car_ids : list string)
  : result string :=
  try_except
    (comparison ← CarCatalogue.get_car_comparison lower extract py_str
                    car_service car_ids;
     serialize_car_comparison comparison)
    (fun e =>
       match e with
       | CarNotFoundError _ => Return ("Car not found: " +:+ exn_str e)
       | _ => Return ("Error comparing cars: " +:+ exn_str e)
       end).

End Tool.
End CarTool.

(** ** services/ev_charger_service.py *)

Module EVChargerLocationService.

(** What [pgeocode] answers for a pincode: a row whose numbers are NaN and
    whose names are missing when the pincode is unknown. *)
Record postal_code_row : Type := {
  row_place_name : option string;
  row_state_name : option string;
  row_latitude : float;
  row_longitude : float
}.

(** The dictionary returned for the place searched from. *)
Record user_location : Type := {
  pincode : string;
  place_name : string;
  city : string;
  state : string;
  latitude : float;
  longitude : float
}.

(** What the body of the [try] in the loop does for one location: it
    yields the distance, or raises a [ValueError] or [KeyError], which the
    loop catches to skip the location, or raises something else. *)
Inductive attempt : Type :=
| Distance (distance : float)
| Skipped
| Failed (e : exn).

Section Service.
(** A record of the locations file, and the fields of [EVLocationResult]
    that are converted from it. *)
Context {Location Station : Type}.
(** [self.nominatim.query_postal_code] *)
Context (query_postal_code : string -> option postal_code_row).
(** [float(loc['latitude'])], [float(loc['longitude'])] and [_haversine],
    whose [math] functions raise [ValueError] outside their domain. *)
Context (distance_from : float -> float -> Location -> attempt).
(** The conversions [str(...)], [int(...)] of the fields of one location
    and its Google Maps link; a missing key or a text that is no integer
    raises. *)
Context (convert : Location -> result Station).

Record EVLocationResult : Type := {
  station : Station;
  distance_km : float
}.

(** [name if not pd.isna(name) else 'Unknown'] *)
Definition or_unknown (name : option string) : string :=
  match name with
  | Some n => n
  | None => "Unknown"
  end.

(** The loop that collects the locations within the radius. *)
Fixpoint within_radius
    (search_lat search_lon radius_in_km : float) (locations : list Location)
  : result (list (float * Location)) :=
  match locations with
  | [] => Return []
  | loc :: rest =>
      match distance_from search_lat search_lon loc with
      | Distance distance =>
          others ← within_radius search_lat search_lon radius_in_km rest;
          Return (if (distance <=? radius_in_km)%float
                  then (distance, loc) :: others
                  else others)
      | Skipped => within_radius search_lat search_lon radius_in_km rest
      | Failed e => Raise e
      end
  end.

(** [find_nearest_ev_charger] over [self.locations]. *)
Definition find_nearest_ev_charger
    (locations : list Location) (pincode : string)
    (radius_in_km : float) (limit : Z)
  : result (option user_location * list EVLocationResult) :=
  match query_postal_code pincode with
  | None => Return (None, [])
  | Some location_info =>
      if PrimFloat.is_nan (row_latitude location_info)
         || PrimFloat.is_nan (row_longitude location_info)
      then Return (None, [])
      else
        let user_location :=
          {| pincode := pincode;
             place_name := or_unknown (row_place_name location_info);
             city := or_unknown (row_place_name location_info);
             state := or_unknown (row_state_name location_info);
             latitude := row_latitude location_info;
             longitude := row_longitude location_info |} in
        locations_with_distance ←
          within_radius (row_latitude location_info)
            (row_longitude location_info) radius_in_km locations;
        let locations_with_distance :=
          py_sorted (fun a b => (fst a <? fst b)%float) locations_with_distance in
        let locations_with_distance := slice_to limit locations_with_distance in
        results ←
          mapM (fun '(distance, loc) =>
                  converted ← convert loc;
                  Return {| station := converted; distance_km := distance |})
               locations_with_distance;
        Return (Some user_location, results)
  end.

End Service.
End EVChargerLocationService.

(** ** Binary64 values

    Read through [Prim2SF], the view of a float that the specification of
    the primitive operations is stated on. *)

(** The values that are not numbers one can rank: NaN and the infinities. *)
Definition nan_or_infinite (x : float) : bool :=
  match Prim2SF x with
  | S754_nan | S754_infinity _ => true
  | _ => false
  end.

Definition is_zero (x : float) : bool :=
  match Prim2SF x with
  | S754_zero _ => true
  | _ => false
  end.

Definition not_nan (x : float) : bool :=
  match Prim2SF x with
  | S754_nan => false
  | _ => true
  end.

(** The order of the floats that can be compared. *)
Definition SFle (x y : spec_float) : Prop :=
  match SFcompare x y with
  | Some (Lt | Eq) => True
  | _ => False
  end.

Definition float_le (x y : float) : Prop := (x <=? y)%float = true.

(** ** Sample data

    Small inputs on which the properties of Part II are instantiated. *)

Definition two_bookings : StateManager.state :=
  StateManager.store_otp 900000000 "2222222222" "123456" "Bob"
    (StateManager.store_otp 0 "1111111111" "123456" "Alice" StateManager.init).

(** Stand-ins for the two library functions: [ascii_lower] lowers the
    letters A to Z, and [same_text_extract] scores a choice 100 when it is
    the query and 0 otherwise. *)
Definition lower_char (c : ascii) : ascii :=
  let n := nat_of_ascii c in
  if ((65 <=? n) && (n <=? 90))%nat then ascii_of_nat (n + 32) else c.

Fixpoint ascii_lower (s : string) : string :=
  match s with
  | EmptyString => EmptyString
  | String c s' => String (lower_char c) (ascii_lower s')
  end.

Definition same_text_extract (query : string) (choices : list string) (limit : Z)
  : list (string * Z) :=
  firstn (Z.to_nat limit)
    (map (fun c => (c, if String.eqb c query then 100 else 0)) choices).

(** The arguments of a call that filters on the brand alone. *)
Definition brand_filter (brand : string) : CarService.filters :=
  {| CarService.min_price := None; CarService.max_price := None;
     CarService.f_brand := Some brand; CarService.f_body_type := None;
     CarService.f_fuel_type := None;
     CarService.mileage_more_than := None;
     CarService.mileage_less_than := None;
     CarService.f_seating_capacity := None;
     CarService.f_transmission := None;
     CarService.engine_displacement_more_than := None;
     CarService.engine_displacement_less_than := None;
     CarService.sort_by := None; CarService.sort_order := "asc" |}.

(** A service that found two brands, and one whose files all failed to
    load, which knows no value at all. *)
Definition two_brands : CarService.t (Fuel := unit) (Extended := unit) :=
  {| CarService.fuzzy_threshold := 70; CarService.cars := [];
     CarService.available_brands := {["Mahindra"; "Tata"]};
     CarService.available_body_types := {["SUV"]};
     CarService.available_fuel_types := {["Diesel"; "Petrol"]};
     CarService.available_transmissions := {["Manual"]} |}.

Definition nothing_loaded : CarService.t (Fuel := unit) (Extended := unit) :=
  {| CarService.fuzzy_threshold := 70; CarService.cars := [];
     CarService.available_brands := ∅;
     CarService.available_body_types := ∅;
     CarService.available_fuel_types := ∅;
     CarService.available_transmissions := ∅ |}.

Definition no_cars
    (self : CarService.t (Fuel := unit) (Extended := unit))
    (limit offset : Z) (f : CarService.filters)
  : string + list (CarService.CarDetail unit unit) := inr [].

Definition no_match
    (self : CarService.t (Fuel := unit) (Extended := unit))
    (query : string) (limit : Z) (f : CarService.filters)
  : string + list (CarService.CarDetail unit unit) := inr [].

(** A FAQ file of two records, and the cache written when the same two
    records stood in the other order. *)
Definition road_tax : FAQService.raw_faq :=
  [("question", "How do I pay road tax?");
   ("answer", "Road tax is paid at the RTO or online.");
   ("category", "tax"); ("subcategory", "payment")].

Definition ownership : FAQService.raw_faq :=
  [("question", "How do I transfer ownership?");
   ("answer", "Submit forms 29 and 30 to the RTO.");
   ("category", "rc"); ("subcategory", "transfer")].

Definition stale_cache : list (string * FAQService.json) :=
  [("questions", FAQService.tolist [[1; 0]; [0; 1]]%float);
   ("answers", FAQService.tolist [[1; 0]; [0; 1]]%float);
   ("metadata",
    FAQService.JArr
      (map FAQService.faq_to_json
           (FAQService.add_ids [ownership; road_tax])))].

(** A stand-in for [np.array] on what [tolist] wrote: arrays of arrays of
    floats. *)
Definition row_of_json (j : FAQService.json) : result FAQService.vector :=
  match j with
  | FAQService.JArr items =>
      mapM (fun x =>
              match x with
              | FAQService.JFloat f => Return f
              | _ => Raise (ValueError "could not convert to float")
              end)
           items
  | _ => Raise (ValueError "not a sequence")
  end.

Definition floats_of_json (j : FAQService.json) : result FAQService.matrix :=
  match j with
  | FAQService.JArr rows => mapM row_of_json rows
  | _ => Raise (ValueError "not a sequence")
  end.

(** Indexes over these two records; the provider is taken to embed every
    text as the first unit vector. *)
Definition unit_embedding (texts : list string) : result FAQService.matrix :=
  Return [[1; 0]]%float.

(** A catalogue of three cars: a diesel and petrol SUV with two engines,
    a petrol SUV, and an electric car for which neither engine nor
    dimensions are recorded. *)
Definition thar : CarCatalogue.Car :=
  {| CarService.id := "mahindra_thar";
     CarService.basic_info :=
       {| CarService.name := "Mahindra Thar";
          CarService.manufacturer := Some "Mahindra";
          CarService.model := "Thar"; CarService.body_type := Some "SUV" |};
     CarService.price :=
       {| CarService.value := 1135000; CarService.currency := "INR" |};
     CarService.brand := {| CarService.brand_name := "Mahindra" |};
     CarService.engine :=
       Some {| CarService.displacement := Some [(1497, "cc"); (2184, "cc")];
               CarService.engine_fuel_type := Some ["Diesel"; "Petrol"] |};
     CarService.transmission := Some ["Manual"; "Automatic"];
     CarService.fuel :=
       Some {| CarCatalogue.type := ["Diesel"; "Petrol"];
               CarCatalogue.efficiency :=
                 Some [("value", FAQService.JFloat 15.5%float);
                       ("unit", FAQService.JStr "km/l")] |};
     CarService.dimensions := Some {| CarService.seating_capacity := 4 |};
     CarService.extended :=
       Some {| CarCatalogue.rating :=
                 Some {| CarCatalogue.rating_value := Some 8%float |} |} |}.

Definition nexon : CarCatalogue.Car :=
  {| CarService.id := "tata_nexon";
     CarService.basic_info :=
       {| CarService.name := "Tata Nexon";
          CarService.manufacturer := Some "Tata";
          CarService.model := "Nexon"; CarService.body_type := Some "SUV" |};
     CarService.price :=
       {| CarService.value := 800000; CarService.currency := "INR" |};
     CarService.brand := {| CarService.brand_name := "Tata" |};
     CarService.engine :=
       Some {| CarService.displacement := Some [(1199, "cc")];
               CarService.engine_fuel_type := Some ["Petrol"] |};
     CarService.transmission := Some ["Manual"];
     CarService.fuel :=
       Some {| CarCatalogue.type := ["Petrol"];
               CarCatalogue.efficiency := None |};
     CarService.dimensions := Some {| CarService.seating_capacity := 5 |};
     CarService.extended := None |}.

Definition be6 : CarCatalogue.Car :=
  {| CarService.id := "mahindra_be_6";
     CarService.basic_info :=
       {| CarService.name := "Mahindra BE 6";
          CarService.manufacturer := Some "Mahindra";
          CarService.model := "BE 6"; CarService.body_type := Some "SUV" |};
     CarService.price :=
       {| CarService.value := 1890000; CarService.currency := "INR" |};
     CarService.brand := {| CarService.brand_name := "Mahindra" |};
     CarService.engine := None;
     CarService.transmission := Some ["Automatic"];
     CarService.fuel :=
       Some {| CarCatalogue.type := ["Electric"];
               CarCatalogue.efficiency := None |};
     CarService.dimensions := None;
     CarService.extended := None |}.

Definition three_cars : CarCatalogue.Service :=
  {| CarService.fuzzy_threshold := 70;
     CarService.cars :=
       [("mahindra_thar", thar); ("tata_nexon", nexon);
        ("mahindra_be_6", be6)];
     CarService.available_brands := {["Mahindra"; "Tata"]};
     CarService.available_body_types := {["SUV"]};
     CarService.available_fuel_types := {["Diesel"; "Petrol"; "Electric"]};
     CarService.available_transmissions := {["Manual"; "Automatic"]} |}.

(** Arguments of [list_cars] that set no filter and name a sort field, and
    the same with a brand. *)
Definition sorted_on (field order : string) : CarService.filters :=
  {| CarService.min_price := None; CarService.max_price := None;
     CarService.f_brand := None; CarService.f_body_type := None;
     CarService.f_fuel_type := None;
     CarService.mileage_more_than := None;
     CarService.mileage_less_than := None;
     CarService.f_seating_capacity := None;
     CarService.f_transmission := None;
     CarService.engine_displacement_more_than := None;
     CarService.engine_displacement_less_than := None;
     CarService.sort_by := Some field; CarService.sort_order := order |}.

(** Stand-ins for the comparison of a dictionary value with a float, on
    floats, and for the sort on keys that are not integers, which none of
    the instances below reaches. *)
Definition float_only_le (v : CarCatalogue.Any) (bound : float) : result bool :=
  match v with
  | FAQService.JFloat x => Return (x <=? bound)%float
  | _ => Raise (OtherException "'<=' not supported")
  end.

Definition float_only_ge (v : CarCatalogue.Any) (bound : float) : result bool :=
  match v with
  | FAQService.JFloat x => Return (bound <=? x)%float
  | _ => Raise (OtherException "'>=' not supported")
  end.

Definition no_other_keys
    (key : CarCatalogue.Car -> bool * CarCatalogue.Any) (reverse : bool)
    (l : list CarCatalogue.Car)
  : result (list CarCatalogue.Car) :=
  Raise (OtherException "'<' not supported").

(** Stand-ins for the fuzzy scorer, which here gives 100 to a name that
    holds the query, 75 to a name with the query's first character and 0 to
    any other, and for the sort of [search] on keys that are not integers,
    which none of the instances below reaches. *)
Definition initial_ratio (query name : string) : Z :=
  if str_contains query name then 100
  else
    match query, name with
    | String a _, String b _ => if Ascii.eqb a b then 75 else 0
    | _, _ => 0
    end.

Definition no_other_scored_keys
    (sort_by sort_order : string) (l : list (CarCatalogue.Car * Z))
  : result (list (CarCatalogue.Car * Z)) :=
  Raise (OtherException "'<' not supported").

(** A stand-in for [str] on the values of the samples. *)
Definition text_of (v : CarCatalogue.Any) : string :=
  match v with
  | FAQService.JStr s => s
  | FAQService.JInt n => str_of_Z n
  | _ => "?"
  end.

(** The files of a folder: two that load and one that does not. *)
Definition three_files : list (string * option CarCatalogue.Car) :=
  [("Mahindra_Thar", Some thar); ("broken", None); ("Tata_Nexon", Some nexon)].

(** The service [__init__] builds from these files. *)
Definition loaded_from_three_files : CarCatalogue.Service :=
  CarCatalogue._load_cars ascii_lower three_files
    {| CarService.fuzzy_threshold := 70; CarService.cars := [];
       CarService.available_brands := ∅;
       CarService.available_body_types := ∅;
       CarService.available_fuel_types := ∅;
       CarService.available_transmissions := ∅ |}.

(** Three charging stations by name, latitude and longitude, a stand-in for
    the distance (the sum of the differences of the coordinates), and a
    stand-in for [pgeocode] that knows one pincode. *)
Definition three_stations : list (string * float * float) :=
  [("Saket", 30, 77.25); ("Janpath", 28.5, 77.5);
   ("Barakhamba", 28.75, 77.25)]%float.

Definition coordinate_distance
    (search_lat search_lon : float) (loc : string * float * float)
  : EVChargerLocationService.attempt :=
  let '(_, lat, lon) := loc in
  EVChargerLocationService.Distance
    (PrimFloat.abs (lat - search_lat) + PrimFloat.abs (lon - search_lon))%float.

Definition one_pincode (pincode : string)
  : option EVChargerLocationService.postal_code_row :=
  if String.eqb pincode "110001" then
    Some {| EVChargerLocationService.row_place_name := Some "Connaught Place";
            EVChargerLocationService.row_state_name := Some "Delhi";
            EVChargerLocationService.row_latitude := 28.5%float;
            EVChargerLocationService.row_longitude := 77.25%float |}
  else None.

Definition station_name (loc : string * float * float) : result string :=
  Return (fst (fst loc)).

(** A provider that answers one row per text, as the API does. *)
Definition same_row_per_text (texts : list string) : result FAQService.matrix :=
  Return (map (fun _ => [1; 0]%float) texts).

(** A provider that is out of reach. *)
Definition unreachable (texts : list string) : result FAQService.matrix :=
  Raise (OtherException "Connection error.").

(** A stand-in for [json.dumps] that writes the ids of the results. *)
Definition ids_of_results (results : list FAQService.QNAResult) : string :=
  "[" +:+ String.concat ", " (map FAQService.r_id results) +:+ "]".

Definition two_records : FAQService.t :=
  {| FAQService.faqs := FAQService.add_ids [ownership; road_tax];
     FAQService.question_embeddings := [[2; 0]; [0; 1]]%float;
     FAQService.answer_embeddings := [[1; 1]; [0; 2]]%float |}.

Definition zero_question : FAQService.t :=
  {| FAQService.faqs := FAQService.add_ids [ownership; road_tax];
     FAQService.question_embeddings := [[0; 0]; [1; 0]]%float;
     FAQService.answer_embeddings := [[0; 0]; [1; 0]]%float |}.

Definition no_records : FAQService.t :=
  {| FAQService.faqs := FAQService.add_ids [];
     FAQService.question_embeddings := [];
     FAQService.answer_embeddings := [] |}.

Definition zero_question_only : FAQService.t :=
  {| FAQService.faqs := FAQService.add_ids [ownership; road_tax];
     FAQService.question_embeddings := [[0; 0]; [0; 1]]%float;
     FAQService.answer_embeddings := [[1; 0]; [0; 1]]%float |}.


(* ===================================================================== *)
(** * Part II: properties *)
(* ===================================================================== *)

(** ** Dictionaries *)

Section DictFacts.
Context {V : Type}.
Implicit Types (k : string) (v : V) (d : list (string * V)).

Lemma get_set_eq k v d : PyDict.get k (PyDict.set k v d) = Some v.
Proof.
  induction d as [|[k' v'] d IH]; simpl.
  - now rewrite String.eqb_refl.
  - destruct (String.eqb k k') eqn:E; simpl; rewrite E; auto.
Qed.

Lemma get_set_ne k k' v d :
  k <> k' -> PyDict.get k' (PyDict.set k v d) = PyDict.get k' d.
Proof.
  intros Hne. induction d as [|[k0 v0] d IH]; simpl.
  - destruct (String.eqb_spec k' k); congruence.
  - destruct (String.eqb_spec k k0) as [->|]; simpl.
    + destruct (String.eqb_spec k' k0); congruence.
    + now rewrite IH.
Qed.

Lemma get_del_eq k d : PyDict.get k (PyDict.del k d) = None.
Proof.
  unfold PyDict.del. induction d as [|[k' v'] d IH]; simpl; auto.
  destruct (String.eqb k k') eqn:E; simpl; auto. now rewrite E.
Qed.

Lemma get_del_ne k k' d :
  k <> k' -> PyDict.get k' (PyDict.del k d) = PyDict.get k' d.
Proof.
  intros Hne. unfold PyDict.del.
  induction d as [|[k0 v0] d IH]; simpl; auto.
  destruct (String.eqb_spec k k0) as [->|]; simpl.
  - destruct (String.eqb_spec k' k0); congruence.
  - now rewrite IH.
Qed.

Lemma keys_set_in k v d x :
  In x (PyDict.keys (PyDict.set k v d)) -> x = k \/ In x (PyDict.keys d).
Proof.
  induction d as [|[k' v'] d IH]; simpl.
  - intuition.
  - destruct (String.eqb k k'); simpl; intuition.
Qed.

Lemma keys_set_NoDup k v d :
  List.NoDup (PyDict.keys d) -> List.NoDup (PyDict.keys (PyDict.set k v d)).
Proof.
  induction d as [|[k' v'] d IH]; simpl; intros Hd.
  - constructor; [intros [] | constructor].
  - destruct (String.eqb_spec k k') as [->|Hne]; simpl; auto.
    apply List.NoDup_cons_iff in Hd as [Hin Hd].
    constructor; auto.
    intros Hin'. apply keys_set_in in Hin' as [->|]; congruence.
Qed.

Lemma keys_del_NoDup k d :
  List.NoDup (PyDict.keys d) -> List.NoDup (PyDict.keys (PyDict.del k d)).
Proof.
  unfold PyDict.del, PyDict.keys.
  induction d as [|[k' v'] d IH]; simpl; intros Hd; auto.
  apply List.NoDup_cons_iff in Hd as [Hin Hd].
  destruct (String.eqb k k'); simpl; auto.
  constructor; auto.
  rewrite in_map_iff in *. intros ([k0 v0] & <- & Hf).
  apply filter_In in Hf as [Hf _]. apply Hin. now exists (k0, v0).
Qed.

(** A key occurs among the entries as often as it is bound: once. *)
Lemma count_key_set k v d :
  List.NoDup (PyDict.keys d) ->
  length (List.filter (fun kv => String.eqb k (fst kv)) (PyDict.set k v d)) = 1%nat.
Proof.
  induction d as [|[k' v'] d IH]; simpl; intros Hd.
  - now rewrite String.eqb_refl.
  - apply List.NoDup_cons_iff in Hd as [Hin Hd].
    destruct (String.eqb_spec k k') as [->|Hne]; simpl.
    + rewrite String.eqb_refl. simpl. f_equal.
      apply length_zero_iff_nil.
      clear -Hin. induction d as [|[k0 v0] d IH]; simpl in *; auto.
      destruct (String.eqb_spec k' k0) as [->|]; [tauto|]. apply IH. tauto.
    + destruct (String.eqb_spec k k'); [congruence|]. auto.
Qed.

End DictFacts.

(** ** The OTP sessions of [StateManager] *)

Section StateManagerFacts.
Import StateManager.
Implicit Types (st : state) (phone otp name : string) (now : Z).

Lemma verify_otp_absent now phone otp st :
  PyDict.get phone st = None ->
  verify_otp now phone otp st = ((false, None), st).
Proof. unfold verify_otp. now intros ->. Qed.

(** A live session and its code: the call succeeds and removes it. *)
Lemma verify_otp_match now phone st s :
  PyDict.get phone st = Some s ->
  now - timestamp s <= timedelta_minutes 10 ->
  verify_otp now phone (StateManager.otp s) st
  = ((true, Some (StateManager.name s)), PyDict.del phone st).
Proof.
  intros Hget Hlive. unfold verify_otp. rewrite Hget.
  destruct (Z.gtb_spec (now - timestamp s) (timedelta_minutes 10)); [lia|].
  now rewrite String.eqb_refl.
Qed.

(** A session past its window: the call fails and removes it, whatever the
    code. *)
Lemma verify_otp_expired now phone otp st s :
  PyDict.get phone st = Some s ->
  now - timestamp s > timedelta_minutes 10 ->
  verify_otp now phone otp st = ((false, None), PyDict.del phone st).
Proof.
  intros Hget Hold. unfold verify_otp. rewrite Hget.
  destruct (Z.gtb_spec (now - timestamp s) (timedelta_minutes 10)); [easy|lia].
Qed.

Lemma verify_otp_mismatch now phone otp st s :
  PyDict.get phone st = Some s ->
  now - timestamp s <= timedelta_minutes 10 ->
  otp <> StateManager.otp s ->
  verify_otp now phone otp st = ((false, None), st).
Proof.
  intros Hget Hlive Hne. unfold verify_otp. rewrite Hget.
  destruct (Z.gtb_spec (now - timestamp s) (timedelta_minutes 10)); [lia|].
  destruct (String.eqb_spec (StateManager.otp s) otp); congruence.
Qed.

Lemma cleanup_keys_NoDup (expired : list string) st :
  List.NoDup (PyDict.keys st) ->
  List.NoDup
    (PyDict.keys (fold_left (fun s phone => PyDict.del phone s) expired st)).
Proof.
  revert st. induction expired as [|p expired IH]; simpl; intros st Hst; auto.
  apply IH. now apply keys_del_NoDup.
Qed.

Lemma step_keys_NoDup st (o : op) :
  List.NoDup (PyDict.keys st) -> List.NoDup (PyDict.keys (step st o)).
Proof.
  intros Hst. destruct o as [now phone otp name|now phone otp|now m]; simpl.
  - now apply keys_set_NoDup.
  - unfold verify_otp. destruct (PyDict.get phone st) as [s|]; simpl; auto.
    destruct (_ >? _); simpl; [now apply keys_del_NoDup|].
    destruct (String.eqb _ _); simpl; auto. now apply keys_del_NoDup.
  - now apply cleanup_keys_NoDup.
Qed.

Lemma run_keys_NoDup (ops : list op) st :
  List.NoDup (PyDict.keys st) -> List.NoDup (PyDict.keys (run ops st)).
Proof.
  unfold run. revert st.
  induction ops as [|o ops IH]; simpl; intros st Hst; auto.
  apply IH. now apply step_keys_NoDup.
Qed.

(** C2. A code stored for a phone and verified within ten minutes of its
    storage is accepted and the stored name returned; the same code offered
    a second time, at any moment, is refused; and offered for the first time
    more than ten minutes after its storage it is refused too. *)
Theorem otp_round_trip st phone otp name (t0 t1 t2 t3 : Z) :
  t1 - t0 <= timedelta_minutes 10 ->
  t3 - t0 > timedelta_minutes 10 ->
  let st1 := store_otp t0 phone otp name st in
  let first := verify_otp t1 phone otp st1 in
  fst first = (true, Some name)
  /\ fst (verify_otp t2 phone otp (snd first)) = (false, None)
  /\ fst (verify_otp t3 phone otp st1) = (false, None).
Proof.
  intros Hlive Hold st1 first.
  assert (Hget : PyDict.get phone st1 = Some (Session otp name t0))
    by apply get_set_eq.
  assert (Hfirst : first = ((true, Some name), PyDict.del phone st1))
    by (apply (verify_otp_match t1 phone st1 _ Hget); exact Hlive).
  repeat split.
  - now rewrite Hfirst.
  - rewrite Hfirst. simpl. rewrite verify_otp_absent; auto using get_del_eq.
  - now rewrite (verify_otp_expired t3 phone otp st1 _ Hget Hold).
Qed.

Lemma otp_round_trip_witness :
  let st1 := store_otp 0 "9876543210" "482913" "John Doe" init in
  let first := verify_otp 540000000 "9876543210" "482913" st1 in
  fst first = (true, Some "John Doe")
  /\ fst (verify_otp 541000000 "9876543210" "482913" (snd first))
     = (false, None)
  /\ fst (verify_otp 600000001 "9876543210" "482913" st1) = (false, None).
Proof.
  apply (otp_round_trip init "9876543210" "482913" "John Doe"
           0 540000000 541000000 600000001);
    unfold timedelta_minutes; lia.
Defined.

(** C5. With a live session stored for a phone, a code that is not the
    stored one is refused and the state is left as it was, so that the
    stored code offered afterwards, still within the window, is accepted. *)
Theorem wrong_code_keeps_session st phone otp now s :
  PyDict.get phone st = Some s ->
  now - timestamp s <= timedelta_minutes 10 ->
  otp <> StateManager.otp s ->
  verify_otp now phone otp st = ((false, None), st)
  /\ forall later,
       later - timestamp s <= timedelta_minutes 10 ->
       fst (verify_otp later phone (StateManager.otp s)
              (snd (verify_otp now phone otp st)))
       = (true, Some (StateManager.name s)).
Proof.
  intros Hget Hlive Hne.
  rewrite (verify_otp_mismatch now phone otp st s Hget Hlive Hne).
  split; [reflexivity|]. intros later Hlater. simpl.
  now rewrite (verify_otp_match later phone st s Hget Hlater).
Qed.

Lemma wrong_code_keeps_session_witness :
  let st := store_otp 0 "9876543210" "482913" "John Doe" init in
  verify_otp 1000000 "9876543210" "000000" st = ((false, None), st)
  /\ forall later,
       later - 0 <= timedelta_minutes 10 ->
       fst (verify_otp later "9876543210" "482913"
              (snd (verify_otp 1000000 "9876543210" "000000" st)))
       = (true, Some "John Doe").
Proof.
  exact (wrong_code_keeps_session
           (store_otp 0 "9876543210" "482913" "John Doe" init)
           "9876543210" "000000" 1000000 (Session "482913" "John Doe" 0)
           eq_refl
           ltac:(unfold timedelta_minutes; simpl; lia)
           ltac:(discriminate)).
Defined.

(** C6. Whatever calls were made, no phone number keys two sessions; and a
    new [store_otp] for a phone leaves that phone with exactly the new
    session (code, name and time), the sessions of other phones being
    untouched. *)
Theorem one_session_per_phone (ops : list op) :
  let st := run ops init in
  List.NoDup (PyDict.keys st)
  /\ forall now phone otp name,
       let st' := store_otp now phone otp name st in
       PyDict.get phone st' = Some (Session otp name now)
       /\ length (List.filter (fun pd => String.eqb phone (fst pd)) st') = 1%nat
       /\ List.NoDup (PyDict.keys st')
       /\ forall other, phone <> other ->
                        PyDict.get other st' = PyDict.get other st.
Proof.
  intros st.
  assert (Hst : List.NoDup (PyDict.keys st))
    by (apply run_keys_NoDup; constructor).
  split; [exact Hst|]. intros now phone otp name st'. repeat split.
  - apply get_set_eq.
  - now apply count_key_set.
  - now apply keys_set_NoDup.
  - intros other Hne. now apply get_set_ne.
Qed.

End StateManagerFacts.

(** ** Confirming a booking *)

Section ConfirmRideFacts.
Import StateManager.
Import AgentToolKit.
Implicit Types (st : state) (phone otp : string) (now : Z).

Lemma find_first_match {A : Type} (p : A -> bool) (before after : list A) x :
  Forall (fun y => p y = false) before ->
  p x = true ->
  List.find p (before ++ x :: after)%list = Some x.
Proof.
  induction 1 as [|y before Hy _ IH]; simpl; intros Hx.
  - now rewrite Hx.
  - rewrite Hy. auto.
Qed.

Lemma get_of_NoDup {V : Type} (d : list (string * V)) k v :
  List.NoDup (PyDict.keys d) -> In (k, v) d -> PyDict.get k d = Some v.
Proof.
  induction d as [|[k' v'] d IH]; simpl; intros Hd Hin; [easy|].
  apply List.NoDup_cons_iff in Hd as [Hnin Hd].
  destruct Hin as [[= -> ->]|Hin].
  - now rewrite String.eqb_refl.
  - destruct (String.eqb_spec k k') as [->|]; auto.
    exfalso. apply Hnin. change k' with (fst (k', v)). now apply in_map.
Qed.

Lemma confirm_ride_scan secret_otp now otp st :
  not_internal secret_otp otp ->
  confirm_ride secret_otp now otp st
  = match List.find (fun pd => String.eqb (StateManager.otp (snd pd)) otp) st with
    | Some (phone, _) =>
        match verify_otp now phone otp st with
        | ((true, Some name), st') => (confirmed name phone, st')
        | ((true, None), st') => (confirmed "None" phone, st')
        | ((false, _), st') => (invalid_or_expired, st')
        end
    | None => (invalid_or_expired, st)
    end.
Proof.
  intros Hsecret. unfold confirm_ride.
  destruct secret_otp as [secret|]; simpl in *; [|reflexivity].
  destruct Hsecret as [->|Hne]; [reflexivity|].
  destruct (String.eqb_spec otp secret); [congruence|].
  now rewrite andb_false_r.
Qed.

(** C7, as the code has it.  [confirm_ride] takes no phone number: it scans
    the sessions in the order they were first stored and stops at the first
    one whose code is [otp].  When that session is still within its window
    (and [otp] is not the internal code) the answer is the confirmation for
    that session's phone and name, and the session is consumed. *)
Theorem confirm_ride_first_match
    secret_otp now otp st (before after : state) phone (s : session) :
  List.NoDup (PyDict.keys st) ->
  st = (before ++ (phone, s) :: after)%list ->
  Forall (fun pd => StateManager.otp (snd pd) <> otp) before ->
  StateManager.otp s = otp ->
  now - timestamp s <= timedelta_minutes 10 ->
  not_internal secret_otp otp ->
  confirm_ride secret_otp now otp st
  = (confirmed (StateManager.name s) phone, PyDict.del phone st).
Proof.
  intros Hnd Hst Hbefore Hcode Hlive Hsecret.
  rewrite confirm_ride_scan by assumption.
  assert (Hfind :
    List.find (fun pd => String.eqb (StateManager.otp (snd pd)) otp) st
    = Some (phone, s)).
  { rewrite Hst. apply find_first_match.
    - eapply List.Forall_impl; [|exact Hbefore]. simpl. intros pd Hpd.
      now apply String.eqb_neq.
    - simpl. now apply String.eqb_eq. }
  rewrite Hfind.
  assert (Hget : PyDict.get phone st = Some s).
  { apply get_of_NoDup; [assumption|]. rewrite Hst.
    apply in_or_app. right. now left. }
  rewrite <- Hcode.
  now rewrite (verify_otp_match now phone st s Hget Hlive).
Qed.

Lemma confirm_ride_first_match_witness :
  confirm_ride None 500000000 "123456" two_bookings
  = (confirmed "Alice" "1111111111", PyDict.del "1111111111" two_bookings).
Proof.
  apply (confirm_ride_first_match None 500000000 "123456" two_bookings
           [] [("2222222222", Session "123456" "Bob" 900000000)]
           "1111111111" (Session "123456" "Alice" 0)).
  - repeat constructor; simpl; intuition discriminate.
  - reflexivity.
  - constructor.
  - reflexivity.
  - unfold timedelta_minutes; simpl; lia.
  - exact I.
Defined.

(** C7 as stated fails: Bob's session is stored, carries the code offered
    and is within its window, yet the scan stops at Alice's older session
    with the same code, finds it expired and answers that the code is
    invalid. *)
Lemma confirm_ride_stops_at_first_match :
  In ("2222222222", Session "123456" "Bob" 900000000) two_bookings
  /\ 1000000000 - 900000000 <= timedelta_minutes 10
  /\ confirm_ride None 1000000000 "123456" two_bookings
     = (invalid_or_expired,
        [("2222222222", Session "123456" "Bob" 900000000)])
  /\ invalid_or_expired <> confirmed "Bob" "2222222222".
Proof.
  repeat split.
  - right. now left.
  - unfold timedelta_minutes; lia.
  - discriminate.
Qed.

(** C10, as the code has it.  When [INTERNAL_SECRET_OTP] is set to a
    non-empty string and [otp] is that string, the booking is confirmed with
    the internal message; no session is read and the state is returned as
    it was, be it empty. *)
Theorem internal_otp_confirms (secret : string) now st :
  secret <> "" ->
  confirm_ride (Some secret) now secret st = (internal_confirmed, st).
Proof.
  intros Hne. unfold confirm_ride, truthy.
  destruct (String.eqb_spec secret ""); [congruence|].
  now rewrite String.eqb_refl.
Qed.

Lemma internal_otp_confirms_witness :
  confirm_ride (Some "424242") 0 "424242" init = (internal_confirmed, init).
Proof.
  apply (internal_otp_confirms "424242" 0 init). discriminate.
Defined.

(** C10 as stated fails when the variable is set but empty: Python takes
    the empty string for false, the internal branch is skipped and the empty
    code is looked for among the sessions. *)
Lemma empty_internal_otp_not_honoured :
  confirm_ride (Some "") 0 "" init = (invalid_or_expired, init)
  /\ invalid_or_expired <> internal_confirmed.
Proof. split; [reflexivity|discriminate]. Qed.

End ConfirmRideFacts.

(** ** The stable sort *)

Section SortFacts.
Context {A : Type} (lt : A -> A -> bool).

Lemma insert_sorted_perm x (l : list A) :
  Permutation (insert_sorted lt x l) (x :: l).
Proof.
  induction l as [|y l IH]; simpl; [reflexivity|].
  destruct (lt x y); [reflexivity|].
  rewrite IH. apply perm_swap.
Qed.

Lemma sort_into_perm (acc l : list A) :
  Permutation (sort_into lt acc l) (acc ++ l)%list.
Proof.
  revert acc. induction l as [|x l IH]; intros acc; simpl.
  - now rewrite app_nil_r.
  - rewrite IH, insert_sorted_perm. apply Permutation_middle.
Qed.

Lemma py_sorted_perm (l : list A) : Permutation (py_sorted lt l) l.
Proof. unfold py_sorted. now rewrite sort_into_perm. Qed.

Lemma py_sorted_reverse_perm (l : list A) :
  Permutation (py_sorted_reverse lt l) l.
Proof.
  unfold py_sorted_reverse.
  now rewrite <- Permutation_rev, py_sorted_perm, <- Permutation_rev.
Qed.

(** Sortedness needs the comparison to be consistent on the elements at
    hand: [le] is the order, [lt x y] decides that [x] is strictly below
    [y], and of two elements one is below the other. *)
Context (le : A -> A -> Prop) (ok : A -> Prop).
Hypothesis lt_le : forall x y, ok x -> ok y -> lt x y = true -> le x y.
Hypothesis not_lt_le : forall x y, ok x -> ok y -> lt x y = false -> le y x.
Hypothesis le_trans : forall x y z, ok x -> ok y -> ok z ->
                                    le x y -> le y z -> le x z.

Lemma insert_sorted_sorted x (l : list A) :
  ok x -> Forall ok l ->
  StronglySorted le l -> StronglySorted le (insert_sorted lt x l).
Proof.
  intros Hx Hl Hs. induction Hs as [|y l Hs IH Hy]; simpl.
  - repeat constructor.
  - apply Forall_cons_iff in Hl as [Hoky Hl].
    destruct (lt x y) eqn:E.
    + constructor; [now constructor|]. constructor; [eauto|].
      rewrite List.Forall_forall in *. intros z Hz.
      apply (le_trans x y z); eauto.
    + constructor; [auto|].
      rewrite List.Forall_forall in *. intros z Hz.
      apply (Permutation_in _ (insert_sorted_perm x l)) in Hz.
      destruct Hz as [<-|Hz]; eauto.
Qed.

Lemma insert_sorted_ok x (l : list A) :
  ok x -> Forall ok l -> Forall ok (insert_sorted lt x l).
Proof.
  intros Hx Hl. rewrite List.Forall_forall in *. intros z Hz.
  apply (Permutation_in _ (insert_sorted_perm x l)) in Hz.
  destruct Hz as [<-|Hz]; auto.
Qed.

Lemma sort_into_sorted (acc l : list A) :
  Forall ok acc -> Forall ok l ->
  StronglySorted le acc -> StronglySorted le (sort_into lt acc l).
Proof.
  revert acc. induction l as [|x l IH]; intros acc Hacc Hl Hs; simpl; auto.
  apply Forall_cons_iff in Hl as [Hx Hl].
  apply IH; auto using insert_sorted_ok, insert_sorted_sorted.
Qed.

Lemma py_sorted_sorted (l : list A) :
  Forall ok l -> StronglySorted le (py_sorted lt l).
Proof. intros Hl. apply sort_into_sorted; auto; constructor. Qed.

End SortFacts.

Lemma filter_none {A} (f : A -> bool) (l : list A) :
  (forall x, In x l -> f x = false) -> List.filter f l = [].
Proof.
  induction l as [|x l IH]; simpl; intros H; [reflexivity|].
  rewrite (H x) by auto. apply IH. auto.
Qed.

Lemma StronglySorted_impl_in {A : Type} (R R' : A -> A -> Prop) (l : list A) :
  (forall a b, In a l -> In b l -> R a b -> R' a b) ->
  StronglySorted R l -> StronglySorted R' l.
Proof.
  intros Himpl Hs. induction Hs as [|x l Hs IH Hx]; constructor.
  - apply IH. intros a b Ha Hb. apply Himpl; now right.
  - rewrite List.Forall_forall in *. intros y Hy.
    apply Himpl; [now left|now right|auto].
Qed.

Lemma StronglySorted_rev {A : Type} (R : A -> A -> Prop) (l : list A) :
  StronglySorted R l -> StronglySorted (fun x y => R y x) (rev l).
Proof.
  induction 1 as [|x l Hs IH Hx]; simpl; [constructor|].
  assert (Happ : forall l1 l2,
             StronglySorted (fun x y => R y x) l1 ->
             StronglySorted (fun x y => R y x) l2 ->
             (forall a b, In a l1 -> In b l2 -> R b a) ->
             StronglySorted (fun x y => R y x) (l1 ++ l2)%list).
  { induction l1 as [|a l1 IH1]; simpl; intros l2 H1 H2 H12; auto.
    inversion H1; subst. constructor.
    - apply IH1; auto.
    - apply Forall_app. split; [assumption|].
      apply List.Forall_forall. intros b Hb. apply H12; auto. }
  apply Happ; [assumption|repeat constructor|].
  intros a b Ha [<-|[]]. apply in_rev in Ha.
  rewrite List.Forall_forall in Hx. auto.
Qed.

(** *** The sort is the stable sort

    When [lt] orders the elements at hand consistently, a list has one
    stable sort only: the permutation in which no element is below an
    earlier one and elements of the same rank keep their order.  [py_sorted]
    is that list, and [py_sorted_reverse] is the one in the opposite order,
    whatever the algorithm that computes them. *)

Section StableSortFacts.
Context {A : Type} (lt : A -> A -> bool) (ok : A -> Prop).
Hypothesis lt_asym : forall x y, ok x -> ok y -> lt x y = true -> lt y x = false.
Hypothesis not_lt_trans : forall x y z, ok x -> ok y -> ok z ->
  lt y x = false -> lt z y = false -> lt z x = false.

Lemma lt_irrefl x : ok x -> lt x x = false.
Proof.
  intros Hx. destruct (lt x x) eqn:E; [|reflexivity].
  now rewrite (lt_asym x x Hx Hx E) in E.
Qed.

Lemma same_rank_refl x : ok x -> same_rank lt x x = true.
Proof. intros Hx. unfold same_rank. now rewrite lt_irrefl. Qed.

(** Two lists in the same order, with the same elements and the same
    elements of each rank in the same order, are the same list. *)
Lemma stable_unique (R : A -> A -> Prop) :
  (forall x, ok x -> R x x) ->
  (forall x y, ok x -> ok y -> R x y -> R y x -> same_rank lt x y = true) ->
  forall s1 s2,
    Forall ok s1 -> Permutation s1 s2 ->
    StronglySorted R s1 -> StronglySorted R s2 ->
    (forall z, ok z -> List.filter (same_rank lt z) s1
                       = List.filter (same_rank lt z) s2) ->
    s1 = s2.
Proof.
  intros Hrefl Hsame. induction s1 as [|a s1 IH]; intros s2 Hok Hperm H1 H2 Hf.
  - now apply Permutation_nil in Hperm.
  - destruct s2 as [|b s2];
      [now apply Permutation_sym, Permutation_nil in Hperm|].
    apply Forall_cons_iff in Hok as [Ha Hok].
    assert (Hb : ok b).
    { assert (Hin : In b (a :: s1))
        by (apply (Permutation_in _ (Permutation_sym Hperm)); now left).
      destruct Hin as [<-|Hin]; [assumption|].
      rewrite List.Forall_forall in Hok. auto. }
    apply StronglySorted_inv in H1 as [H1 Ha1].
    apply StronglySorted_inv in H2 as [H2 Hb2].
    assert (Rab : R a b).
    { assert (Hin : In b (a :: s1))
        by (apply (Permutation_in _ (Permutation_sym Hperm)); now left).
      destruct Hin as [<-|Hin]; [auto|].
      rewrite List.Forall_forall in Ha1. auto. }
    assert (Rba : R b a).
    { assert (Hin : In a (b :: s2))
        by (apply (Permutation_in _ Hperm); now left).
      destruct Hin as [<-|Hin]; [auto|].
      rewrite List.Forall_forall in Hb2. auto. }
    assert (Eab : a = b).
    { pose proof (Hf a Ha) as Hfa. simpl in Hfa.
      rewrite (same_rank_refl a Ha), (Hsame a b Ha Hb Rab Rba) in Hfa.
      now injection Hfa. }
    subst b. f_equal. apply IH; auto.
    + now apply Permutation_cons_inv in Hperm.
    + intros z Hz. specialize (Hf z Hz). simpl in Hf.
      destruct (same_rank lt z a); [now injection Hf|assumption].
Qed.

(** An element that is inserted goes behind the elements of its rank. *)
Lemma insert_sorted_stable x z (l : list A) :
  ok x -> ok z -> Forall ok l ->
  StronglySorted (fun a b => lt b a = false) l ->
  List.filter (same_rank lt z) (insert_sorted lt x l)
  = (List.filter (same_rank lt z) l
     ++ if same_rank lt z x then [x] else [])%list.
Proof.
  intros Hx Hz Hok Hs. induction Hs as [|y l Hs IH Hy].
  - simpl. now destruct (same_rank lt z x).
  - apply Forall_cons_iff in Hok as [Hoky Hok].
    cbn [insert_sorted]. destruct (lt x y) eqn:E.
    + destruct (same_rank lt z x) eqn:Ezx.
      * assert (Hnone : List.filter (same_rank lt z) (y :: l) = []).
        { apply filter_none. intros w Hw.
          assert (Hokw : ok w).
          { destruct Hw as [<-|Hw]; [assumption|].
            rewrite List.Forall_forall in Hok. auto. }
          assert (Hwy : lt w y = false).
          { destruct Hw as [<-|Hw]; [now apply lt_irrefl|].
            rewrite List.Forall_forall in Hy. auto. }
          assert (Hxw : lt x w = true).
          { destruct (lt x w) eqn:Exw; [reflexivity|].
            now rewrite (not_lt_trans y w x Hoky Hokw Hx Hwy Exw) in E. }
          unfold same_rank in *.
          apply andb_true_iff in Ezx as [Hzx Hxz].
          apply negb_true_iff in Hzx, Hxz.
          destruct (lt z w) eqn:Ezw; [reflexivity|].
          destruct (lt w z) eqn:Ewz; [now rewrite andb_false_r|].
          now rewrite (not_lt_trans w z x Hokw Hz Hx Ezw Hxz) in Hxw. }
        change (List.filter (same_rank lt z) (x :: y :: l))
          with (if same_rank lt z x
                then x :: List.filter (same_rank lt z) (y :: l)
                else List.filter (same_rank lt z) (y :: l)).
        now rewrite Ezx, Hnone.
      * change (List.filter (same_rank lt z) (x :: y :: l))
          with (if same_rank lt z x
                then x :: List.filter (same_rank lt z) (y :: l)
                else List.filter (same_rank lt z) (y :: l)).
        now rewrite Ezx, app_nil_r.
    + simpl. rewrite (IH Hok). now destruct (same_rank lt z y).
Qed.

Lemma sort_into_stable z (acc l : list A) :
  ok z -> Forall ok acc -> Forall ok l ->
  StronglySorted (fun a b => lt b a = false) acc ->
  List.filter (same_rank lt z) (sort_into lt acc l)
  = (List.filter (same_rank lt z) acc ++ List.filter (same_rank lt z) l)%list.
Proof.
  intros Hz. revert acc. induction l as [|x l IH]; intros acc Hacc Hl Hs; simpl.
  - now rewrite app_nil_r.
  - apply Forall_cons_iff in Hl as [Hx Hl].
    rewrite IH; auto using insert_sorted_ok.
    + rewrite insert_sorted_stable by assumption.
      rewrite <- app_assoc. now destruct (same_rank lt z x).
    + apply (insert_sorted_sorted lt (fun a b => lt b a = false) ok);
        eauto.
Qed.

Lemma py_sorted_ascending (l : list A) :
  Forall ok l -> StronglySorted (fun a b => lt b a = false) (py_sorted lt l).
Proof.
  intros Hl.
  apply (py_sorted_sorted lt (fun a b => lt b a = false) ok); eauto.
Qed.

(** [py_sorted] is the stable sort: of the permutations of a list, the one
    in ascending order whose elements of the same rank are in the order
    they had. *)
Lemma py_sorted_stable (l s : list A) :
  Forall ok l ->
  Permutation s l ->
  StronglySorted (fun a b => lt b a = false) s ->
  (forall z, ok z -> List.filter (same_rank lt z) s
                     = List.filter (same_rank lt z) l) ->
  s = py_sorted lt l.
Proof.
  intros Hl Hperm Hs Hf.
  apply (stable_unique (fun a b => lt b a = false)).
  - intros x Hx. now apply lt_irrefl.
  - intros x y _ _ Hxy Hyx. unfold same_rank. now rewrite Hxy, Hyx.
  - rewrite List.Forall_forall in *. intros x Hx.
    apply Hl, (Permutation_in _ Hperm), Hx.
  - now rewrite Hperm, py_sorted_perm.
  - assumption.
  - now apply py_sorted_ascending.
  - intros z Hz. rewrite (Hf z Hz). unfold py_sorted.
    rewrite sort_into_stable; auto; constructor.
Qed.

(** [py_sorted_reverse] is the stable sort in descending order. *)
Lemma py_sorted_reverse_stable (l s : list A) :
  Forall ok l ->
  Permutation s l ->
  StronglySorted (fun a b => lt a b = false) s ->
  (forall z, ok z -> List.filter (same_rank lt z) s
                     = List.filter (same_rank lt z) l) ->
  s = py_sorted_reverse lt l.
Proof.
  intros Hl Hperm Hs Hf.
  assert (Hrev : Forall ok (rev l)).
  { rewrite List.Forall_forall in *. intros x Hx. apply Hl. now apply in_rev. }
  apply (stable_unique (fun a b => lt a b = false)).
  - intros x Hx. now apply lt_irrefl.
  - intros x y _ _ Hxy Hyx. unfold same_rank. now rewrite Hxy, Hyx.
  - rewrite List.Forall_forall in *. intros x Hx.
    apply Hl, (Permutation_in _ Hperm), Hx.
  - now rewrite Hperm, py_sorted_reverse_perm.
  - assumption.
  - unfold py_sorted_reverse.
    apply (StronglySorted_rev (fun a b => lt b a = false)).
    now apply py_sorted_ascending.
  - intros z Hz. rewrite (Hf z Hz). unfold py_sorted_reverse, py_sorted.
    rewrite List.filter_rev, sort_into_stable; auto; [|constructor].
    simpl. now rewrite List.filter_rev, rev_involutive.
Qed.

End StableSortFacts.

(** With two elements one comparison decides, consistent or not. *)
Lemma py_sorted_reverse_two {A : Type} (lt : A -> A -> bool) (a b : A) :
  py_sorted_reverse lt [a; b] = if lt a b then [b; a] else [a; b].
Proof. unfold py_sorted_reverse, py_sorted. simpl. now destruct (lt a b). Qed.

(** ** Filter validation in [CarService] *)

Section CarServiceFacts.
Import CarService.
Context {Fuel Extended : Type}.
Context (lower : string -> string).
Context (extract : string -> list string -> Z -> list (string * Z)).
Context (select_cars :
  CarService.t (Fuel := Fuel) (Extended := Extended) ->
  Z -> Z -> filters -> string + list (CarDetail Fuel Extended)).
Context (search_cars :
  CarService.t (Fuel := Fuel) (Extended := Extended) ->
  string -> Z -> filters -> string + list (CarDetail Fuel Extended)).

Abbreviation service := (CarService.t (Fuel := Fuel) (Extended := Extended)).

Implicit Types (value filter_name : string) (available : gset string).

Lemma validate_filter_value_match filter_name value available :
  matches lower value available ->
  _validate_filter_value lower extract filter_name value available = Return tt.
Proof.
  intros Hm. unfold _validate_filter_value. now rewrite bool_decide_eq_true_2.
Qed.

Lemma validate_filter_value_mismatch filter_name value available :
  ~ matches lower value available ->
  _validate_filter_value lower extract filter_name value available
  = Raise (InvalidFilterError filter_name value
             (suggestions_for extract value available)).
Proof.
  intros Hm. unfold _validate_filter_value, suggestions_for.
  rewrite bool_decide_eq_false_2 by exact Hm.
  now destruct (map fst _).
Qed.

Lemma validate_optional_accepted filter_name (value : option string) available :
  accepted lower (filter_name, value, available) ->
  validate_optional lower extract filter_name value available = Return tt.
Proof.
  destruct value as [v|]; simpl; [apply validate_filter_value_match|reflexivity].
Qed.

(** The first filter that does not match decides the exception. *)
Lemma validate_arguments_rejects (self : service) f
    (before after : list (string * option string * gset string))
    filter_name value available :
  categorical self f
  = (before ++ (filter_name, Some value, available) :: after)%list ->
  Forall (accepted lower) before ->
  ~ matches lower value available ->
  validate_arguments lower extract self f
  = Raise (InvalidFilterError filter_name value
             (suggestions_for extract value available)).
Proof.
  intros Hcat Hbefore Hm. unfold categorical in Hcat.
  unfold validate_arguments.
  destruct before as [|c1 [|c2 [|c3 [|c4 before]]]]; simpl in Hcat;
    simplify_eq;
    repeat match goal with
    | H : Forall (accepted lower) (_ :: _) |- _ =>
        apply Forall_cons_iff in H as [? H]
    end;
    repeat match goal with
    | H : accepted lower (?n, ?v, ?a) |- _ =>
        rewrite (validate_optional_accepted n v a H); clear H
    end;
    repeat match goal with
    | H : _ = Some value |- _ => rewrite H
    end;
    simpl; try (rewrite (validate_filter_value_mismatch _ _ _ Hm); reflexivity).
  destruct before; discriminate.
Qed.

Lemma bind_not_invalid {A B : Type} (m : result A) (k : A -> result B) :
  (forall n v s, m <> Raise (InvalidFilterError n v s)) ->
  (forall a n v s, k a <> Raise (InvalidFilterError n v s)) ->
  forall n v s, (m ≫= k) <> Raise (InvalidFilterError n v s).
Proof.
  intros Hm Hk n v s. destruct m as [e|a]; simpl; [|apply Hk].
  intros [= ->]. now apply (Hm n v s).
Qed.

(** When every supplied filter matches, validation raises at most a
    [ValueError] about the sort arguments. *)
Lemma validate_arguments_accepts (self : service) f :
  Forall (accepted lower) (categorical self f) ->
  forall n v s,
    validate_arguments lower extract self f <> Raise (InvalidFilterError n v s).
Proof.
  intros Hall. unfold categorical in Hall.
  repeat match goal with
  | H : Forall (accepted lower) (_ :: _) |- _ => apply Forall_cons_iff in H as [? H]
  end.
  unfold validate_arguments.
  repeat match goal with
  | H : accepted lower (?n, ?v, ?a) |- _ =>
      rewrite (validate_optional_accepted n v a H); clear H
  end.
  simpl. intros n v s.
  destruct (sort_by f) as [sb|]; simpl;
    repeat (case_bool_decide; simpl); discriminate.
Qed.

Lemma after_validation_not_invalid
    (r : string + list (CarDetail Fuel Extended)) n v s :
  after_validation r <> Raise (InvalidFilterError n v s).
Proof. destruct r; discriminate. Qed.

Lemma in_firstn {A : Type} (n : nat) (l : list A) x :
  In x (firstn n l) -> In x l.
Proof.
  revert l. induction n as [|n IH]; intros [|y l]; simpl; intuition.
Qed.

Lemma suggestions_available value available x :
  (forall q cs lim c sc, In (c, sc) (extract q cs lim) -> In c cs) ->
  In x (suggestions_for extract value available) -> x ∈ available.
Proof.
  intros Hsound. unfold suggestions_for.
  destruct (map fst _) as [|c found] eqn:E.
  - intros Hx. apply in_firstn in Hx.
    apply (Permutation_in _ (py_sorted_perm _ _)) in Hx.
    apply elem_of_elements. now apply list_elem_of_In.
  - rewrite <- E. intros Hx. apply in_map_iff in Hx as ([c' sc] & <- & Hf).
    apply filter_In in Hf as [Hin _]. apply Hsound in Hin.
    apply elem_of_elements. now apply list_elem_of_In.
Qed.

Lemma suggestions_nonempty value (available : gset string) :
  available <> ∅ -> suggestions_for extract value available <> [].
Proof.
  intros Hne. unfold suggestions_for.
  destruct (map fst _) as [|c found]; [|discriminate].
  intros Hnil.
  assert (Hlen : length (py_sorted String.ltb (elements available))
                 = length (elements available))
    by (apply Permutation_length, py_sorted_perm).
  destruct (py_sorted String.ltb (elements available)); [|discriminate].
  apply Hne. apply leibniz_equiv, elements_empty_inv.
  destruct (elements available); [reflexivity|discriminate].
Qed.

(** C8, as the code has it.  In [list_cars] and in [search] alike, the
    first of brand, body_type, fuel_type, transmission whose value matches
    no available value, case ignored, makes the call fail with an
    [InvalidFilterError] carrying that filter's name, that value and these
    suggestions: the choices that [extract] scores above 60 among the
    available values, in the order [extract] gives them, or, when there is
    none, the first five available values in sorted order.  The
    suggestions are available values; there is at least one whenever a
    value is available at all, and none otherwise.  When every supplied
    value matches, no [InvalidFilterError] is raised. *)
Theorem invalid_filter_error
    (self : service) (query : string) (limit offset : Z) (f : filters) :
  (forall q cs lim c sc, In (c, sc) (extract q cs lim) -> In c cs) ->
  (Forall (accepted lower) (categorical self f) ->
   forall n v s,
     list_cars lower extract select_cars self limit offset f
       <> Raise (InvalidFilterError n v s)
     /\ search lower extract search_cars self query limit f
       <> Raise (InvalidFilterError n v s))
  /\ (forall before after filter_name value available,
        categorical self f
        = (before ++ (filter_name, Some value, available) :: after)%list ->
        Forall (accepted lower) before ->
        ~ matches lower value available ->
        let suggestions :=
          match map fst (List.filter (fun s => 60 <? snd s)
                                     (extract value (elements available) 5)) with
          | [] => firstn 5 (py_sorted String.ltb (elements available))
          | found => found
          end in
        list_cars lower extract select_cars self limit offset f
          = Raise (InvalidFilterError filter_name value suggestions)
        /\ search lower extract search_cars self query limit f
          = Raise (InvalidFilterError filter_name value suggestions)
        /\ (forall x, In x suggestions -> x ∈ available)
        /\ (available <> ∅ -> suggestions <> [])
        /\ (available = ∅ -> suggestions = [])).
Proof.
  intros Hsound. split.
  - intros Hall n v s. split; unfold list_cars, search;
      apply bind_not_invalid;
      auto using validate_arguments_accepts, after_validation_not_invalid.
  - intros before after filter_name value available Hcat Hbefore Hm.
    change (match map fst (List.filter (fun s => 60 <? snd s)
                             (extract value (elements available) 5)) with
            | [] => firstn 5 (py_sorted String.ltb (elements available))
            | found => found
            end)
      with (suggestions_for extract value available).
    cbv zeta. unfold list_cars, search.
    rewrite (validate_arguments_rejects self f before after _ _ _ Hcat Hbefore Hm).
    split; [reflexivity|]. split; [reflexivity|].
    assert (Hin : forall x, In x (suggestions_for extract value available) ->
                            x ∈ available)
      by (intros x; now apply suggestions_available).
    split; [exact Hin|]. split; [now apply suggestions_nonempty|].
    intros Hempty.
    destruct (suggestions_for extract value available) as [|x rest];
      [reflexivity|].
    specialize (Hin x (or_introl eq_refl)). rewrite Hempty in Hin.
    now apply not_elem_of_empty in Hin.
Qed.

End CarServiceFacts.

(** ** The car tools of [AgentToolKit] *)

Section CarToolsFacts.
Context {Fuel Extended : Type}.
Context (lower : string -> string).
Context (extract : string -> list string -> Z -> list (string * Z)).
Context (select_cars :
  CarService.t (Fuel := Fuel) (Extended := Extended) ->
  Z -> Z -> CarService.filters ->
  string + list (CarService.CarDetail Fuel Extended)).
Context (search_cars :
  CarService.t (Fuel := Fuel) (Extended := Extended) ->
  string -> Z -> CarService.filters ->
  string + list (CarService.CarDetail Fuel Extended)).
Context (serialize_car_detail :
  CarService.CarDetail Fuel Extended -> result string).

(** A [try] whose handlers all return does not raise. *)
Lemma try_except_returns {A : Type} (m : result A) (h : exn -> result A) :
  (forall e, exists a, h e = Return a) -> exists a, try_except m h = Return a.
Proof. intros Hh. destruct m as [e|a]; simpl; eauto. Qed.

(** C9. The tool wrappers always return text: whatever the service or the
    serializer raises is turned into a message.  For a car id that is not
    in the catalogue the text of [get_car_details] begins with
    ["Car not found:"], and for a filter value that matches no available
    value the texts of [list_cars] and [search_car] begin with
    ["Filter error:"]. *)
Theorem car_tools_return_text
    (car_service : CarService.t) (car_id query : string) (limit offset : Z)
    (f : CarService.filters) :
  (exists text,
     AgentToolKit.get_car_details lower extract serialize_car_detail
       car_service car_id = Return text)
  /\ (exists text,
        AgentToolKit.list_cars lower extract select_cars serialize_car_detail
          car_service limit offset f = Return text)
  /\ (exists text,
        AgentToolKit.search_car lower extract search_cars serialize_car_detail
          car_service query limit f = Return text)
  /\ (PyDict.get (lower car_id) (CarService.cars car_service) = None ->
      exists text,
        AgentToolKit.get_car_details lower extract serialize_car_detail
          car_service car_id = Return text
        /\ String.prefix "Car not found:" text = true)
  /\ (forall before after filter_name value available,
        CarService.categorical car_service f
        = (before ++ (filter_name, Some value, available) :: after)%list ->
        Forall (CarService.accepted lower) before ->
        ~ CarService.matches lower value available ->
        exists text1 text2,
          AgentToolKit.list_cars lower extract select_cars serialize_car_detail
            car_service limit offset f = Return text1
          /\ String.prefix "Filter error:" text1 = true
          /\ AgentToolKit.search_car lower extract search_cars
               serialize_car_detail car_service query limit f = Return text2
          /\ String.prefix "Filter error:" text2 = true).
Proof.
  repeat apply conj.
  - apply try_except_returns. intros []; eauto.
  - apply try_except_returns. intros []; eauto.
  - apply try_except_returns. intros []; eauto.
  - intros Hget. unfold AgentToolKit.get_car_details, CarService.get_car_details.
    rewrite Hget. simpl. eauto.
  - intros before after filter_name value available Hcat Hbefore Hm.
    unfold AgentToolKit.list_cars, AgentToolKit.search_car,
      CarService.list_cars, CarService.search.
    rewrite (validate_arguments_rejects lower extract car_service f
               before after _ _ _ Hcat Hbefore Hm).
    simpl. eauto 10.
Qed.

End CarToolsFacts.

Lemma same_text_extract_sound q cs lim c sc :
  In (c, sc) (same_text_extract q cs lim) -> In c cs.
Proof.
  unfold same_text_extract. intros H. apply in_firstn in H.
  apply in_map_iff in H as (c' & [= <- _] & Hc). exact Hc.
Qed.

Lemma invalid_filter_error_witness :
  let suggestions :=
    CarService.suggestions_for same_text_extract "Mahindar"
      ({["Mahindra"; "Tata"]} : gset string) in
  (CarService.list_cars ascii_lower same_text_extract no_cars
     two_brands 10 0 (brand_filter "Mahindar")
   = Raise (InvalidFilterError "brand" "Mahindar" suggestions)
   /\ CarService.search ascii_lower same_text_extract no_match
        two_brands "thar" 10 (brand_filter "Mahindar")
      = Raise (InvalidFilterError "brand" "Mahindar" suggestions)
   /\ (forall x, In x suggestions -> x ∈ ({["Mahindra"; "Tata"]} : gset string))
   /\ (({["Mahindra"; "Tata"]} : gset string) <> ∅ -> suggestions <> [])
   /\ (({["Mahindra"; "Tata"]} : gset string) = ∅ -> suggestions = []))
  /\ suggestions = ["Mahindra"; "Tata"].
Proof.
  split; [|vm_compute; reflexivity].
  refine (proj2 (invalid_filter_error ascii_lower same_text_extract
                   no_cars no_match two_brands "thar" 10 0
                   (brand_filter "Mahindar") same_text_extract_sound)
            [] _ "brand" "Mahindar" _ eq_refl _ _).
  - constructor.
  - unfold CarService.matches. rewrite list_elem_of_In. vm_compute.
    intuition discriminate.
Defined.

(** C8 as stated fails where no value is available: the error is raised
    with an empty list of suggestions, whatever the scorer, since both the
    fuzzy matches and the sorted fallback are drawn from the available
    values. *)
Lemma no_suggestion_when_nothing_available :
  CarService.list_cars ascii_lower same_text_extract no_cars
    nothing_loaded 10 0 (brand_filter "Tesla")
  = Raise (InvalidFilterError "brand" "Tesla" [])
  /\ ~ (exists extract : string -> list string -> Z -> list (string * Z),
          (forall q cs lim c sc, In (c, sc) (extract q cs lim) -> In c cs)
          /\ exists suggestions,
               CarService.list_cars ascii_lower extract no_cars
                 nothing_loaded 10 0 (brand_filter "Tesla")
               = Raise (InvalidFilterError "brand" "Tesla" suggestions)
               /\ suggestions <> []).
Proof.
  split; [reflexivity|].
  intros (extract & Hsound & s & Hs & Hne).
  assert (Hnone : extract "Tesla" [] 5 = []).
  { destruct (extract "Tesla" [] 5) as [|[c sc] l] eqn:E; [reflexivity|].
    destruct (Hsound "Tesla" [] 5 c sc). rewrite E. now left. }
  assert (Hm : ~ CarService.matches ascii_lower "Tesla" ∅)
    by (unfold CarService.matches; rewrite elements_empty; intros Hin; inversion Hin).
  unfold CarService.list_cars in Hs.
  rewrite (validate_arguments_rejects ascii_lower extract nothing_loaded
             (brand_filter "Tesla") [] _ "brand" "Tesla" ∅
             eq_refl (Forall_nil_2 _) Hm) in Hs.
  injection Hs as <-. apply Hne.
  unfold CarService.suggestions_for. rewrite elements_empty, Hnone. reflexivity.
Qed.

(** ** The embedding cache of [FAQService] *)

Section CacheFacts.
Import FAQService.
Context (embeddings_create : list string -> result matrix).
Context (np_array : json -> result matrix).

Lemma validate_cache_true (file : cache_read) (faqs : list faq) :
  _validate_cache file faqs = true
  <-> exists cache_data,
        file = Parsed (JObj cache_data)
        /\ counts_agree cache_data (length faqs).
Proof.
  split.
  - destruct file as [|[| | | | | |d]]; simpl; try discriminate.
    unfold PyDict.contains.
    destruct (PyDict.get "questions" d) as [q|] eqn:Hq; simpl;
      [|discriminate].
    destruct (PyDict.get "answers" d) as [a|] eqn:Ha; simpl;
      [|discriminate].
    destruct (PyDict.get "metadata" d) as [m|] eqn:Hm; simpl;
      [|discriminate].
    destruct (py_len q) as [nq|] eqn:Lq; [|discriminate].
    destruct (py_len a) as [na|] eqn:La; [|discriminate].
    destruct (py_len m) as [nm|] eqn:Lm; [|discriminate].
    destruct (Nat.eqb_spec nq na); simpl; [|discriminate].
    destruct (Nat.eqb_spec nq nm); simpl; [|discriminate].
    destruct (Nat.eqb_spec nm (length faqs)); simpl; [|discriminate].
    intros _. exists d. split; [reflexivity|].
    exists q, a, m. repeat split; congruence.
  - intros (cache_data & -> & q & a & m & Hq & Ha & Hm & Lq & La & Lm).
    simpl. unfold PyDict.contains. rewrite Hq, Ha, Hm. simpl.
    rewrite Lq, La, Lm. now rewrite !Nat.eqb_refl.
Qed.

Lemma choose_source_load (cache_file : option cache_read) (faqs : list faq) :
  choose_source cache_file faqs = LoadFromCache
  <-> exists cache_data,
        cache_file = Some (Parsed (JObj cache_data))
        /\ counts_agree cache_data (length faqs).
Proof.
  unfold choose_source. destruct cache_file as [file|].
  - destruct (_validate_cache file faqs) eqn:E.
    + apply validate_cache_true in E as (d & -> & Hd). split; eauto.
    + split; [discriminate|]. intros (d & [= ->] & Hd).
      assert (_validate_cache (Parsed (JObj d)) faqs = true)
        by (apply validate_cache_true; eauto).
      congruence.
  - split; [discriminate|]. intros (d & [=] & _).
Qed.

(** C4, as the code has it.  [__init__] takes the embeddings from the cache
    file exactly when the file exists, parses to an object that has the
    entries questions, answers and metadata, and the three have the length
    of the current list of records; nothing in the metadata but its length
    is compared.  In every other case the embeddings are computed anew and
    the cache is written again. *)
Theorem cache_reused_iff_counts_agree
    (faq_data : list raw_faq) (cache_file : option cache_read) :
  let faqs := add_ids faq_data in
  let counts_agree_in_cache :=
    exists cache_data,
      cache_file = Some (Parsed (JObj cache_data))
      /\ counts_agree cache_data (length faqs) in
  (choose_source cache_file faqs = LoadFromCache <-> counts_agree_in_cache)
  /\ (choose_source cache_file faqs = GenerateAndCache
      <-> ~ counts_agree_in_cache)
  /\ (forall cache_data,
        cache_file = Some (Parsed (JObj cache_data)) ->
        counts_agree cache_data (length faqs) ->
        init embeddings_create np_array faq_data cache_file
        = self ← _load_from_cache np_array (Parsed (JObj cache_data)) faqs;
          Return (self, None))
  /\ (~ counts_agree_in_cache ->
      init embeddings_create np_array faq_data cache_file
      = '(self, written) ←
          _generate_and_cache_embeddings embeddings_create faqs;
        Return (self, Some written)).
Proof.
  intros faqs agree.
  pose proof (choose_source_load cache_file faqs) as Hload.
  fold agree in Hload.
  assert (Hgen : choose_source cache_file faqs = GenerateAndCache <-> ~ agree).
  { rewrite <- Hload. destruct (choose_source cache_file faqs);
      split; congruence. }
  split; [exact Hload|]. split; [exact Hgen|]. split.
  - intros cache_data Hfile Hcounts. unfold init. fold faqs.
    assert (Hsrc : choose_source cache_file faqs = LoadFromCache)
      by (apply Hload; exists cache_data; auto).
    rewrite Hsrc, Hfile. reflexivity.
  - intros Hnot. unfold init. fold faqs.
    apply Hgen in Hnot. rewrite Hnot. reflexivity.
Qed.

(** C4 as stated fails: the cache was written for the records in the order
    ownership, road tax; the file now lists road tax first.  The count is
    the same, the metadata differs from the current records, and the cache
    is taken all the same: the service pairs the road-tax record with the
    embeddings computed for the ownership record, and nothing is
    recomputed or written. *)
Lemma reordered_records_reuse_cache :
  PyDict.get "metadata" stale_cache
    <> Some (JArr (map faq_to_json (add_ids [road_tax; ownership])))
  /\ length (add_ids [ownership; road_tax])
     = length (add_ids [road_tax; ownership])
  /\ _validate_cache (Parsed (JObj stale_cache))
       (add_ids [road_tax; ownership]) = true
  /\ choose_source (Some (Parsed (JObj stale_cache)))
       (add_ids [road_tax; ownership]) = LoadFromCache
  /\ init unit_embedding floats_of_json [road_tax; ownership]
       (Some (Parsed (JObj stale_cache)))
     = Return ({| faqs := add_ids [road_tax; ownership];
                  question_embeddings := [[1; 0]; [0; 1]]%float;
                  answer_embeddings := [[1; 0]; [0; 1]]%float |},
               None).
Proof. repeat split. vm_compute. discriminate. Qed.

End CacheFacts.

(** ** Binary64 arithmetic at the edges

    The facts below are read off the specification of the primitive
    operations ([SpecFloat]); none involves rounding. *)

Section FloatFacts.
Local Open Scope float_scope.

Lemma div_zero_special x d :
  is_zero d = true -> nan_or_infinite (x / d) = true.
Proof.
  unfold is_zero, nan_or_infinite. rewrite div_spec.
  destruct (Prim2SF d); try discriminate. intros _.
  unfold SF64div, SFdiv. now destruct (Prim2SF x).
Qed.

(** Zero divided by zero is NaN. *)
Lemma zero_div_zero x d :
  is_zero x = true -> is_zero d = true -> Prim2SF (x / d) = S754_nan.
Proof.
  unfold is_zero. rewrite div_spec.
  destruct (Prim2SF d); try discriminate.
  destruct (Prim2SF x); try discriminate. reflexivity.
Qed.

Lemma mul_special_l x y :
  nan_or_infinite x = true -> nan_or_infinite (x * y) = true.
Proof.
  unfold nan_or_infinite. rewrite mul_spec. unfold SF64mul, SFmul.
  destruct (Prim2SF x); try discriminate; intros _; now destruct (Prim2SF y).
Qed.

Lemma mul_nan_l x y : Prim2SF x = S754_nan -> Prim2SF (x * y) = S754_nan.
Proof. rewrite mul_spec. now intros ->. Qed.

Lemma add_special_r x y :
  nan_or_infinite y = true -> nan_or_infinite (x + y) = true.
Proof.
  unfold nan_or_infinite. rewrite add_spec. unfold SF64add, SFadd.
  destruct (Prim2SF y); try discriminate; intros _;
    destruct (Prim2SF x) as [| [] | |]; try reflexivity; now destruct s.
Qed.

Lemma add_special_l x y :
  nan_or_infinite x = true -> nan_or_infinite (x + y) = true.
Proof.
  unfold nan_or_infinite. rewrite add_spec. unfold SF64add, SFadd.
  destruct (Prim2SF x); try discriminate; intros _;
    destruct (Prim2SF y) as [| [] | |]; try reflexivity; now destruct s.
Qed.

Lemma add_nan_r x y : Prim2SF y = S754_nan -> Prim2SF (x + y) = S754_nan.
Proof. rewrite add_spec. intros ->. now destruct (Prim2SF x). Qed.

Lemma add_nan_l x y : Prim2SF x = S754_nan -> Prim2SF (x + y) = S754_nan.
Proof. rewrite add_spec. now intros ->. Qed.

(** A zero times anything is a zero or NaN, and dividing by either gives
    NaN or an infinity. *)
Lemma div_zero_product_special x d e :
  is_zero d = true -> nan_or_infinite (x / (d * e)) = true.
Proof.
  unfold is_zero, nan_or_infinite. rewrite div_spec, mul_spec.
  destruct (Prim2SF d); try discriminate. intros _.
  unfold SF64div, SF64mul, SFdiv, SFmul.
  destruct (Prim2SF e); now destruct (Prim2SF x).
Qed.

Lemma special_not_zero x :
  nan_or_infinite x = true -> (x =? 0) = false.
Proof.
  unfold nan_or_infinite. rewrite FloatAxioms.eqb_spec.
  change (Prim2SF 0) with (S754_zero false).
  destruct (Prim2SF x) as [| [] | |]; try discriminate; reflexivity.
Qed.

Lemma nan_not_below x y : Prim2SF x = S754_nan -> (x <? y) = false.
Proof. rewrite FloatAxioms.ltb_spec. unfold SFltb. now intros ->. Qed.

Lemma not_below_nan x y : Prim2SF y = S754_nan -> (x <? y) = false.
Proof.
  rewrite FloatAxioms.ltb_spec. unfold SFltb. intros ->. now destruct (Prim2SF x).
Qed.

(** *** The order on the floats that are not NaN *)

Lemma SFcompare_opp x y : SFcompare y x = option_map CompOpp (SFcompare x y).
Proof.
  destruct x as [sx|sx| |sx mx ex], y as [sy|sy| |sy my ey]; simpl;
    try reflexivity; try (destruct sx; reflexivity);
    try (destruct sy; reflexivity); try (destruct sx, sy; reflexivity).
  destruct sx, sy; simpl; try reflexivity; f_equal;
    rewrite (Z.compare_antisym ey ex);
    destruct (ey ?= ex)%Z; simpl; try reflexivity;
    change (Pos.compare_cont Eq ?a ?b) with (Pos.compare a b);
    rewrite (Pos.compare_antisym my mx); now destruct (my ?= mx)%positive.
Qed.

Lemma SFle_trans x y z : SFle x y -> SFle y z -> SFle x z.
Proof.
  unfold SFle.
  destruct x as [sx|sx| |sx mx ex], y as [sy|sy| |sy my ey],
           z as [sz|sz| |sz mz ez];
    simpl; try tauto;
    repeat match goal with s : bool |- _ => destruct s end; simpl; try tauto;
    change (Pos.compare_cont Eq ?a ?b) with (Pos.compare a b);
    repeat match goal with
    | |- context [Z.compare ?a ?b] => destruct (Z.compare_spec a b)
    | |- context [Pos.compare ?a ?b] => destruct (Pos.compare_spec a b)
    end; simpl; try tauto; try lia.
Qed.

Lemma float_le_SFle x y : float_le x y <-> SFle (Prim2SF x) (Prim2SF y).
Proof.
  unfold float_le, SFle. rewrite FloatAxioms.leb_spec. unfold SFleb.
  destruct (SFcompare _ _) as [[]|]; intuition discriminate.
Qed.

Lemma float_le_trans x y z : float_le x y -> float_le y z -> float_le x z.
Proof. rewrite !float_le_SFle. apply SFle_trans. Qed.

Lemma ltb_float_le x y : (x <? y) = true -> float_le x y.
Proof.
  unfold float_le. rewrite FloatAxioms.ltb_spec, FloatAxioms.leb_spec.
  unfold SFltb, SFleb.
  now destruct (SFcompare _ _) as [[]|].
Qed.

Lemma SFcompare_defined x y :
  x <> S754_nan -> y <> S754_nan -> exists c, SFcompare x y = Some c.
Proof.
  intros Hx Hy. destruct x, y; simpl; try congruence; eauto.
Qed.

Lemma not_ltb_float_le x y :
  not_nan x = true -> not_nan y = true -> (x <? y) = false -> float_le y x.
Proof.
  unfold not_nan, float_le.
  rewrite FloatAxioms.ltb_spec, FloatAxioms.leb_spec. unfold SFltb, SFleb.
  intros Hx Hy. rewrite (SFcompare_opp (Prim2SF x) (Prim2SF y)).
  destruct (SFcompare_defined (Prim2SF x) (Prim2SF y)) as [c ->].
  - now destruct (Prim2SF x).
  - now destruct (Prim2SF y).
  - now destruct c.
Qed.

Lemma ltb_irrefl x : (x <? x) = false.
Proof.
  rewrite FloatAxioms.ltb_spec. unfold SFltb.
  pose proof (SFcompare_opp (Prim2SF x) (Prim2SF x)) as H.
  destruct (SFcompare _ _) as [[]|]; simpl in H; congruence.
Qed.

Lemma float_le_refl x : not_nan x = true -> float_le x x.
Proof. intros Hx. apply not_ltb_float_le; auto using ltb_irrefl. Qed.

Lemma float_le_not_ltb x y : float_le y x -> (x <? y) = false.
Proof.
  unfold float_le. rewrite FloatAxioms.ltb_spec, FloatAxioms.leb_spec.
  unfold SFltb, SFleb.
  rewrite (SFcompare_opp (Prim2SF x) (Prim2SF y)).
  now destruct (SFcompare (Prim2SF x) (Prim2SF y)) as [[]|].
Qed.

(** On floats that are not NaN, [<] is a consistent order. *)
Lemma ltb_asym x y : (x <? y) = true -> (y <? x) = false.
Proof. intros H. now apply float_le_not_ltb, ltb_float_le. Qed.

Lemma not_ltb_trans x y z :
  not_nan x = true -> not_nan y = true -> not_nan z = true ->
  (y <? x) = false -> (z <? y) = false -> (z <? x) = false.
Proof.
  intros Hx Hy Hz Hyx Hzy. apply float_le_not_ltb.
  apply (float_le_trans x y z); now apply not_ltb_float_le.
Qed.

End FloatFacts.

(** ** Ranking in [FAQService.search] *)

Section SearchFacts.
Import FAQService.
Context (embeddings_create : list string -> result matrix).

Lemma best_is_max q a :
  not_nan q = true -> not_nan a = true ->
  float_le q (best q a) /\ float_le a (best q a)
  /\ (best q a = q \/ best q a = a).
Proof.
  intros Hq Ha. unfold best. destruct (q <? a)%float eqn:E.
  - repeat split; auto using ltb_float_le, float_le_refl.
  - repeat split; auto using not_ltb_float_le, float_le_refl.
Qed.

Lemma best_not_nan q a :
  not_nan q = true -> not_nan a = true -> not_nan (best q a) = true.
Proof. intros Hq Ha. unfold best. now destruct (q <? a)%float. Qed.

(** [str] tells indices apart, so the ids given by [add_ids] differ. *)
Lemma str_of_nat_inj n m : str_of_nat n = str_of_nat m -> n = m.
Proof.
  unfold str_of_nat. intros H.
  apply (f_equal NilEmpty.uint_of_string) in H.
  rewrite !NilEmpty.usu in H. injection H as H.
  apply (f_equal Nat.of_uint) in H. now rewrite !Unsigned.of_to in H.
Qed.

Lemma add_ids_ids (data : list raw_faq) :
  map id (add_ids data) = map str_of_nat (seq 0 (length data)).
Proof.
  unfold add_ids. generalize 0%nat.
  induction data as [|entry data IH]; intros k; simpl; [reflexivity|].
  now rewrite IH.
Qed.

Lemma add_ids_NoDup (data : list raw_faq) :
  List.NoDup (map id (add_ids data)).
Proof.
  rewrite add_ids_ids. apply Finite.Injective_map_NoDup.
  - intros n m. apply str_of_nat_inj.
  - apply List.seq_NoDup.
Qed.

Lemma add_ids_length (data : list raw_faq) :
  length (add_ids data) = length data.
Proof.
  unfold add_ids. rewrite length_map. generalize 0%nat.
  induction data as [|entry data IH]; intros k; simpl; auto.
Qed.

(** Three facts on dictionaries whose keys differ. *)
Lemma set_fresh {V : Type} k (v : V) (d : list (string * V)) :
  ~ In k (PyDict.keys d) -> PyDict.set k v d = (d ++ [(k, v)])%list.
Proof.
  induction d as [|[k' v'] d IH]; simpl; intros Hk; [reflexivity|].
  destruct (String.eqb_spec k k') as [->|]; [tauto|].
  rewrite IH; tauto.
Qed.

Lemma get_middle {V : Type} k (v : V) (d1 d2 : list (string * V)) :
  ~ In k (PyDict.keys d1) ->
  PyDict.get k (d1 ++ (k, v) :: d2)%list = Some v.
Proof.
  induction d1 as [|[k' v'] d1 IH]; simpl; intros Hk.
  - now rewrite String.eqb_refl.
  - destruct (String.eqb_spec k k') as [->|]; [tauto|]. apply IH. tauto.
Qed.

Lemma set_middle {V : Type} k (v v' : V) (d1 d2 : list (string * V)) :
  ~ In k (PyDict.keys d1) ->
  PyDict.set k v' (d1 ++ (k, v) :: d2)%list = (d1 ++ (k, v') :: d2)%list.
Proof.
  induction d1 as [|[k0 v0] d1 IH]; simpl; intros Hk.
  - now rewrite String.eqb_refl.
  - destruct (String.eqb_spec k k0) as [->|]; [tauto|]. rewrite IH; tauto.
Qed.

Lemma entries_keys fs ss :
  length ss = length fs -> PyDict.keys (entries fs ss) = map id fs.
Proof.
  unfold entries, PyDict.keys. revert ss.
  induction fs as [|f fs IH]; intros [|s ss]; simpl; try discriminate; auto.
  intros [= H]. now rewrite IH.
Qed.

Lemma entries_app fs1 ss1 fs2 ss2 :
  length ss1 = length fs1 ->
  entries (fs1 ++ fs2) (ss1 ++ ss2)
  = (entries fs1 ss1 ++ entries fs2 ss2)%list.
Proof.
  unfold entries. revert ss1.
  induction fs1 as [|f fs1 IH]; intros [|s ss1]; simpl; try discriminate; auto.
  intros [= H]. now rewrite IH.
Qed.

Lemma entries_values fs ss : PyDict.values (entries fs ss) = combine fs ss.
Proof.
  unfold entries, PyDict.values. rewrite map_map. simpl. apply map_id.
Qed.

Lemma fresh_id (pre post : list faq) f :
  List.NoDup (map id (pre ++ f :: post)) -> ~ In (id f) (map id pre).
Proof.
  rewrite map_app. simpl. intros Hnd Hin.
  apply List.NoDup_remove_2 in Hnd. apply Hnd, in_or_app. now left.
Qed.

Lemma faq_at_middle self (pre post : list faq) f :
  faqs self = (pre ++ f :: post)%list ->
  faq_at self (length pre) = Return f.
Proof.
  intros Hf. unfold faq_at.
  rewrite Hf, nth_error_app2, Nat.sub_diag by lia. reflexivity.
Qed.

(** The first loop leaves one entry per record, in the order of the
    records, with the question score. *)
Lemma add_question_matches_spec self (post pre : list faq) (qpre qpost : list float) :
  faqs self = (pre ++ post)%list ->
  List.NoDup (map id (faqs self)) ->
  length qpre = length pre -> length qpost = length post ->
  add_question_matches self (enumerate (length pre) qpost) (entries pre qpre)
  = Return (entries (pre ++ post) (qpre ++ qpost)).
Proof.
  revert pre qpre qpost.
  induction post as [|f post IH]; intros pre qpre [|q qpost] Hf Hnd Hpre Hpost;
    try discriminate.
  - simpl. now rewrite !app_nil_r.
  - simpl. rewrite (faq_at_middle self pre post f Hf). simpl.
    rewrite set_fresh
      by (rewrite entries_keys by assumption; apply (fresh_id pre post);
          now rewrite <- Hf).
    change [(id f, (f, q))] with (entries [f] [q]).
    rewrite <- entries_app by assumption.
    replace (S (length pre)) with (length (pre ++ [f]))
      by (rewrite length_app; simpl; lia).
    rewrite IH.
    + now rewrite <- !app_assoc.
    + now rewrite <- app_assoc.
    + assumption.
    + rewrite !length_app. simpl. lia.
    + simpl in Hpost. lia.
Qed.

(** The second loop replaces a score by the answer's where that is
    greater. *)
Lemma merge_answer_matches_spec self (post pre : list faq)
    (mpre qpost apost : list float) :
  faqs self = (pre ++ post)%list ->
  List.NoDup (map id (faqs self)) ->
  length mpre = length pre ->
  length qpost = length post -> length apost = length post ->
  merge_answer_matches self (enumerate (length pre) apost)
    (entries pre mpre ++ entries post qpost)%list
  = Return (entries pre mpre ++ entries post (zip_with best qpost apost))%list.
Proof.
  revert pre mpre qpost apost.
  induction post as [|f post IH];
    intros pre mpre [|q qpost] [|a apost] Hf Hnd Hpre Hq Ha; try discriminate.
  - reflexivity.
  - assert (Hfresh : ~ In (id f) (PyDict.keys (entries pre mpre)))
      by (rewrite entries_keys by assumption; apply (fresh_id pre post);
          now rewrite <- Hf).
    simpl. rewrite (faq_at_middle self pre post f Hf). simpl.
    change (entries (f :: post) (q :: qpost))
      with ((id f, (f, q)) :: entries post qpost).
    rewrite (get_middle _ _ _ _ Hfresh).
    assert (Hstep :
      (if (q <? a)%float
       then PyDict.set (id f) (f, a)
              (entries pre mpre ++ (id f, (f, q)) :: entries post qpost)%list
       else (entries pre mpre ++ (id f, (f, q)) :: entries post qpost)%list)
      = (entries (pre ++ [f]) (mpre ++ [best q a]) ++ entries post qpost)%list).
    { rewrite entries_app by assumption. rewrite <- app_assoc. simpl.
      unfold best. destruct (q <? a)%float.
      - now rewrite (set_middle _ _ _ _ _ Hfresh).
      - reflexivity. }
    rewrite Hstep.
    replace (S (length pre)) with (length (pre ++ [f]))
      by (rewrite length_app; simpl; lia).
    rewrite IH.
    + rewrite entries_app by assumption. now rewrite <- app_assoc.
    + now rewrite <- app_assoc.
    + assumption.
    + rewrite !length_app. simpl. lia.
    + simpl in Hq. lia.
    + simpl in Ha. lia.
Qed.

Lemma length_divide v d : length (divide v d) = length v.
Proof. apply length_map. Qed.

(** On a matrix with at least one row, all rows as long as the query, the
    batch returns the similarity of each row. *)
Lemma cosine_similarity_batch_returns (query : vector) (embeddings : matrix) :
  embeddings <> [] ->
  Forall (fun row => length row = length query) embeddings ->
  cosine_similarity_batch query embeddings
  = Return (map (cos query) embeddings).
Proof.
  intros Hne Hshape. unfold cosine_similarity_batch.
  destruct embeddings as [|row0 rest]; [congruence|].
  set (E := row0 :: rest) in *.
  assert (Hall :
    forallb (fun row => (length row =? length (divide query (norm query)))%nat)
            (map (fun row => divide row (norm row)) E) = true).
  { apply forallb_forall. intros r Hr. apply in_map_iff in Hr as (r0 & <- & Hr0).
    rewrite !length_divide. apply Nat.eqb_eq.
    rewrite List.Forall_forall in Hshape. auto. }
  rewrite Hall. f_equal. rewrite map_map. reflexivity.
Qed.

(** Under the shape conditions that hold after [__init__], and whatever the
    scores are, [search] returns: all records with their merged scores,
    sorted by the stable descending sort and cut at [limit]. *)
Lemma search_returns self query limit (query_embedding : vector) more :
  List.NoDup (map id (faqs self)) ->
  faqs self <> [] ->
  length (question_embeddings self) = length (faqs self) ->
  length (answer_embeddings self) = length (faqs self) ->
  embeddings_create [query] = Return (query_embedding :: more) ->
  Forall (fun row => length row = length query_embedding)
         (question_embeddings self) ->
  Forall (fun row => length row = length query_embedding)
         (answer_embeddings self) ->
  search embeddings_create self query limit
  = Return (slice_to limit
              (py_sorted_reverse by_score (merged self query_embedding))).
Proof.
  intros Hnd Hne Hq Ha Hcreate Hqs Has.
  unfold search, get_embeddings. simpl. rewrite Hcreate. simpl.
  rewrite !cosine_similarity_batch_returns; try assumption;
    try (intros E; rewrite E in *; simpl in *;
         destruct (faqs self); [congruence|discriminate]).
  simpl.
  pose proof (add_question_matches_spec self (faqs self) [] []
                (map (cos query_embedding) (question_embeddings self))
                eq_refl Hnd eq_refl) as H1.
  change (entries [] []) with (@nil (string * (faq * float))) in H1.
  simpl in H1. rewrite H1 by (now rewrite length_map). clear H1. simpl.
  pose proof (merge_answer_matches_spec self (faqs self) [] []
                (map (cos query_embedding) (question_embeddings self))
                (map (cos query_embedding) (answer_embeddings self))
                eq_refl Hnd eq_refl) as H2.
  change (entries [] []) with (@nil (string * (faq * float))) in H2.
  simpl in H2. rewrite H2 by (now rewrite length_map). clear H2. simpl.
  now rewrite entries_values.
Qed.

Lemma merged_not_nan self (query_embedding : vector) :
  Forall (fun row => not_nan (cos query_embedding row) = true)
         (question_embeddings self) ->
  Forall (fun row => not_nan (cos query_embedding row) = true)
         (answer_embeddings self) ->
  Forall (fun r => not_nan (score r) = true) (merged self query_embedding).
Proof.
  intros Hq Ha. apply List.Forall_forall. intros r Hr. unfold merged in Hr.
  apply in_map_iff in Hr as ([f s] & <- & Hfs). simpl.
  apply in_combine_r, list_elem_of_In in Hfs.
  apply elem_of_zip_with in Hfs as (q & a & -> & Hqin & Hain).
  apply list_elem_of_In, in_map_iff in Hqin as (qrow & <- & Hqrow).
  apply list_elem_of_In, in_map_iff in Hain as (arow & <- & Harow).
  rewrite List.Forall_forall in Hq, Ha. apply best_not_nan; auto.
Qed.

Lemma slice_to_nonneg {A : Type} (limit : Z) (l : list A) :
  0 <= limit -> slice_to limit l = firstn (Z.to_nat limit) l.
Proof.
  intros H. unfold slice_to. destruct (Z.leb_spec 0 limit); [reflexivity|lia].
Qed.

(** Without NaN among the similarities the sort leaves the results in
    descending order of score. *)
Lemma ranked_descending self (query_embedding : vector) :
  Forall (fun row => not_nan (cos query_embedding row) = true)
         (question_embeddings self) ->
  Forall (fun row => not_nan (cos query_embedding row) = true)
         (answer_embeddings self) ->
  StronglySorted (fun x y => float_le (score y) (score x))
    (py_sorted_reverse by_score (merged self query_embedding)).
Proof.
  intros Hqn Han. unfold py_sorted_reverse.
  apply (StronglySorted_rev (fun x y => float_le (score x) (score y))).
  apply py_sorted_sorted with (ok := fun r => not_nan (score r) = true).
  - intros x y _ _. apply ltb_float_le.
  - intros x y Hx Hy. now apply not_ltb_float_le.
  - intros x y z _ _ _. apply float_le_trans.
  - apply List.Forall_forall. intros r Hr. apply in_rev in Hr.
    pose proof (merged_not_nan self query_embedding Hqn Han) as Hall.
    rewrite List.Forall_forall in Hall. auto.
Qed.

(** Without NaN among the similarities the ranking does not depend on how
    the sort proceeds: a list that holds the merged results in descending
    order of score, those of equal score in the order of the records, is
    the ranking. *)
Lemma ranking_unique self (query_embedding : vector) (s : list QNAResult) :
  Forall (fun row => not_nan (cos query_embedding row) = true)
         (question_embeddings self) ->
  Forall (fun row => not_nan (cos query_embedding row) = true)
         (answer_embeddings self) ->
  Permutation s (merged self query_embedding) ->
  StronglySorted (fun x y => float_le (score y) (score x)) s ->
  (forall z, List.filter (same_rank by_score z) s
             = List.filter (same_rank by_score z)
                           (merged self query_embedding)) ->
  s = py_sorted_reverse by_score (merged self query_embedding).
Proof.
  intros Hqn Han Hperm Hs Hf.
  apply (py_sorted_reverse_stable by_score
           (fun r => not_nan (score r) = true)).
  - intros x y _ _. apply ltb_asym.
  - intros x y z. apply not_ltb_trans.
  - now apply merged_not_nan.
  - exact Hperm.
  - apply (StronglySorted_impl_in
             (fun x y => float_le (score y) (score x))); [|exact Hs].
    intros x y _ _. apply float_le_not_ltb.
  - auto.
Qed.

(** C1, as the code has it.  For an index of at least one record, built by
    [__init__] (ids by position, one embedding row per record and field,
    all as long as the query's embedding), and when no similarity is NaN,
    [search] returns the records, each with the greater of its question and
    answer similarities, sorted by descending score, and cut by the slice
    [[:limit]], which keeps the first [limit] results when [limit] is not
    negative. *)
Theorem search_ranks_best_scores
    self (data : list raw_faq) query limit (query_embedding : vector) more :
  faqs self = add_ids data ->
  data <> [] ->
  length (question_embeddings self) = length (faqs self) ->
  length (answer_embeddings self) = length (faqs self) ->
  embeddings_create [query] = Return (query_embedding :: more) ->
  Forall (fun row => length row = length query_embedding)
         (question_embeddings self) ->
  Forall (fun row => length row = length query_embedding)
         (answer_embeddings self) ->
  Forall (fun row => not_nan (cos query_embedding row) = true)
         (question_embeddings self) ->
  Forall (fun row => not_nan (cos query_embedding row) = true)
         (answer_embeddings self) ->
  exists ranked,
    search embeddings_create self query limit = Return (slice_to limit ranked)
    /\ Permutation ranked (merged self query_embedding)
    /\ StronglySorted (fun x y => float_le (score y) (score x)) ranked
    /\ (0 <= limit -> slice_to limit ranked = firstn (Z.to_nat limit) ranked)
    /\ (forall q a,
          not_nan q = true -> not_nan a = true ->
          float_le q (best q a) /\ float_le a (best q a)
          /\ (best q a = q \/ best q a = a)).
Proof.
  intros Hfaqs Hdata Hq Ha Hcreate Hqs Has Hqn Han.
  exists (py_sorted_reverse by_score (merged self query_embedding)).
  repeat apply conj.
  - apply search_returns with (more := more); try assumption.
    + rewrite Hfaqs. apply add_ids_NoDup.
    + intros E. apply (f_equal (@length faq)) in E.
      rewrite Hfaqs, add_ids_length in E. destruct data; [congruence|discriminate].
  - apply py_sorted_reverse_perm.
  - unfold py_sorted_reverse.
    apply (StronglySorted_rev (fun x y => float_le (score x) (score y))).
    apply py_sorted_sorted with (ok := fun r => not_nan (score r) = true).
    + intros x y _ _. apply ltb_float_le.
    + intros x y Hx Hy. now apply not_ltb_float_le.
    + intros x y z _ _ _. apply float_le_trans.
    + apply List.Forall_forall. intros r Hr. apply in_rev in Hr.
      pose proof (merged_not_nan self query_embedding Hqn Han) as Hall.
      rewrite List.Forall_forall in Hall. auto.
  - apply slice_to_nonneg.
  - apply best_is_max.
Qed.

(** Sums and products keep what cannot be ranked. *)
Lemma dot_absorbs (P : float -> Prop) (u v : vector) :
  (forall x y, P x -> P (x + y)%float) ->
  (forall x y, P y -> P (x + y)%float) ->
  (forall x y, P x -> P (x * y)%float) ->
  Forall P u -> u <> [] -> length u = length v -> P (dot u v).
Proof.
  intros Hl Hr Hm Hu Hne Hlen. unfold dot.
  assert (Hfold : forall (l : list (float * float)) acc,
            Forall (fun ab => P (fst ab)) l -> P acc ->
            P (fold_left (fun acc ab => acc + fst ab * snd ab)%float l acc)).
  { induction l as [|[a b] l IH]; simpl; intros acc Hall Hacc; [assumption|].
    apply Forall_cons_iff in Hall as [_ Hall]. apply IH; auto. }
  destruct u as [|a u]; [congruence|]. destruct v as [|b v]; [discriminate|].
  apply Forall_cons_iff in Hu as [Pa Hu]. simpl. apply Hfold.
  - apply List.Forall_forall. intros [x y] Hxy. simpl.
    apply in_combine_l in Hxy. rewrite List.Forall_forall in Hu. auto.
  - apply Hr, Hm, Pa.
Qed.

(** The similarity of a row of zero norm is NaN or an infinity. *)
Lemma cos_zero_norm (query row : vector) :
  length row = length query -> row <> [] ->
  is_zero (norm row) = true ->
  nan_or_infinite (cos query row) = true.
Proof.
  intros Hlen Hne Hzero. unfold cos.
  apply (dot_absorbs (fun x => nan_or_infinite x = true));
    auto using add_special_l, add_special_r, mul_special_l.
  - apply List.Forall_forall. intros x Hx. unfold divide in Hx.
    apply in_map_iff in Hx as (x0 & <- & _). now apply div_zero_special.
  - destruct row; [congruence|discriminate].
  - now rewrite !length_divide.
Qed.

(** The norm of a row of zeros is zero, and its similarity is NaN. *)
Lemma norm_zeros (row : vector) :
  Forall (fun x => is_zero x = true) row -> is_zero (norm row) = true.
Proof.
  intros Hrow. unfold norm.
  assert (Hsum : forall l acc,
            Forall (fun x => is_zero x = true) l -> is_zero acc = true ->
            is_zero (fold_left (fun acc x => acc + x * x)%float l acc) = true).
  { induction l as [|x l IH]; simpl; intros acc Hl Hacc; [assumption|].
    apply Forall_cons_iff in Hl as [Hx Hl]. apply IH; [assumption|].
    unfold is_zero in *. rewrite add_spec, mul_spec.
    destruct (Prim2SF acc); try discriminate.
    destruct (Prim2SF x); try discriminate.
    simpl. now destruct s, (xorb s0 s0). }
  specialize (Hsum row 0%float Hrow eq_refl).
  unfold is_zero in *. rewrite sqrt_spec.
  now destruct (Prim2SF (fold_left _ row 0%float)).
Qed.

Lemma cos_zeros (query row : vector) :
  length row = length query -> row <> [] ->
  Forall (fun x => is_zero x = true) row ->
  Prim2SF (cos query row) = S754_nan.
Proof.
  intros Hlen Hne Hzeros. unfold cos.
  pose proof (norm_zeros row Hzeros) as Hnorm.
  apply (dot_absorbs (fun x => Prim2SF x = S754_nan));
    auto using add_nan_l, add_nan_r, mul_nan_l.
  - apply List.Forall_forall. intros x Hx. unfold divide in Hx.
    apply in_map_iff in Hx as (x0 & <- & Hx0).
    rewrite List.Forall_forall in Hzeros.
    apply zero_div_zero; auto.
  - destruct row; [congruence|discriminate].
  - now rewrite !length_divide.
Qed.

(** [cosine_similarity] on a first vector of zero norm. *)
Lemma cosine_similarity_zero_norm (a b : vector) :
  length a = length b -> is_zero (norm a) = true ->
  exists c, cosine_similarity a b = Return c /\ nan_or_infinite c = true.
Proof.
  intros Hlen Hzero. unfold cosine_similarity.
  apply Nat.eqb_eq in Hlen. rewrite Hlen.
  eexists. split; [reflexivity|]. now apply div_zero_product_special.
Qed.

Lemma nth_error_combine {A B : Type} (l : list A) (k : list B) i x y :
  nth_error l i = Some x -> nth_error k i = Some y ->
  nth_error (combine l k) i = Some (x, y).
Proof.
  revert k i. induction l as [|a l IH]; intros [|b k] [|i]; simpl;
    try discriminate; auto.
  now intros [= ->] [= ->].
Qed.

Lemma nth_error_zip_with {A B C : Type} (g : A -> B -> C)
    (l : list A) (k : list B) i x y :
  nth_error l i = Some x -> nth_error k i = Some y ->
  nth_error (zip_with g l k) i = Some (g x y).
Proof.
  revert k i. induction l as [|a l IH]; intros [|b k] [|i]; simpl;
    try discriminate; auto.
  now intros [= ->] [= ->].
Qed.

(** The entry of record [i] among the merged results. *)
Lemma nth_error_merged self (query_embedding : vector) i f qrow arow :
  nth_error (faqs self) i = Some f ->
  nth_error (question_embeddings self) i = Some qrow ->
  nth_error (answer_embeddings self) i = Some arow ->
  nth_error (merged self query_embedding) i
  = Some (to_result (f, best (cos query_embedding qrow)
                              (cos query_embedding arow))).
Proof.
  intros Hf Hq Ha. unfold merged.
  apply map_nth_error, nth_error_combine; [assumption|].
  apply nth_error_zip_with; now apply map_nth_error.
Qed.

End SearchFacts.

Lemma search_ranks_best_scores_witness :
  exists ranked,
    FAQService.search unit_embedding two_records "transfer ownership" 1
    = Return (slice_to 1 ranked)
    /\ Permutation ranked (FAQService.merged two_records [1; 0]%float)
    /\ StronglySorted
         (fun x y => float_le (FAQService.score y) (FAQService.score x))
         ranked
    /\ slice_to 1 ranked = firstn 1 ranked.
Proof.
  destruct (search_ranks_best_scores unit_embedding two_records
              [ownership; road_tax] "transfer ownership" 1 [1; 0]%float [])
    as (ranked & Hsearch & Hperm & Hsorted & Hslice & _);
    try reflexivity; try discriminate;
    try (repeat constructor; fail).
  exists ranked. repeat split; assumption.
Defined.

(** C1 as stated fails on two kinds of index.  With a question row of
    zeros the record's similarity is NaN; the sort cannot place it, and the
    record stays ahead of one whose score is 1 (as it does in CPython, whose
    sort finds nothing to exchange in these two results).  The list is not
    in descending order, and would not be in the other order either.  With
    no record at all the norm along the rows of an array of one dimension
    raises, and nothing is returned. *)
Lemma nan_score_breaks_ranking :
  (exists first second,
     FAQService.search unit_embedding zero_question "transfer ownership" 5
     = Return [first; second]
     /\ FAQService.r_id first = "0"
     /\ Prim2SF (FAQService.score first) = S754_nan
     /\ FAQService.score second = 1%float
     /\ (FAQService.score second <=? FAQService.score first)%float = false
     /\ (FAQService.score first <=? FAQService.score second)%float = false)
  /\ FAQService.search unit_embedding no_records "transfer ownership" 5
     = Raise (OtherException
                "axis 1 is out of bounds for array of dimension 1").
Proof.
  split; [|reflexivity].
  eexists. eexists. split; [vm_compute; reflexivity|].
  repeat split.
Qed.

(** C3, at an index of two records whose first has a question row of
    zeros and an answer row that is the query's embedding.  The norm of the
    question row is 0 and [search] divides by it without raising: it
    returns both records.  The question similarity of the first record is
    NaN and its answer similarity is 1; the merge, which is to keep the
    higher score, keeps NaN, for [1 > NaN] is false.  The record comes back
    first, ahead of a record whose score is 0, with a score that is NaN: not
    0, not the higher of its two similarities, and not between -1 and 1.
    [cosine_similarity], whose result is documented to lie between -1 and
    1, gives NaN on the same row. *)
Lemma zero_question_row_scores_nan :
  FAQService.norm [0; 0]%float = 0%float
  /\ Prim2SF (FAQService.cos [1; 0]%float [0; 0]%float) = S754_nan
  /\ FAQService.cos [1; 0]%float [1; 0]%float = 1%float
  /\ (exists c,
        FAQService.cosine_similarity [0; 0]%float [1; 0]%float = Return c
        /\ Prim2SF c = S754_nan)
  /\ exists r r',
       FAQService.search unit_embedding zero_question_only "transfer ownership" 5
       = Return [r; r']
       /\ FAQService.r_id r = "0"
       /\ Prim2SF (FAQService.score r) = S754_nan
       /\ (FAQService.score r =? 0)%float = false
       /\ (FAQService.score r =? 1)%float = false
       /\ (-1 <=? FAQService.score r)%float = false
       /\ (FAQService.score r <=? 1)%float = false
       /\ FAQService.r_id r' = "1"
       /\ FAQService.score r' = 0%float.
Proof.
  split; [reflexivity|]. split; [reflexivity|]. split; [reflexivity|].
  split; [eexists; split; [vm_compute; reflexivity|reflexivity]|].
  eexists. eexists. split; [vm_compute; reflexivity|].
  repeat split.
Qed.

(** ** More on the OTP sessions: sweeping and independence of phones *)

Section SweepFacts.
Import StateManager.
Implicit Types (st : state) (phone otp name : string) (now : Z).

Lemma filter_twice {A} (f g : A -> bool) (l : list A) :
  List.filter f (List.filter g l) = List.filter (fun x => g x && f x) l.
Proof.
  induction l as [|x l IH]; simpl; [reflexivity|].
  destruct (g x); simpl; [destruct (f x)|]; now rewrite IH.
Qed.

Lemma fold_del_filter (ks : list string) st :
  fold_left (fun s phone => PyDict.del phone s) ks st
  = List.filter (fun pd => negb (existsb (String.eqb (fst pd)) ks)) st.
Proof.
  revert st. induction ks as [|k ks IH]; intros st; simpl.
  - symmetry. apply forallb_filter_id. now apply forallb_forall.
  - rewrite IH. unfold PyDict.del. rewrite filter_twice.
    apply filter_ext. intros [p s]. simpl.
    rewrite (String.eqb_sym k p). now rewrite negb_orb.
Qed.

Lemma key_among_expired (f : string * session -> bool) st pd :
  List.NoDup (PyDict.keys st) -> In pd st ->
  existsb (String.eqb (fst pd)) (map fst (List.filter f st)) = f pd.
Proof.
  intros Hnd Hin. destruct (f pd) eqn:E.
  - apply existsb_exists. exists (fst pd). split; [|apply String.eqb_refl].
    apply in_map, filter_In. auto.
  - apply not_true_is_false. intros H.
    apply existsb_exists in H as (k & Hk & Heq).
    apply String.eqb_eq in Heq. subst k.
    apply in_map_iff in Hk as (pd' & Hfst & Hpd').
    apply filter_In in Hpd' as [Hin' Hf'].
    assert (pd' = pd); [|congruence].
    destruct pd as [p s], pd' as [p' s']. simpl in Hfst. subst p'.
    f_equal.
    assert (Some s' = Some s); [|congruence].
    rewrite <- (get_of_NoDup st p s' Hnd Hin').
    now rewrite <- (get_of_NoDup st p s Hnd Hin).
Qed.

Lemma cleanup_expired_filter now (m : Z) st :
  List.NoDup (PyDict.keys st) ->
  cleanup_expired now m st
  = List.filter (fun pd => negb (now - timestamp (snd pd) >? timedelta_minutes m))
                st.
Proof.
  intros Hnd. unfold cleanup_expired. rewrite fold_del_filter.
  apply filter_ext_in. intros pd Hin. f_equal.
  now apply (key_among_expired
               (fun pd => now - timestamp (snd pd) >? timedelta_minutes m)).
Qed.



(** X2. The sweep with the ten-minute window and [verify_otp] draw the same
    line: of the sessions stored, the sweep keeps exactly those whose own
    code [verify_otp] would accept at that moment. *)
Theorem cleanup_expired_agrees_with_verify now st phone (s : session) :
  List.NoDup (PyDict.keys st) ->
  In (phone, s) st ->
  In (phone, s) (cleanup_expired now 10 st)
  <-> fst (verify_otp now phone (StateManager.otp s) st)
      = (true, Some (StateManager.name s)).
Proof.
  intros Hnd Hin. rewrite cleanup_expired_filter by assumption.
  rewrite filter_In. simpl.
  pose proof (get_of_NoDup st phone s Hnd Hin) as Hget.
  destruct (Z.gtb_spec (now - timestamp s) (timedelta_minutes 10)) as [Hold|Hlive].
  - rewrite (verify_otp_expired now phone _ st s Hget) by lia. simpl.
    split; [intros [_ [=]]|intros [=]].
  - rewrite (verify_otp_match now phone st s Hget Hlive). simpl. tauto.
Qed.

Lemma cleanup_expired_agrees_with_verify_witness :
  In ("2222222222", Session "123456" "Bob" 900000000)
     (cleanup_expired 1000000000 10 two_bookings)
  <-> fst (verify_otp 1000000000 "2222222222" "123456" two_bookings)
      = (true, Some "Bob").
Proof.
  apply (cleanup_expired_agrees_with_verify 1000000000 two_bookings
           "2222222222" (Session "123456" "Bob" 900000000)).
  - repeat constructor; simpl; intuition discriminate.
  - right. now left.
Defined.

Lemma set_del_comm {V : Type} p q (v : V) (d : list (string * V)) :
  p <> q -> PyDict.set p v (PyDict.del q d) = PyDict.del q (PyDict.set p v d).
Proof.
  intros Hne. unfold PyDict.del.
  induction d as [|[k w] d IH]; simpl.
  - destruct (String.eqb_spec q p); [congruence|reflexivity].
  - destruct (String.eqb_spec q k) as [->|Hqk]; simpl.
    + destruct (String.eqb_spec p k) as [->|Hpk]; [congruence|]. simpl.
      rewrite String.eqb_refl. simpl. exact IH.
    + destruct (String.eqb_spec p k) as [->|Hpk]; simpl.
      * destruct (String.eqb_spec q k); [congruence|reflexivity].
      * destruct (String.eqb_spec q k); [congruence|]. simpl. now rewrite IH.
Qed.

(** X3. Phones do not interfere.  Verifying a code for one phone answers
    the same whether or not a code was just stored for another phone, and
    the two calls leave the same state in either order; and whatever
    [verify_otp] does to the phone it is asked about, the session of any
    other phone is left as it was. *)
Theorem other_phones_untouched
    st (p q : string) (t0 t : Z) (c0 n c : string) :
  p <> q ->
  fst (verify_otp t q c (store_otp t0 p c0 n st)) = fst (verify_otp t q c st)
  /\ snd (verify_otp t q c (store_otp t0 p c0 n st))
     = store_otp t0 p c0 n (snd (verify_otp t q c st))
  /\ PyDict.get q (snd (verify_otp t p c st)) = PyDict.get q st.
Proof.
  intros Hne.
  assert (Hget : PyDict.get q (store_otp t0 p c0 n st) = PyDict.get q st)
    by (unfold store_otp; now apply get_set_ne).
  repeat split.
  - unfold verify_otp. rewrite Hget.
    destruct (PyDict.get q st) as [s|]; [|reflexivity].
    destruct (_ >? _); [reflexivity|]. now destruct (String.eqb _ _).
  - unfold verify_otp. rewrite Hget.
    destruct (PyDict.get q st) as [s|]; [|reflexivity].
    unfold store_otp.
    destruct (_ >? _); simpl; [now rewrite set_del_comm|].
    destruct (String.eqb _ _); simpl; [now rewrite set_del_comm|reflexivity].
  - unfold verify_otp.
    destruct (PyDict.get p st) as [s|]; [|reflexivity].
    destruct (_ >? _); simpl; [now apply get_del_ne|].
    destruct (String.eqb _ _); simpl; [now apply get_del_ne|reflexivity].
Qed.

Lemma other_phones_untouched_witness :
  fst (verify_otp 1000000000 "2222222222" "123456"
         (store_otp 950000000 "3333333333" "654321" "Carol" two_bookings))
  = fst (verify_otp 1000000000 "2222222222" "123456" two_bookings)
  /\ snd (verify_otp 1000000000 "2222222222" "123456"
            (store_otp 950000000 "3333333333" "654321" "Carol" two_bookings))
     = store_otp 950000000 "3333333333" "654321" "Carol"
         (snd (verify_otp 1000000000 "2222222222" "123456" two_bookings))
  /\ PyDict.get "2222222222"
       (snd (verify_otp 1000000000 "3333333333" "123456" two_bookings))
     = PyDict.get "2222222222" two_bookings.
Proof.
  apply (other_phones_untouched two_bookings "3333333333" "2222222222"
           950000000 1000000000 "654321" "Carol" "123456").
  discriminate.
Defined.

End SweepFacts.

(** ** Booking and confirming *)

Section BookingFacts.
Import StateManager.
Import AgentToolKit.
Implicit Types (st : state) (phone otp name : string) (now : Z).

Lemma del_set_eq {V : Type} k (v : V) (d : list (string * V)) :
  PyDict.del k (PyDict.set k v d) = PyDict.del k d.
Proof.
  unfold PyDict.del. induction d as [|[k' v'] d IH]; simpl.
  - now rewrite String.eqb_refl.
  - destruct (String.eqb_spec k k') as [->|Hne]; simpl.
    + now rewrite String.eqb_refl.
    + destruct (String.eqb_spec k k'); [congruence|]. now rewrite IH.
Qed.

(** The scan finds the session just stored when no other phone carries its
    code. *)
Lemma find_stored_session phone (s : session) st :
  Forall (fun pd => fst pd <> phone -> StateManager.otp (snd pd) <> StateManager.otp s)
         st ->
  List.find (fun pd => String.eqb (StateManager.otp (snd pd)) (StateManager.otp s))
            (PyDict.set phone s st)
  = Some (phone, s).
Proof.
  induction 1 as [|[k v] d Hkv _ IH]; simpl.
  - now rewrite String.eqb_refl.
  - destruct (String.eqb_spec phone k) as [->|Hne]; simpl.
    + now rewrite String.eqb_refl.
    + destruct (String.eqb_spec (StateManager.otp v) (StateManager.otp s)) as [E|_];
        [|exact IH].
      exfalso. apply Hkv; simpl; congruence.
Qed.

(** X4. A booking followed by its confirmation.  When the code drawn for
    the booking is carried by no other phone's session, is not the internal
    code, and comes back within ten minutes, [confirm_ride] confirms the
    booking under the name and phone given to [book_ride], and the session
    is consumed: what remains is the earlier state without that phone. *)
Theorem book_then_confirm
    secret_otp (t0 t1 : Z) (drawn : nat) name phone st :
  Forall (fun pd => fst pd <> phone ->
                    StateManager.otp (snd pd) <> str_of_nat drawn) st ->
  not_internal secret_otp (str_of_nat drawn) ->
  t1 - t0 <= timedelta_minutes 10 ->
  confirm_ride secret_otp t1 (str_of_nat drawn)
    (snd (book_ride t0 drawn name phone st))
  = (confirmed name phone, PyDict.del phone st).
Proof.
  intros Hothers Hsecret Hlive.
  rewrite confirm_ride_scan by assumption.
  unfold book_ride, store_otp. simpl.
  set (s := Session (str_of_nat drawn) name t0).
  change (str_of_nat drawn) with (StateManager.otp s).
  rewrite (find_stored_session phone s st Hothers).
  rewrite (verify_otp_match t1 phone (PyDict.set phone s st) s)
    by (auto using get_set_eq).
  simpl. now rewrite del_set_eq.
Qed.

Lemma book_then_confirm_witness :
  confirm_ride (Some "424242") 1200000000 (str_of_nat 482913)
    (snd (book_ride 1000000000 482913 "Carol" "3333333333" two_bookings))
  = (confirmed "Carol" "3333333333", PyDict.del "3333333333" two_bookings).
Proof.
  apply (book_then_confirm (Some "424242") 1000000000 1200000000 482913
           "Carol" "3333333333" two_bookings).
  - repeat constructor; intros _; vm_compute; discriminate.
  - right. vm_compute. discriminate.
  - unfold timedelta_minutes. lia.
Defined.

(** X5. [confirm_ride] confirms nothing it does not hold.  When the code is
    not the internal one, either the answer is the refusal, and the state is
    left as it was or loses one phone; or the answer is the confirmation for
    a phone that had a session with exactly this code, stored at most ten
    minutes before, under the name of that session, and that session is
    removed.  No call ever adds or alters a session. *)
Theorem confirm_ride_sound secret_otp now otp st :
  not_internal secret_otp otp ->
  let answer := confirm_ride secret_otp now otp st in
  (fst answer = invalid_or_expired
   /\ (snd answer = st \/ exists phone, snd answer = PyDict.del phone st))
  \/ (exists phone s,
        PyDict.get phone st = Some s
        /\ StateManager.otp s = otp
        /\ now - timestamp s <= timedelta_minutes 10
        /\ answer = (confirmed (StateManager.name s) phone, PyDict.del phone st)).
Proof.
  intros Hsecret answer. subst answer.
  rewrite confirm_ride_scan by assumption.
  destruct (List.find _ st) as [[phone s0]|]; [|left; simpl; auto].
  unfold verify_otp.
  destruct (PyDict.get phone st) as [s|] eqn:Hget; [|left; simpl; auto].
  destruct (Z.gtb_spec (now - timestamp s) (timedelta_minutes 10)) as [Hold|Hlive].
  - left. simpl. eauto.
  - destruct (String.eqb_spec (StateManager.otp s) otp) as [Hcode|Hne].
    + right. exists phone, s. auto.
    + left. simpl. auto.
Qed.

Lemma confirm_ride_sound_witness :
  let answer := confirm_ride None 1000000000 "123456" two_bookings in
  (fst answer = invalid_or_expired
   /\ (snd answer = two_bookings
       \/ exists phone, snd answer = PyDict.del phone two_bookings))
  \/ (exists phone s,
        PyDict.get phone two_bookings = Some s
        /\ StateManager.otp s = "123456"
        /\ 1000000000 - timestamp s <= timedelta_minutes 10
        /\ answer
           = (confirmed (StateManager.name s) phone,
              PyDict.del phone two_bookings)).
Proof.
  apply (confirm_ride_sound None 1000000000 "123456" two_bookings). exact I.
Defined.

End BookingFacts.

(** ** Batching in [get_embeddings] *)

Section EmbeddingFacts.
Import FAQService.
Context (embeddings_create : list string -> result matrix).

Lemma batches_concat (fuel k : nat) (texts : list string) :
  (length texts <= fuel)%nat ->
  List.concat (batches fuel (S k) texts) = texts.
Proof.
  revert texts. induction fuel as [|fuel IH]; intros texts Hlen.
  - destruct texts; [reflexivity|simpl in Hlen; lia].
  - destruct texts as [|t texts]; [reflexivity|].
    change (batches (S fuel) (S k) (t :: texts))
      with (firstn (S k) (t :: texts)
            :: batches fuel (S k) (skipn (S k) (t :: texts))).
    change (List.concat (?b :: ?bs)) with (b ++ List.concat bs)%list.
    rewrite IH; [apply firstn_skipn|].
    rewrite length_skipn. simpl in *. lia.
Qed.

Lemma batches_bounds (fuel k : nat) (texts : list string) :
  Forall (fun batch => (1 <= length batch <= S k)%nat) (batches fuel (S k) texts).
Proof.
  revert texts. induction fuel as [|fuel IH]; intros texts.
  - destruct texts; constructor.
  - destruct texts as [|t texts]; [constructor|].
    change (batches (S fuel) (S k) (t :: texts))
      with (firstn (S k) (t :: texts)
            :: batches fuel (S k) (skipn (S k) (t :: texts))).
    constructor; [|apply IH].
    rewrite length_firstn. simpl. lia.
Qed.

Lemma batches_count (fuel k : nat) (texts : list string) :
  (length texts <= fuel)%nat ->
  length (batches fuel (S k) texts) = ((length texts + k) / S k)%nat.
Proof.
  revert texts. induction fuel as [|fuel IH]; intros texts Hlen.
  - destruct texts; [|simpl in Hlen; lia].
    rewrite Nat.div_small by (simpl; lia). reflexivity.
  - destruct texts as [|t texts].
    + rewrite Nat.div_small by (simpl; lia). reflexivity.
    + change (batches (S fuel) (S k) (t :: texts))
        with (firstn (S k) (t :: texts)
              :: batches fuel (S k) (skipn (S k) (t :: texts))).
      cbn [length]. rewrite IH by (rewrite length_skipn; simpl in *; lia).
      rewrite length_skipn. cbn [length].
      destruct (Nat.le_gt_cases (S (length texts)) (S k)) as [Hsmall|Hbig].
      * replace (S (length texts) - S k)%nat with 0%nat by lia.
        rewrite (Nat.div_small (0 + k)) by lia.
        apply (Nat.div_unique _ _ 1%nat (length texts)); lia.
      * replace (S (length texts) + k)%nat
          with ((S (length texts) - S k + k) + 1 * S k)%nat by lia.
        rewrite Nat.div_add by lia. lia.
Qed.

Lemma batches_full (fuel k : nat) (texts : list string) before batch after :
  batches fuel (S k) texts = (before ++ batch :: after)%list ->
  after <> [] -> length batch = S k.
Proof.
  revert fuel texts. induction before as [|b before IH]; intros fuel texts.
  - destruct fuel as [|fuel]; [destruct texts; discriminate|].
    destruct texts as [|t texts]; [discriminate|].
    change (batches (S fuel) (S k) (t :: texts))
      with (firstn (S k) (t :: texts)
            :: batches fuel (S k) (skipn (S k) (t :: texts))).
    intros Hsent Hafter. injection Hsent as Hbatch Hrest. subst batch after.
    destruct (Nat.le_gt_cases (length (t :: texts)) (S k)) as [Hsmall|Hbig].
    + simpl in Hsmall. rewrite skipn_all2 in Hafter by lia.
      destruct fuel; now contradiction Hafter.
    + simpl in Hbig. cbn [length]. rewrite length_firstn. lia.
  - destruct fuel as [|fuel]; [destruct texts; discriminate|].
    destruct texts as [|t texts]; [discriminate|].
    change (batches (S fuel) (S k) (t :: texts))
      with (firstn (S k) (t :: texts)
            :: batches fuel (S k) (skipn (S k) (t :: texts))).
    intros [= _ Hrest]. now apply (IH fuel _ Hrest).
Qed.

Lemma mapM_answers (sent : list (list string)) (answers : list matrix) :
  Forall2 (fun batch rows => embeddings_create batch = Return rows)
          sent answers ->
  mapM embeddings_create sent = Return answers.
Proof.
  induction 1 as [|batch rows sent answers Hb _ IH]; [reflexivity|].
  simpl. rewrite Hb. simpl. rewrite IH. reflexivity.
Qed.

Lemma mapM_first_failure (before : list (list string)) batch after e :
  Forall (fun b => exists rows, embeddings_create b = Return rows) before ->
  embeddings_create batch = Raise e ->
  mapM embeddings_create (before ++ batch :: after)%list = Raise e.
Proof.
  intros Hbefore Hbatch.
  induction Hbefore as [|b before (rows & Hb) _ IH]; simpl.
  - rewrite Hbatch. reflexivity.
  - rewrite Hb. simpl. rewrite IH. reflexivity.
Qed.

(** X6. [get_embeddings] sends the texts to the provider in consecutive
    batches of fifty, in order: the batches put end to end are the texts
    in their order, no batch is empty, none holds more than fifty texts,
    every batch but the last holds fifty, and their number is the
    [total_batches] the function prints, [(len(texts) + 49) // 50].  When
    the provider answers every batch, [get_embeddings] returns the answers
    put end to end; when it fails on a batch after answering those before
    it, [get_embeddings] raises that error. *)
Theorem get_embeddings_batches (texts : list string) :
  let sent := batches (length texts) 50 texts in
  List.concat sent = texts
  /\ Forall (fun batch => (1 <= length batch <= 50)%nat) sent
  /\ length sent = ((length texts + 49) / 50)%nat
  /\ (forall before batch after,
        sent = (before ++ batch :: after)%list -> after <> [] ->
        length batch = 50%nat)
  /\ (forall answers,
        Forall2 (fun batch rows => embeddings_create batch = Return rows)
                sent answers ->
        get_embeddings embeddings_create texts
        = Return (List.concat answers))
  /\ (forall before batch after e,
        sent = (before ++ batch :: after)%list ->
        Forall (fun b => exists rows, embeddings_create b = Return rows)
               before ->
        embeddings_create batch = Raise e ->
        get_embeddings embeddings_create texts = Raise e).
Proof.
  intros sent. subst sent. repeat apply conj.
  - now apply batches_concat.
  - apply batches_bounds.
  - now apply (batches_count (length texts) 49).
  - intros before batch after Hsent. now apply (batches_full _ 49 _ _ _ _ Hsent).
  - intros answers Hanswers. unfold get_embeddings.
    pose proof (mapM_answers _ _ Hanswers) as Hall.
    unfold matrix, vector in *. rewrite Hall. reflexivity.
  - intros before batch after e Hsent Hbefore Hbatch. unfold get_embeddings.
    pose proof (mapM_first_failure _ _ after _ Hbefore Hbatch) as Hfail.
    unfold matrix, vector in *. rewrite Hsent, Hfail. reflexivity.
Qed.

Lemma mapM_map_batches (embed : string -> vector) (sent : list (list string)) :
  (forall batch, (1 <= length batch <= 50)%nat ->
                 embeddings_create batch = Return (map embed batch)) ->
  Forall (fun batch => (1 <= length batch <= 50)%nat) sent ->
  mapM embeddings_create sent = Return (map (map embed) sent).
Proof.
  intros Hcreate. induction 1 as [|batch sent Hb _ IH]; [reflexivity|].
  simpl. rewrite (Hcreate batch Hb). simpl. rewrite IH. reflexivity.
Qed.

Lemma get_embeddings_map (embed : string -> vector) (texts : list string) :
  (forall batch, (1 <= length batch <= 50)%nat ->
                 embeddings_create batch = Return (map embed batch)) ->
  get_embeddings embeddings_create texts = Return (map embed texts).
Proof.
  intros Hcreate. unfold get_embeddings.
  rewrite (mapM_map_batches embed _ Hcreate) by apply batches_bounds.
  simpl. f_equal. rewrite <- concat_map.
  now rewrite batches_concat.
Qed.

(** X7. Batching does not show in the result.  When the provider answers
    each request of one to fifty texts with one embedding per text, in the
    order of the texts and all of one dimension, [get_embeddings] returns
    one row per text, in the order of the texts, however many they are: as
    many rows as texts, each of that dimension. *)
Theorem get_embeddings_row_per_text
    (embed : string -> vector) (dim : nat) (texts : list string) :
  (forall text, length (embed text) = dim) ->
  (forall batch, (1 <= length batch <= 50)%nat ->
                 embeddings_create batch = Return (map embed batch)) ->
  exists rows,
    get_embeddings embeddings_create texts = Return rows
    /\ rows = map embed texts
    /\ length rows = length texts
    /\ Forall (fun row => length row = dim) rows.
Proof.
  intros Hdim Hcreate. exists (map embed texts).
  split; [now apply get_embeddings_map|]. split; [reflexivity|].
  split; [apply length_map|].
  apply List.Forall_forall. intros row Hrow.
  apply in_map_iff in Hrow as (text & <- & _). apply Hdim.
Qed.

End EmbeddingFacts.

Lemma get_embeddings_row_per_text_witness :
  exists rows,
    FAQService.get_embeddings same_row_per_text
      (repeat "How do I pay road tax?" 120)
    = Return rows
    /\ rows = map (fun _ => [1; 0]%float) (repeat "How do I pay road tax?" 120)
    /\ length rows = length (repeat "How do I pay road tax?" 120)
    /\ Forall (fun row => length row = 2%nat) rows.
Proof.
  apply (get_embeddings_row_per_text
           same_row_per_text (fun _ => [1; 0]%float) 2%nat);
    reflexivity.
Defined.

(** ** The cache written is the cache read *)

Section CacheRoundTrip.
Import FAQService.
Context (embeddings_create : list string -> result matrix).
Context (np_array : json -> result matrix).

Lemma py_len_tolist (m : matrix) : py_len (tolist m) = Some (length m).
Proof. simpl. now rewrite length_map. Qed.

(** X8. A first start without a cache file computes the embeddings and
    writes the cache; a second start over the same FAQ file that reads this
    cache back takes the embeddings from it, whatever the provider would
    answer then, writes nothing, and is the same service.  The provider is
    taken to answer one embedding of [dim] numbers per text, and [np.array]
    to rebuild a matrix from the lists [tolist] made of it. *)
Theorem cache_round_trip
    (faq_data : list raw_faq) (embed : string -> vector) (dim : nat)
    (later_create : list string -> result matrix) :
  (forall text, length (embed text) = dim) ->
  (forall batch, (1 <= length batch <= 50)%nat ->
                 embeddings_create batch = Return (map embed batch)) ->
  (forall m, Forall (fun row => length row = dim) m ->
             np_array (tolist m) = Return m) ->
  let self :=
    {| faqs := add_ids faq_data;
       question_embeddings := map embed (map question (add_ids faq_data));
       answer_embeddings := map embed (map answer (add_ids faq_data)) |} in
  exists written,
    init embeddings_create np_array faq_data None = Return (self, Some written)
    /\ _validate_cache (Parsed written) (add_ids faq_data) = true
    /\ init later_create np_array faq_data (Some (Parsed written))
       = Return (self, None).
Proof.
  intros Hdim Hcreate Harray self.
  set (Q := map embed (map question (add_ids faq_data))).
  set (A := map embed (map answer (add_ids faq_data))).
  set (written :=
         JObj [("questions", tolist Q); ("answers", tolist A);
               ("metadata", JArr (map faq_to_json (add_ids faq_data)))]).
  assert (Hvalid : _validate_cache (Parsed written) (add_ids faq_data) = true).
  { apply validate_cache_true. eexists. split; [reflexivity|].
    exists (tolist Q), (tolist A), (JArr (map faq_to_json (add_ids faq_data))).
    repeat split; try reflexivity.
    - rewrite py_len_tolist. unfold Q. now rewrite !length_map.
    - rewrite py_len_tolist. unfold A. now rewrite !length_map.
    - simpl. now rewrite length_map. }
  assert (HQ : Forall (fun row => length row = dim) Q).
  { apply List.Forall_forall. intros row Hrow.
    apply in_map_iff in Hrow as (text & <- & _). apply Hdim. }
  assert (HA : Forall (fun row => length row = dim) A).
  { apply List.Forall_forall. intros row Hrow.
    apply in_map_iff in Hrow as (text & <- & _). apply Hdim. }
  exists written. split; [|split; [exact Hvalid|]].
  - unfold init, choose_source, _generate_and_cache_embeddings.
    rewrite !(get_embeddings_map embeddings_create embed) by exact Hcreate.
    reflexivity.
  - unfold init, choose_source. rewrite Hvalid.
    unfold _load_from_cache, written. cbn -[tolist].
    rewrite (Harray Q HQ). cbn -[tolist]. rewrite (Harray A HA). reflexivity.
Qed.

End CacheRoundTrip.

Lemma row_of_json_tolist (row : FAQService.vector) :
  row_of_json (FAQService.JArr (map FAQService.JFloat row)) = Return row.
Proof.
  simpl. induction row as [|x row IH]; [reflexivity|].
  simpl. simpl in IH. now rewrite IH.
Qed.

Lemma floats_of_json_tolist (m : FAQService.matrix) :
  floats_of_json (FAQService.tolist m) = Return m.
Proof.
  unfold floats_of_json, FAQService.tolist.
  induction m as [|row m IH]; [reflexivity|].
  cbn [map mapM]. rewrite row_of_json_tolist.
  cbn [mapM] in IH. simpl. simpl in IH. now rewrite IH.
Qed.

Lemma cache_round_trip_witness :
  let self :=
    {| FAQService.faqs := FAQService.add_ids [ownership; road_tax];
       FAQService.question_embeddings :=
         map (fun _ => [1; 0]%float)
           (map FAQService.question (FAQService.add_ids [ownership; road_tax]));
       FAQService.answer_embeddings :=
         map (fun _ => [1; 0]%float)
           (map FAQService.answer (FAQService.add_ids [ownership; road_tax])) |} in
  exists written,
    FAQService.init same_row_per_text floats_of_json [ownership; road_tax] None
    = Return (self, Some written)
    /\ FAQService._validate_cache (FAQService.Parsed written)
         (FAQService.add_ids [ownership; road_tax]) = true
    /\ FAQService.init unreachable floats_of_json [ownership; road_tax]
         (Some (FAQService.Parsed written))
       = Return (self, None).
Proof.
  apply (cache_round_trip same_row_per_text floats_of_json
           [ownership; road_tax] (fun _ => [1; 0]%float) 2%nat unreachable).
  - reflexivity.
  - reflexivity.
  - intros m _. apply floats_of_json_tolist.
Defined.

(** ** What [search] returns, and what the FAQ tool makes of it *)

Section SearchResultFacts.
Import FAQService.
Context (embeddings_create : list string -> result matrix).
Context (json_dumps : list QNAResult -> string).

Lemma length_merged self (query_embedding : vector) :
  length (question_embeddings self) = length (faqs self) ->
  length (answer_embeddings self) = length (faqs self) ->
  length (merged self query_embedding) = length (faqs self).
Proof.
  intros Hq Ha. unfold merged.
  rewrite length_map, length_combine, length_zip_with, !length_map.
  unfold vector. rewrite Hq, Ha. now rewrite !Nat.min_id.
Qed.

Lemma ids_merged self (query_embedding : vector) :
  length (question_embeddings self) = length (faqs self) ->
  length (answer_embeddings self) = length (faqs self) ->
  map r_id (merged self query_embedding) = map id (faqs self).
Proof.
  intros Hq Ha. unfold merged.
  assert (Hlen :
    length (zip_with best
              (map (cos query_embedding) (question_embeddings self))
              (map (cos query_embedding) (answer_embeddings self)))
    = length (faqs self))
    by (rewrite length_zip_with, !length_map; unfold vector;
        rewrite Hq, Ha; apply Nat.min_id).
  clear Hq Ha. revert Hlen.
  generalize (zip_with best
                (map (cos query_embedding) (question_embeddings self))
                (map (cos query_embedding) (answer_embeddings self))).
  generalize (faqs self).
  induction l as [|f fs IH]; intros [|s ss]; simpl; try discriminate; auto.
  intros [= H]. f_equal. now apply IH.
Qed.

Lemma merged_from_index self (query_embedding : vector) r :
  In r (merged self query_embedding) ->
  exists f, In f (faqs self)
            /\ r_id r = id f /\ r_question r = question f
            /\ r_answer r = answer f /\ r_category r = category f
            /\ r_subcategory r = subcategory f.
Proof.
  unfold merged. intros Hr. apply in_map_iff in Hr as ([f s] & <- & Hfs).
  apply in_combine_l in Hfs. exists f. simpl. repeat split; auto.
Qed.

Lemma NoDup_firstn {A : Type} (n : nat) (l : list A) :
  List.NoDup l -> List.NoDup (firstn n l).
Proof.
  intros H. rewrite <- (firstn_skipn n l) in H.
  now apply List.NoDup_app_remove_r in H.
Qed.

Lemma slice_to_firstn {A : Type} (stop : Z) (l : list A) :
  exists n, slice_to stop l = firstn n l
            /\ Nat.min n (length l)
               = if 0 <=? stop then Nat.min (Z.to_nat stop) (length l)
                 else Z.to_nat (Z.of_nat (length l) + stop).
Proof.
  unfold slice_to. destruct (0 <=? stop) eqn:E.
  - eexists. split; reflexivity.
  - eexists. split; [reflexivity|]. apply Z.leb_gt in E. lia.
Qed.

(** X9. What comes back from [search] on an index as [__init__] builds it.
    The results number [min(limit, n)] of the [n] records when [limit] is
    not negative (none for 0), and [n + limit], or none if that is
    negative, when it is: a negative limit drops the lowest-ranked records
    instead of limiting.  No record comes back twice, and every result
    carries the id, question, answer, category and subcategory of one
    record of the index. *)
Theorem search_result_count
    self query limit (query_embedding : vector) more :
  List.NoDup (map id (faqs self)) ->
  faqs self <> [] ->
  length (question_embeddings self) = length (faqs self) ->
  length (answer_embeddings self) = length (faqs self) ->
  embeddings_create [query] = Return (query_embedding :: more) ->
  Forall (fun row => length row = length query_embedding)
         (question_embeddings self) ->
  Forall (fun row => length row = length query_embedding)
         (answer_embeddings self) ->
  exists results,
    search embeddings_create self query limit = Return results
    /\ length results
       = (if 0 <=? limit
          then Nat.min (Z.to_nat limit) (length (faqs self))
          else Z.to_nat (Z.of_nat (length (faqs self)) + limit))
    /\ List.NoDup (map r_id results)
    /\ Forall (fun r =>
                 exists f, In f (faqs self)
                           /\ r_id r = id f /\ r_question r = question f
                           /\ r_answer r = answer f
                           /\ r_category r = category f
                           /\ r_subcategory r = subcategory f)
              results.
Proof.
  intros Hnd Hne Hq Ha Hcreate Hqs Has.
  rewrite (search_returns embeddings_create self query limit query_embedding
             more Hnd Hne Hq Ha Hcreate Hqs Has).
  set (ranked := py_sorted_reverse by_score (merged self query_embedding)).
  assert (Hperm : Permutation ranked (merged self query_embedding))
    by apply py_sorted_reverse_perm.
  assert (Hlen : length ranked = length (faqs self))
    by (rewrite (Permutation_length Hperm); now apply length_merged).
  destruct (slice_to_firstn limit ranked) as (n & Hslice & Hn).
  eexists. split; [reflexivity|]. rewrite Hslice. repeat split.
  - rewrite length_firstn, <- Hlen. exact Hn.
  - rewrite <- firstn_map. apply NoDup_firstn.
    apply (Permutation_NoDup (l := map r_id (merged self query_embedding))).
    + symmetry. now apply Permutation_map.
    + now rewrite ids_merged.
  - apply List.Forall_forall. intros r Hr.
    apply in_firstn in Hr.
    apply (merged_from_index self query_embedding).
    now apply (Permutation_in _ Hperm).
Qed.

(** X10. An index without records cannot be searched: the FAQ file with no
    entry starts a service (the provider is never asked), and every search
    on it raises, for [np.linalg.norm(..., axis=1)] has no second axis on
    the empty array; the tool then answers with the error text, not with an
    empty result. *)
Theorem empty_index_search_raises
    (np_array : json -> result matrix) query limit :
  (exists first more, embeddings_create [query] = Return (first :: more)) ->
  exists self,
    init embeddings_create np_array [] None
    = Return (self,
              Some (JObj [("questions", JArr []); ("answers", JArr []);
                          ("metadata", JArr [])]))
    /\ search embeddings_create self query limit
       = Raise (OtherException
                  "axis 1 is out of bounds for array of dimension 1")
    /\ FAQTool.search_faq embeddings_create json_dumps self query limit
       = Return ("Error searching FAQs: "
                 +:+ "axis 1 is out of bounds for array of dimension 1").
Proof.
  intros (first & more & Hcreate).
  eexists. split; [reflexivity|].
  assert (Hsearch : forall lim,
    search embeddings_create
      {| faqs := []; question_embeddings := []; answer_embeddings := [] |}
      query lim
    = Raise (OtherException
               "axis 1 is out of bounds for array of dimension 1")).
  { intros lim. unfold search, get_embeddings. simpl.
    rewrite Hcreate. reflexivity. }
  split; [apply Hsearch|].
  unfold FAQTool.search_faq. simpl. rewrite Hsearch. reflexivity.
Qed.

(** X11. The FAQ tool on an index as [__init__] builds it, when no
    similarity is NaN and the limit is not negative.  The tool looks at the
    first [min(limit, 15)] of the records ranked by descending score, never
    more than fifteen: if there is none (the limit is 0), or the first has
    a score below 0.5, it answers that nothing relevant was found;
    otherwise it answers the serialisation of these records. *)
Theorem search_faq_answer
    self query limit (query_embedding : vector) more :
  List.NoDup (map id (faqs self)) ->
  faqs self <> [] ->
  length (question_embeddings self) = length (faqs self) ->
  length (answer_embeddings self) = length (faqs self) ->
  embeddings_create [query] = Return (query_embedding :: more) ->
  Forall (fun row => length row = length query_embedding)
         (question_embeddings self) ->
  Forall (fun row => length row = length query_embedding)
         (answer_embeddings self) ->
  Forall (fun row => not_nan (cos query_embedding row) = true)
         (question_embeddings self) ->
  Forall (fun row => not_nan (cos query_embedding row) = true)
         (answer_embeddings self) ->
  0 <= limit ->
  exists ranked,
    Permutation ranked (merged self query_embedding)
    /\ StronglySorted (fun x y => float_le (score y) (score x)) ranked
    /\ search embeddings_create self query (Z.min limit 15)
       = Return (firstn (Z.to_nat (Z.min limit 15)) ranked)
    /\ (length (firstn (Z.to_nat (Z.min limit 15)) ranked) <= 15)%nat
    /\ FAQTool.search_faq embeddings_create json_dumps self query limit
       = Return match firstn (Z.to_nat (Z.min limit 15)) ranked with
                | [] => FAQTool.no_relevant_information
                | first :: _ =>
                    if (score first <? 0.5)%float
                    then FAQTool.no_relevant_information
                    else json_dumps (firstn (Z.to_nat (Z.min limit 15)) ranked)
                end.
Proof.
  intros Hnd Hne Hq Ha Hcreate Hqs Has Hqn Han Hlimit.
  exists (py_sorted_reverse by_score (merged self query_embedding)).
  assert (Hsearch :
    search embeddings_create self query (Z.min limit 15)
    = Return (firstn (Z.to_nat (Z.min limit 15))
                (py_sorted_reverse by_score (merged self query_embedding)))).
  { rewrite (search_returns embeddings_create self query (Z.min limit 15)
               query_embedding more Hnd Hne Hq Ha Hcreate Hqs Has).
    now rewrite slice_to_nonneg by lia. }
  repeat apply conj.
  - apply py_sorted_reverse_perm.
  - now apply ranked_descending.
  - exact Hsearch.
  - rewrite length_firstn. lia.
  - unfold FAQTool.search_faq. rewrite Hsearch.
    destruct (firstn (Z.to_nat (Z.min limit 15))
                (py_sorted_reverse by_score (merged self query_embedding)))
      as [|first rest]; [reflexivity|].
    simpl. now destruct (score first <? 0.5)%float.
Qed.

(** X12. The FAQ tool always answers with a text: whatever [search] raises
    (the provider failing, an index whose rows do not have the length of the
    query's embedding, ...) comes back as the text of the error behind
    ["Error searching FAQs: "]. *)
Theorem search_faq_returns_text (self : t) query limit :
  (exists text,
     FAQTool.search_faq embeddings_create json_dumps self query limit
     = Return text)
  /\ (forall e,
        search embeddings_create self query (Z.min limit 15) = Raise e ->
        FAQTool.search_faq embeddings_create json_dumps self query limit
        = Return ("Error searching FAQs: " +:+ exn_str e))
  /\ (forall e,
        embeddings_create [query] = Raise e ->
        FAQTool.search_faq embeddings_create json_dumps self query limit
        = Return ("Error searching FAQs: " +:+ exn_str e)).
Proof.
  assert (Hraise : forall e,
    search embeddings_create self query (Z.min limit 15) = Raise e ->
    FAQTool.search_faq embeddings_create json_dumps self query limit
    = Return ("Error searching FAQs: " +:+ exn_str e)).
  { intros e He. unfold FAQTool.search_faq. rewrite He. reflexivity. }
  split; [|split; [exact Hraise|]].
  - unfold FAQTool.search_faq.
    destruct (search embeddings_create self query (Z.min limit 15))
      as [e|[|first rest]]; simpl; eauto.
    destruct (score first <? 0.5)%float; simpl; eauto.
  - intros e He. apply Hraise.
    unfold search, get_embeddings. simpl. rewrite He. reflexivity.
Qed.

(** X27. Rows of zero norm do not stop a search.  On an index as
    [__init__] builds it, with a limit that reaches the number of records,
    [search] returns every record once, in some order, each with the merge
    of its two similarities as score; neither the norm nor the division
    raises on a row of zero norm.  The similarity computed for a row of
    zero norm is NaN or an infinity.  A record whose question row is all
    zeros has the score NaN, whatever its answer row; a record whose answer
    row is all zeros has its question similarity as score. *)
Theorem zero_norm_record_returned
    self (data : list raw_faq) query limit (query_embedding : vector) more
    (i : nat) (f : faq) (qrow arow : vector) :
  faqs self = add_ids data ->
  length (question_embeddings self) = length (faqs self) ->
  length (answer_embeddings self) = length (faqs self) ->
  embeddings_create [query] = Return (query_embedding :: more) ->
  query_embedding <> [] ->
  Forall (fun row => length row = length query_embedding)
         (question_embeddings self) ->
  Forall (fun row => length row = length query_embedding)
         (answer_embeddings self) ->
  nth_error (faqs self) i = Some f ->
  nth_error (question_embeddings self) i = Some qrow ->
  nth_error (answer_embeddings self) i = Some arow ->
  Z.of_nat (length (faqs self)) <= limit ->
  let q := cos query_embedding qrow in
  let a := cos query_embedding arow in
  exists results,
    search embeddings_create self query limit = Return results
    /\ Permutation results (merged self query_embedding)
    /\ In (to_result (f, best q a)) results
    /\ (is_zero (norm qrow) = true -> nan_or_infinite q = true)
    /\ (is_zero (norm arow) = true -> nan_or_infinite a = true)
    /\ (Forall (fun x => is_zero x = true) qrow ->
        Prim2SF (best q a) = S754_nan)
    /\ (Forall (fun x => is_zero x = true) arow -> best q a = q).
Proof.
  intros Hfaqs Hq Ha Hcreate Hdim Hqs Has Hf Hqrow Harow Hlimit q a.
  assert (Hqlen : length qrow = length query_embedding).
  { rewrite List.Forall_forall in Hqs. apply Hqs.
    now apply nth_error_In with i. }
  assert (Halen : length arow = length query_embedding).
  { rewrite List.Forall_forall in Has. apply Has.
    now apply nth_error_In with i. }
  assert (Hqne : qrow <> []).
  { intros ->. destruct query_embedding; [congruence|discriminate]. }
  assert (Hane : arow <> []).
  { intros ->. destruct query_embedding; [congruence|discriminate]. }
  set (ranked := py_sorted_reverse by_score (merged self query_embedding)).
  assert (Hperm : Permutation ranked (merged self query_embedding))
    by apply py_sorted_reverse_perm.
  assert (Hlen : length ranked = length (faqs self))
    by (rewrite (Permutation_length Hperm); now apply length_merged).
  exists ranked. repeat apply conj.
  - rewrite (search_returns embeddings_create self query limit
               query_embedding more); try assumption.
    + fold ranked. rewrite slice_to_nonneg by lia.
      f_equal. apply firstn_all2. lia.
    + rewrite Hfaqs. apply add_ids_NoDup.
    + intros E. rewrite E in Hf. now destruct i.
  - exact Hperm.
  - apply (Permutation_in _ (Permutation_sym Hperm)).
    apply nth_error_In with i. now apply nth_error_merged.
  - intros Hzero. now apply cos_zero_norm.
  - intros Hzero. now apply cos_zero_norm.
  - intros Hzeros. unfold best.
    assert (Hnan : Prim2SF q = S754_nan) by now apply cos_zeros.
    now rewrite (nan_not_below _ _ Hnan).
  - intros Hzeros. unfold best.
    assert (Hnan : Prim2SF a = S754_nan) by now apply cos_zeros.
    now rewrite (not_below_nan _ _ Hnan).
Qed.

End SearchResultFacts.

Lemma search_result_count_witness :
  exists results,
    FAQService.search unit_embedding two_records "transfer ownership" (-1)
    = Return results
    /\ length results = 1%nat
    /\ List.NoDup (map FAQService.r_id results)
    /\ Forall (fun r =>
                 exists f, In f (FAQService.faqs two_records)
                           /\ FAQService.r_id r = FAQService.id f
                           /\ FAQService.r_question r = FAQService.question f
                           /\ FAQService.r_answer r = FAQService.answer f
                           /\ FAQService.r_category r = FAQService.category f
                           /\ FAQService.r_subcategory r
                              = FAQService.subcategory f)
              results.
Proof.
  apply (search_result_count unit_embedding two_records
           "transfer ownership" (-1) [1; 0]%float []);
    try reflexivity; try discriminate; try (repeat constructor; fail).
  repeat constructor; simpl; intuition discriminate.
Defined.

Lemma empty_index_search_raises_witness :
  exists self,
    FAQService.init unit_embedding floats_of_json [] None
    = Return (self,
              Some (FAQService.JObj
                      [("questions", FAQService.JArr []);
                       ("answers", FAQService.JArr []);
                       ("metadata", FAQService.JArr [])]))
    /\ FAQService.search unit_embedding self "road tax" 5
       = Raise (OtherException
                  "axis 1 is out of bounds for array of dimension 1")
    /\ FAQTool.search_faq unit_embedding ids_of_results self "road tax" 5
       = Return ("Error searching FAQs: "
                 +:+ "axis 1 is out of bounds for array of dimension 1").
Proof.
  apply (empty_index_search_raises unit_embedding ids_of_results
           floats_of_json "road tax" 5).
  exists [1; 0]%float, []. reflexivity.
Defined.

Lemma search_faq_answer_witness :
  exists ranked,
    Permutation ranked (FAQService.merged two_records [1; 0]%float)
    /\ StronglySorted
         (fun x y => float_le (FAQService.score y) (FAQService.score x))
         ranked
    /\ FAQService.search unit_embedding two_records "transfer ownership"
         (Z.min 5 15)
       = Return (firstn (Z.to_nat (Z.min 5 15)) ranked)
    /\ (length (firstn (Z.to_nat (Z.min 5 15)) ranked) <= 15)%nat
    /\ FAQTool.search_faq unit_embedding ids_of_results two_records
         "transfer ownership" 5
       = Return match firstn (Z.to_nat (Z.min 5 15)) ranked with
                | [] => FAQTool.no_relevant_information
                | first :: _ =>
                    if (FAQService.score first <? 0.5)%float
                    then FAQTool.no_relevant_information
                    else ids_of_results
                           (firstn (Z.to_nat (Z.min 5 15)) ranked)
                end.
Proof.
  apply (search_faq_answer unit_embedding ids_of_results two_records
           "transfer ownership" 5 [1; 0]%float []);
    try reflexivity; try discriminate; try (repeat constructor; fail);
    try lia.
  repeat constructor; simpl; intuition discriminate.
Defined.

Lemma zero_norm_record_returned_witness :
  exists results,
    FAQService.search unit_embedding zero_question_only
      "transfer ownership" 2 = Return results
    /\ Permutation results (FAQService.merged zero_question_only [1; 0]%float)
    /\ In (FAQService.to_result
             ({| FAQService.id := "0";
                 FAQService.question := "How do I transfer ownership?";
                 FAQService.answer := "Submit forms 29 and 30 to the RTO.";
                 FAQService.category := "rc";
                 FAQService.subcategory := "transfer" |},
              FAQService.best (FAQService.cos [1; 0]%float [0; 0]%float)
                              (FAQService.cos [1; 0]%float [1; 0]%float)))
          results
    /\ nan_or_infinite (FAQService.cos [1; 0]%float [0; 0]%float) = true
    /\ Prim2SF (FAQService.best (FAQService.cos [1; 0]%float [0; 0]%float)
                                (FAQService.cos [1; 0]%float [1; 0]%float))
       = S754_nan.
Proof.
  destruct (zero_norm_record_returned unit_embedding zero_question_only
              [ownership; road_tax] "transfer ownership" 2 [1; 0]%float []
              0 _ [0; 0]%float [1; 0]%float
              eq_refl eq_refl eq_refl eq_refl
              ltac:(discriminate)
              ltac:(repeat constructor) ltac:(repeat constructor)
              eq_refl eq_refl eq_refl ltac:(simpl; lia))
    as (results & Hsearch & Hperm & Hin & Hq & _ & Hnan & _).
  exists results.
  split; [exact Hsearch|]. split; [exact Hperm|]. split; [exact Hin|]. split.
  - apply Hq. reflexivity.
  - apply Hnan. repeat constructor.
Defined.

(** ** Looking cars up and comparing them *)

Section LookupFacts.
Import CarService.
Import CarCatalogue.
Context (lower : string -> string).
Context (extract : string -> list string -> Z -> list (string * Z)).
Context (py_str : Any -> string).
Context (serialize_car_detail : Car -> result string).
Context (serialize_car_comparison : CarComparison -> result string).

(** X13. [get_car_details] is [get_extended_car_details] followed by the
    stripping of the extended fields: the two find the same cars and fail
    with the same error on the same ids, and the basic answer holds no
    engine, transmission, fuel, dimensions or other extended field.  The id
    is looked up in lower case, so two spellings with the same lower-case
    form find the same car.  For an id that is not in the catalogue the two
    tools answer the same text, "Car not found: ..." with the text of the
    error. *)
Theorem basic_details_of_extended (self : Service) (car_id : string) :
  CarService.get_car_details lower extract self car_id
  = (car ← get_extended_car_details lower extract self car_id;
     Return (get_basic_only car))
  /\ (forall car,
        CarService.get_car_details lower extract self car_id = Return car ->
        engine car = None /\ transmission car = None /\ fuel car = None
        /\ dimensions car = None /\ extended car = None)
  /\ (forall other car,
        lower other = lower car_id ->
        get_extended_car_details lower extract self car_id = Return car ->
        get_extended_car_details lower extract self other = Return car)
  /\ (PyDict.get (lower car_id) (cars self) = None ->
      exists message,
        get_extended_car_details lower extract self car_id
        = Raise (CarNotFoundError message)
        /\ CarTool.get_extended_car_details lower extract
             serialize_car_detail self car_id
           = Return ("Car not found: " +:+ message)
        /\ AgentToolKit.get_car_details lower extract
             serialize_car_detail self car_id
           = Return ("Car not found: " +:+ message)).
Proof.
  split; [|split; [|split]].
  - unfold CarService.get_car_details, get_extended_car_details.
    now destruct (PyDict.get (lower car_id) (cars self)).
  - unfold CarService.get_car_details.
    intros car. destruct (PyDict.get _ _); [|discriminate].
    intros [= <-]. repeat split.
  - unfold get_extended_car_details.
    intros other car ->. now destruct (PyDict.get _ _).
  - intros Hget. eexists.
    unfold CarTool.get_extended_car_details, AgentToolKit.get_car_details,
      CarService.get_car_details, get_extended_car_details.
    rewrite Hget. repeat split.
Qed.

Lemma mapM_cons {A B : Type} (g : A -> result B) (x : A) (l : list A) :
  mapM g (x :: l) = (y ← g x; k ← mapM g l; Return (y :: k)).
Proof. reflexivity. Qed.

Lemma extended_found (self : Service) (car_id : string) (car : Car) :
  PyDict.get (lower car_id) (cars self) = Some car ->
  get_extended_car_details lower extract self car_id = Return car.
Proof. unfold get_extended_car_details. now intros ->. Qed.

Lemma mapM_found (self : Service) (car_ids : list string) (found : list Car) :
  Forall2 (fun car_id car => PyDict.get (lower car_id) (cars self) = Some car)
          car_ids found ->
  mapM (get_extended_car_details lower extract self) car_ids = Return found.
Proof.
  induction 1 as [|car_id car car_ids found Hget _ IH]; [reflexivity|].
  rewrite mapM_cons, (extended_found self car_id car Hget), IH.
  reflexivity.
Qed.

Lemma mapM_first_unknown
    (self : Service) (known : list string) (found : list Car)
    (bad : string) (rest : list string) e :
  Forall2 (fun car_id car => PyDict.get (lower car_id) (cars self) = Some car)
          known found ->
  get_extended_car_details lower extract self bad = Raise e ->
  mapM (get_extended_car_details lower extract self) (known ++ bad :: rest)
  = Raise e.
Proof.
  intros Hknown Hbad.
  induction Hknown as [|car_id car known found Hget _ IH].
  - simpl app. now rewrite mapM_cons, Hbad.
  - simpl app.
    now rewrite mapM_cons, (extended_found self car_id car Hget), IH.
Qed.

(** X14. A comparison of cars that are all known.  The cars compared are
    the full records of the ids, in the order asked (an id asked twice is
    compared twice); the matrix has the nine rows Price, Brand, Body Type,
    Engine Displacement, Fuel Type, Transmission, Mileage, Seating Capacity
    and Rating, in this order, each with one cell per id asked; and cell
    [j] of the price row, say, is the price of the [j]-th car. *)
Theorem comparison_shape
    (self : Service) (car_ids : list string) (found : list Car) :
  car_ids <> [] ->
  Forall2 (fun car_id car => PyDict.get (lower car_id) (cars self) = Some car)
          car_ids found ->
  exists comparison,
    get_car_comparison lower extract py_str self car_ids = Return comparison
    /\ compared_cars comparison = found
    /\ PyDict.keys (comparison_matrix comparison)
       = ["Price (INR)"; "Brand"; "Body Type"; "Engine Displacement";
          "Fuel Type"; "Transmission"; "Mileage"; "Seating Capacity";
          "Rating"]
    /\ Forall (fun row => length (snd row) = length car_ids)
              (comparison_matrix comparison)
    /\ PyDict.get "Price (INR)" (comparison_matrix comparison)
       = Some (map (fun car => JInt (value (price car))) found)
    /\ PyDict.get "Brand" (comparison_matrix comparison)
       = Some (map (fun car => JStr (brand_name (brand car))) found).
Proof.
  intros Hne Hfound. unfold get_car_comparison.
  rewrite (mapM_found self car_ids found Hfound). simpl.
  pose proof (Forall2_length _ _ _ Hfound) as Hlen.
  destruct found as [|car found].
  - destruct car_ids; [congruence|discriminate].
  - eexists. split; [reflexivity|]. simpl in Hlen |- *.
    repeat split; try reflexivity.
    repeat constructor; simpl; rewrite length_map; lia.
Qed.

(** X15. What a comparison refuses.  With no id at all it raises the
    [ValueError] "No cars provided for comparison", and the tool answers
    "Error comparing cars: ..." with that text.  With an unknown id it
    raises the [CarNotFoundError] that the lookup of the first unknown id
    raises, whatever follows it, and the tool answers "Car not found: ..."
    with that text; no comparison of the known cars is made. *)
Theorem comparison_errors (self : Service) :
  get_car_comparison lower extract py_str self []
  = Raise (ValueError "No cars provided for comparison")
  /\ CarTool.get_car_comparison lower extract py_str
       serialize_car_comparison self []
     = Return "Error comparing cars: No cars provided for comparison"
  /\ (forall known found bad rest,
        Forall2 (fun car_id car =>
                   PyDict.get (lower car_id) (cars self) = Some car)
                known found ->
        PyDict.get (lower bad) (cars self) = None ->
        exists message,
          get_extended_car_details lower extract self bad
          = Raise (CarNotFoundError message)
          /\ get_car_comparison lower extract py_str self
               (known ++ bad :: rest)
             = Raise (CarNotFoundError message)
          /\ CarTool.get_car_comparison lower extract py_str
               serialize_car_comparison self (known ++ bad :: rest)
             = Return ("Car not found: " +:+ message)).
Proof.
  split; [reflexivity|]. split; [reflexivity|].
  intros known found bad rest Hknown Hbad.
  assert (Hraise : exists message,
    get_extended_car_details lower extract self bad
    = Raise (CarNotFoundError message)).
  { unfold get_extended_car_details. rewrite Hbad. eauto. }
  destruct Hraise as (message & Hraise). exists message.
  assert (Hcmp :
    get_car_comparison lower extract py_str self (known ++ bad :: rest)
    = Raise (CarNotFoundError message)).
  { unfold get_car_comparison.
    now rewrite (mapM_first_unknown self known found bad rest _ Hknown Hraise). }
  repeat split; try assumption.
  unfold CarTool.get_car_comparison. rewrite Hcmp. reflexivity.
Qed.

End LookupFacts.

(** ** Filtering in [CarService] *)

Section FilterFacts.
Import CarService.
Import CarCatalogue.
Context (lower : string -> string).
Context (any_le any_ge : Any -> float -> result bool).

Lemma reject_if_spec (c : bool) (rest : result bool) (P Q : Prop) :
  (c = false <-> P) ->
  (exists b, rest = Return b /\ (b = true <-> Q)) ->
  exists b, reject_if c rest = Return b /\ (b = true <-> P /\ Q).
Proof.
  intros Hc (b & -> & Hb). destruct c; simpl.
  - exists false. split; [reflexivity|]. split; [discriminate|].
    intros [HP _]. apply Hc in HP. discriminate.
  - exists b. split; [reflexivity|]. rewrite Hb. intuition.
Qed.

Lemma max_of_above (m first : Z) (others : list Z) :
  m < max_of first others <-> exists x, In x (first :: others) /\ m < x.
Proof.
  unfold max_of. revert first.
  induction others as [|y others IH]; intros first; simpl.
  - split; [eauto|]. now intros (x & [<-|[]] & Hx).
  - rewrite IH. split.
    + intros (x & [<-|Hin] & Hx).
      * destruct (Z.max_spec first y) as [[_ E]|[_ E]]; rewrite E in Hx;
          [exists y|exists first]; simpl; auto.
      * exists x. simpl. auto.
    + intros (x & Hin & Hx). simpl in Hin. destruct Hin as [<-|[<-|Hin]].
      * exists (Z.max first y). split; [now left|lia].
      * exists (Z.max first y). split; [now left|lia].
      * exists x. split; [now right|assumption].
Qed.

Lemma min_of_below (m first : Z) (others : list Z) :
  min_of first others < m <-> exists x, In x (first :: others) /\ x < m.
Proof.
  unfold min_of. revert first.
  induction others as [|y others IH]; intros first; simpl.
  - split; [eauto|]. now intros (x & [<-|[]] & Hx).
  - rewrite IH. split.
    + intros (x & [<-|Hin] & Hx).
      * destruct (Z.min_spec first y) as [[_ E]|[_ E]]; rewrite E in Hx;
          [exists first|exists y]; simpl; auto.
      * exists x. simpl. auto.
    + intros (x & Hin & Hx). simpl in Hin. destruct Hin as [<-|[<-|Hin]].
      * exists (Z.min first y). split; [now left|lia].
      * exists (Z.min first y). split; [now left|lia].
      * exists x. split; [now right|assumption].
Qed.

Lemma truthy_nonempty (s : string) : AgentToolKit.truthy s = true <-> s <> "".
Proof.
  unfold AgentToolKit.truthy. destruct (String.eqb_spec s ""); simpl;
    split; congruence.
Qed.

Lemma existsb_eqb_In (x : string) (l : list string) :
  existsb (String.eqb x) l = true <-> In x l.
Proof.
  rewrite existsb_exists. split.
  - intros (y & Hy & E). apply String.eqb_eq in E. now subst.
  - intros H. exists x. split; [assumption|apply String.eqb_refl].
Qed.

Lemma same_lower_spec (a b : string) :
  negb (AgentToolKit.truthy a) || negb (String.eqb (lower a) (lower b)) = false
  <-> a <> "" /\ lower a = lower b.
Proof.
  rewrite orb_false_iff, !negb_false_iff, truthy_nonempty, String.eqb_eq.
  reflexivity.
Qed.

Lemma displacement_spec (car : Car) (f : filters) :
  (if is_set (engine_displacement_more_than f)
      || is_set (engine_displacement_less_than f)
   then
     match engine car ≫= displacement with
     | Some (d :: ds) =>
         match engine_displacement_more_than f with
         | Some m => max_of (fst d) (map fst ds) <=? m
         | None => false
         end
         || match engine_displacement_less_than f with
            | Some m => min_of (fst d) (map fst ds) >=? m
            | None => false
            end
     | _ => true
     end
   else false) = false
  <-> (forall m, engine_displacement_more_than f = Some m ->
                 exists e ds d, engine car = Some e
                                /\ displacement e = Some ds
                                /\ In d ds /\ m < fst d)
      /\ (forall m, engine_displacement_less_than f = Some m ->
                    exists e ds d, engine car = Some e
                                   /\ displacement e = Some ds
                                   /\ In d ds /\ fst d < m).
Proof.
  assert (Hmax : forall m e d ds,
    engine car = Some e -> displacement e = Some (d :: ds) ->
    ((max_of (fst d) (map fst ds) <=? m) = false
     <-> exists e' ds' d', engine car = Some e' /\ displacement e' = Some ds'
                           /\ In d' ds' /\ m < fst d')).
  { intros m e d ds He Hd. rewrite Z.leb_gt, max_of_above. split.
    - intros (x & Hx & Hm). change (fst d :: map fst ds) with (map fst (d :: ds)) in Hx.
      apply in_map_iff in Hx as (d' & <- & Hd'). eauto 8.
    - intros (e' & ds' & d' & He' & Hd' & Hin & Hm).
      rewrite He in He'. injection He' as <-. rewrite Hd in Hd'.
      injection Hd' as <-. exists (fst d'). split; [|assumption].
      change (fst d :: map fst ds) with (map fst (d :: ds)). now apply in_map. }
  assert (Hmin : forall m e d ds,
    engine car = Some e -> displacement e = Some (d :: ds) ->
    ((min_of (fst d) (map fst ds) >=? m) = false
     <-> exists e' ds' d', engine car = Some e' /\ displacement e' = Some ds'
                           /\ In d' ds' /\ fst d' < m)).
  { intros m e d ds He Hd. rewrite Z.geb_leb, Z.leb_gt, min_of_below. split.
    - intros (x & Hx & Hm). change (fst d :: map fst ds) with (map fst (d :: ds)) in Hx.
      apply in_map_iff in Hx as (d' & <- & Hd'). eauto 8.
    - intros (e' & ds' & d' & He' & Hd' & Hin & Hm).
      rewrite He in He'. injection He' as <-. rewrite Hd in Hd'.
      injection Hd' as <-. exists (fst d'). split; [|assumption].
      change (fst d :: map fst ds) with (map fst (d :: ds)). now apply in_map. }
  destruct (engine_displacement_more_than f) as [more|];
    destruct (engine_displacement_less_than f) as [less|]; simpl.
  all: destruct (engine car) as [e|] eqn:He; simpl;
    [destruct (displacement e) as [[|d ds]|] eqn:Hd|].
  all: try (split; [discriminate|]; intros [H1 H2];
            first [destruct (H1 _ eq_refl) as (e' & ds' & d' & He' & Hd' & Hin & _)
                  |destruct (H2 _ eq_refl) as (e' & ds' & d' & He' & Hd' & Hin & _)];
            exfalso; simplify_eq; try destruct Hin; fail).
  all: try (split; [intros _; split; intros ? [=]|reflexivity]; fail).
  - rewrite orb_false_iff, (Hmax more e d ds eq_refl Hd),
      (Hmin less e d ds eq_refl Hd).
    split; intros [H1 H2]; split.
    + now intros ? [= <-].
    + now intros ? [= <-].
    + now apply H1.
    + now apply H2.
  - rewrite orb_false_r, (Hmax more e d ds eq_refl Hd).
    split; [intros H1; split; [now intros ? [= <-]|intros ? [=]]|].
    intros [H1 _]. now apply H1.
  - rewrite (Hmin less e d ds eq_refl Hd).
    split; [intros H1; split; [intros ? [=]|now intros ? [= <-]]|].
    intros [_ H2]. now apply H2.
Qed.

Lemma matches_filters_returns (car : Car) (f : filters) :
  mileage_more_than f = None ->
  mileage_less_than f = None ->
  exists b, _matches_filters lower any_le any_ge car f = Return b
            /\ (b = true <-> passes lower car f).
Proof.
  intros Hmore Hless. unfold _matches_filters, passes.
  rewrite Hmore, Hless. simpl (is_set None || is_set None).
  cbv iota.
  apply reject_if_spec.
  { destruct (min_price f) as [m|].
    - rewrite Z.ltb_ge. split; [now intros H ? [= <-]|auto].
    - split; [intros _ ? [=]|reflexivity]. }
  apply reject_if_spec.
  { destruct (max_price f) as [m|].
    - rewrite Z.gtb_ltb, Z.ltb_ge. split; [now intros H ? [= <-]|auto].
    - split; [intros _ ? [=]|reflexivity]. }
  apply reject_if_spec.
  { destruct (f_brand f) as [b|].
    - rewrite same_lower_spec. split; [now intros H ? [= <-]|auto].
    - split; [intros _ ? [=]|reflexivity]. }
  apply reject_if_spec.
  { destruct (f_body_type f) as [b|].
    - destruct (body_type (basic_info car)) as [bt|].
      + rewrite same_lower_spec. split.
        * intros H ? [= <-]. eexists. split; [reflexivity|exact H].
        * intros H. destruct (H b eq_refl) as (bt' & [= <-] & H'). exact H'.
      + split; [discriminate|].
        intros H. destruct (H b eq_refl) as (bt' & [=] & _).
    - split; [intros _ ? [=]|reflexivity]. }
  apply reject_if_spec.
  { destruct (f_fuel_type f) as [ft|].
    - rewrite negb_false_iff, existsb_eqb_In.
      split; [now intros H ? [= <-]|auto].
    - split; [intros _ ? [=]|reflexivity]. }
  apply reject_if_spec.
  { destruct (f_transmission f) as [t|].
    - destruct (transmission car) as [[|t0 ts]|].
      + split; [discriminate|].
        intros H. destruct (H t eq_refl) as (ts' & [= <-] & []).
      + rewrite negb_false_iff, existsb_eqb_In. split.
        * intros H ? [= <-]. eexists. split; [reflexivity|exact H].
        * intros H. destruct (H t eq_refl) as (ts' & [= <-] & H'). exact H'.
      + split; [discriminate|].
        intros H. destruct (H t eq_refl) as (ts' & [=] & _).
    - split; [intros _ ? [=]|reflexivity]. }
  apply reject_if_spec.
  { destruct (f_seating_capacity f) as [sc|].
    - destruct (dimensions car) as [d|].
      + rewrite negb_false_iff, Z.eqb_eq. split.
        * intros H ? [= <-]. eexists. split; [reflexivity|exact H].
        * intros H. destruct (H sc eq_refl) as (d' & [= <-] & H'). exact H'.
      + split; [discriminate|].
        intros H. destruct (H sc eq_refl) as (d' & [=] & _).
    - split; [intros _ ? [=]|reflexivity]. }
  pose proof (displacement_spec car f) as Hd.
  match goal with
  | |- exists b, reject_if ?c _ = _ /\ _ => destruct c
  end; simpl.
  - exists false. split; [reflexivity|]. split; [discriminate|].
    intros H. apply Hd in H. discriminate.
  - exists true. split; [reflexivity|]. split; [intros _|reflexivity].
    now apply Hd.
Qed.

End FilterFacts.

(** ** Sorting and paging in [list_cars] *)

Section ListingFacts.
Import CarService.
Import CarCatalogue.
Context (lower : string -> string).
Context (extract : string -> list string -> Z -> list (string * Z)).
Context (any_le any_ge : Any -> float -> result bool).
Context (sort_other_keys :
  (Car -> bool * Any) -> bool -> list Car -> result (list Car)).

Lemma kept_by_passes (f : filters) (car : Car) :
  mileage_more_than f = None ->
  mileage_less_than f = None ->
  kept_by lower any_le any_ge f car = true <-> passes lower car f.
Proof.
  intros Hmore Hless. unfold kept_by.
  destruct (matches_filters_returns lower any_le any_ge car f Hmore Hless)
    as (b & -> & Hb).
  rewrite <- Hb. now destruct b.
Qed.

Lemma filter_cars_returns (f : filters) (l : list Car) :
  mileage_more_than f = None ->
  mileage_less_than f = None ->
  filter_cars lower any_le any_ge f l
  = Return (List.filter (kept_by lower any_le any_ge f) l).
Proof.
  intros Hmore Hless. induction l as [|car l IH]; [reflexivity|].
  simpl. rewrite IH. unfold kept_by.
  destruct (matches_filters_returns lower any_le any_ge car f Hmore Hless)
    as (b & -> & _).
  now destruct b.
Qed.

(** The keys of the three fields that hold integers. *)
Lemma get_sort_value_int (car : Car) (sb : string) :
  sb <> "mileage" -> is_set (int_key (_get_sort_value car sb)) = true.
Proof.
  intros Hne. unfold _get_sort_value.
  destruct (String.eqb sb "price"); [reflexivity|].
  destruct (String.eqb_spec sb "mileage"); [congruence|].
  destruct (String.eqb sb "seating_capacity");
    [now destruct (dimensions car)|].
  destruct (String.eqb sb "engine_displacement"); [|reflexivity].
  destruct (engine car) as [e|]; simpl; [|reflexivity].
  now destruct (displacement e) as [[|d ds]|].
Qed.

Lemma key_lt_le (a b : bool * Any) : key_lt a b = true -> key_le a b.
Proof.
  unfold key_lt, key_le.
  destruct (int_key a) as [[ba x]|], (int_key b) as [[bb y]|]; try discriminate.
  unfold pair_lt, pair_le. simpl.
  destruct ba, bb; simpl; try discriminate; auto; rewrite Z.ltb_lt; lia.
Qed.

Lemma key_not_lt_le (a b : bool * Any) :
  is_set (int_key a) = true -> is_set (int_key b) = true ->
  key_lt a b = false -> key_le b a.
Proof.
  unfold key_lt, key_le.
  destruct (int_key a) as [[ba x]|], (int_key b) as [[bb y]|]; try discriminate.
  intros _ _. unfold pair_lt, pair_le. simpl.
  destruct ba, bb; simpl; try discriminate; auto; rewrite Z.ltb_ge; lia.
Qed.

Lemma key_le_trans (a b c : bool * Any) : key_le a b -> key_le b c -> key_le a c.
Proof.
  unfold key_le.
  destruct (int_key a) as [[ba x]|], (int_key b) as [[bb y]|],
    (int_key c) as [[bc z]|]; try tauto.
  unfold pair_le. simpl. destruct ba, bb, bc; simpl; try tauto; lia.
Qed.

Lemma sorted_by_price (l : list Car) :
  StronglySorted by_price
    (py_sorted (fun a b => value (price a) <? value (price b)) l).
Proof.
  apply (py_sorted_sorted _ by_price (fun _ => True)); unfold by_price.
  - intros x y _ _. rewrite Z.ltb_lt. lia.
  - intros x y _ _. rewrite Z.ltb_ge. lia.
  - intros x y z _ _ _. lia.
  - now apply List.Forall_forall.
Qed.

Lemma sorted_by_key (sb : string) (l : list Car) :
  sb <> "mileage" ->
  StronglySorted (by_key sb)
    (py_sorted (fun a b => key_lt (_get_sort_value a sb) (_get_sort_value b sb))
               l).
Proof.
  intros Hne.
  apply (py_sorted_sorted _ (by_key sb)
           (fun car => is_set (int_key (_get_sort_value car sb)) = true));
    unfold by_key.
  - intros x y _ _. apply key_lt_le.
  - intros x y. apply key_not_lt_le.
  - intros x y z _ _ _. apply key_le_trans.
  - apply List.Forall_forall. intros car _. now apply get_sort_value_int.
Qed.

Lemma sort_cars_int (sb : string) (reverse : bool) (l : list Car) :
  sb <> "mileage" ->
  sort_cars sort_other_keys (fun c => _get_sort_value c sb) reverse l
  = Return ((if reverse then py_sorted_reverse else py_sorted)
              (fun a b => key_lt (_get_sort_value a sb) (_get_sort_value b sb))
              l).
Proof.
  intros Hne. unfold sort_cars.
  replace (forallb _ l) with true; [reflexivity|].
  symmetry. apply forallb_forall. intros car _. now apply get_sort_value_int.
Qed.

Lemma validated_sort_by (self : Service) (f : filters) (sb : string) :
  validate_arguments lower extract self f = Return tt ->
  sort_by f = Some sb ->
  In sb valid_sort_fields.
Proof.
  unfold validate_arguments. intros Hv Hsb. rewrite Hsb in Hv.
  destruct (validate_optional lower extract "brand" _ _); [discriminate|].
  destruct (validate_optional lower extract "body_type" _ _); [discriminate|].
  destruct (validate_optional lower extract "fuel_type" _ _); [discriminate|].
  destruct (validate_optional lower extract "transmission" _ _);
    [discriminate|].
  destruct (decide (sb ∈ valid_sort_fields)) as [Hin|Hnin];
    [now apply list_elem_of_In|].
  rewrite (bool_decide_false _ Hnin) in Hv. discriminate.
Qed.

(** After a validation that passes and without a mileage argument,
    [list_cars] returns: the cars kept by the filters are sorted once, and
    every page is cut out of that one list. *)
Lemma list_cars_returns (self : Service) (f : filters) :
  validate_arguments lower extract self f = Return tt ->
  mileage_more_than f = None ->
  mileage_less_than f = None ->
  sort_by f <> Some "mileage" ->
  exists sorted,
    (forall limit offset,
       list_cars lower extract any_le any_ge sort_other_keys
         self limit offset f
       = Return (map get_basic_only (slice offset (offset + limit) sorted)))
    /\ Permutation sorted
         (List.filter (kept_by lower any_le any_ge f) (PyDict.values (cars self)))
    /\ match sort_by f with
       | None => StronglySorted by_price sorted
       | Some sb =>
           if String.eqb (sort_order f) "desc"
           then StronglySorted (fun a b => by_key sb b a) sorted
           else StronglySorted (by_key sb) sorted
       end.
Proof.
  intros Hv Hmore Hless Hsort.
  set (kept := List.filter (kept_by lower any_le any_ge f)
                           (PyDict.values (cars self))).
  assert (Hbody : forall sorted,
    (sorted_cars ←
       match sort_by f with
       | Some sb =>
           if AgentToolKit.truthy sb then
             sort_cars sort_other_keys (fun c => _get_sort_value c sb)
                       (String.eqb (sort_order f) "desc") kept
           else
             Return (py_sorted (fun a b => value (price a) <? value (price b))
                               kept)
       | None =>
           Return (py_sorted (fun a b => value (price a) <? value (price b))
                             kept)
       end;
     Return sorted_cars) = Return sorted ->
    forall limit offset,
      list_cars lower extract any_le any_ge sort_other_keys
        self limit offset f
      = Return (map get_basic_only (slice offset (offset + limit) sorted))).
  { intros sorted Hsorted limit offset.
    unfold list_cars, CarService.list_cars. rewrite Hv. simpl.
    unfold select_cars, list_cars_body.
    rewrite (filter_cars_returns f _ Hmore Hless). fold kept. simpl.
    destruct (match sort_by f with Some _ => _ | None => _ end) as [e|l];
      [discriminate|].
    simpl in Hsorted. injection Hsorted as ->. reflexivity. }
  destruct (sort_by f) as [sb|] eqn:Hsb.
  - assert (Hne : sb <> "mileage") by congruence.
    assert (Htruthy : AgentToolKit.truthy sb = true).
    { pose proof (validated_sort_by self f sb Hv Hsb) as Hin.
      simpl in Hin. intuition (subst; reflexivity). }
    rewrite Htruthy in Hbody.
    rewrite (sort_cars_int sb _ kept Hne) in Hbody.
    eexists. split; [apply Hbody; reflexivity|].
    destruct (String.eqb (sort_order f) "desc"); split.
    + apply py_sorted_reverse_perm.
    + unfold py_sorted_reverse.
      apply (StronglySorted_rev (by_key sb)). now apply sorted_by_key.
    + apply py_sorted_perm.
    + now apply sorted_by_key.
  - eexists. split; [apply Hbody; reflexivity|]. split.
    + apply py_sorted_perm.
    + apply sorted_by_price.
Qed.

Lemma slice_nonneg {A : Type} (start stop : Z) (l : list A) :
  0 <= start -> 0 <= stop ->
  slice start stop l
  = firstn (Z.to_nat stop - Z.to_nat start) (skipn (Z.to_nat start) l).
Proof.
  intros Hstart Hstop. unfold slice, slice_index.
  destruct (Z.ltb_spec start 0); [lia|]. destruct (Z.ltb_spec stop 0); [lia|].
  set (a := Z.to_nat start). set (b := Z.to_nat stop).
  destruct (Nat.le_gt_cases (length l) a) as [Hbig|Hsmall].
  - rewrite (Nat.min_r a) by lia. rewrite !skipn_all2 by lia.
    now rewrite !firstn_nil.
  - rewrite (Nat.min_l a) by lia.
    destruct (Nat.le_gt_cases b (length l)) as [Hb|Hb].
    + now rewrite (Nat.min_l b) by lia.
    + rewrite (Nat.min_r b) by lia.
      rewrite !firstn_all2 by (rewrite length_skipn; lia). reflexivity.
Qed.

Lemma firstn_add {A : Type} (n m : nat) (l : list A) :
  firstn (n + m) l = (firstn n l ++ firstn m (skipn n l))%list.
Proof.
  revert l. induction n as [|n IH]; intros [|x l]; simpl;
    try reflexivity.
  - now rewrite firstn_nil.
  - now rewrite IH.
Qed.

Lemma slice_pages {A : Type} (offset a b : Z) (l : list A) :
  0 <= offset -> 0 <= a -> 0 <= b ->
  slice offset (offset + (a + b)) l
  = (slice offset (offset + a) l ++ slice (offset + a) (offset + a + b) l)%list.
Proof.
  intros Ho Ha Hb. rewrite !slice_nonneg by lia.
  replace (Z.to_nat (offset + (a + b)) - Z.to_nat offset)%nat
    with (Z.to_nat a + Z.to_nat b)%nat by lia.
  replace (Z.to_nat (offset + a) - Z.to_nat offset)%nat
    with (Z.to_nat a) by lia.
  replace (Z.to_nat (offset + a + b) - Z.to_nat (offset + a))%nat
    with (Z.to_nat b) by lia.
  rewrite firstn_add, skipn_skipn.
  replace (Z.to_nat a + Z.to_nat offset)%nat with (Z.to_nat (offset + a)) by lia.
  reflexivity.
Qed.

Lemma slice_length {A : Type} (offset limit : Z) (l : list A) :
  0 <= offset -> 0 <= limit ->
  (length (slice offset (offset + limit) l) <= Z.to_nat limit)%nat.
Proof.
  intros Ho Hl. rewrite slice_nonneg by lia. rewrite length_firstn. lia.
Qed.

Lemma slice_all {A : Type} (limit : Z) (l : list A) :
  Z.of_nat (length l) <= limit -> slice 0 (0 + limit) l = l.
Proof.
  intros Hl. rewrite slice_nonneg by lia. simpl.
  rewrite Nat.sub_0_r. apply firstn_all2. lia.
Qed.

Lemma StronglySorted_firstn {A : Type} (R : A -> A -> Prop) (n : nat) (l : list A) :
  StronglySorted R l -> StronglySorted R (firstn n l).
Proof.
  intros Hs. revert n. induction Hs as [|x l Hs IH Hx]; intros [|n]; simpl;
    try constructor; auto.
  rewrite List.Forall_forall in *. intros y Hy. apply Hx.
  now apply in_firstn in Hy.
Qed.

Lemma StronglySorted_skipn {A : Type} (R : A -> A -> Prop) (n : nat) (l : list A) :
  StronglySorted R l -> StronglySorted R (skipn n l).
Proof.
  intros Hs. revert n. induction Hs as [|x l Hs IH Hx]; intros [|n]; simpl;
    try constructor; auto.
Qed.

Lemma StronglySorted_slice {A : Type} (R : A -> A -> Prop) (start stop : Z)
    (l : list A) :
  StronglySorted R l -> StronglySorted R (slice start stop l).
Proof.
  intros Hs. unfold slice.
  now apply StronglySorted_firstn, StronglySorted_skipn.
Qed.

Lemma StronglySorted_map {A B : Type} (R : B -> B -> Prop) (g : A -> B)
    (l : list A) :
  StronglySorted (fun a b => R (g a) (g b)) l -> StronglySorted R (map g l).
Proof.
  induction 1 as [|x l Hs IH Hx]; simpl; constructor; [assumption|].
  rewrite List.Forall_forall in *. intros y Hy.
  apply in_map_iff in Hy as (y0 & <- & Hy0). auto.
Qed.

(** X16. What [_matches_filters] decides when no mileage bound is given,
    and so which cars the loop of [list_cars] collects from a list of cars:
    it returns, and it answers [True] exactly for the cars that meet every
    filter given: the price bounds (inclusive), brand and body type (case
    ignored, a car without the field failing), the fuel type among those of
    the car or of its engine, the transmission among the car's, the exact
    seating capacity, and for the displacement bounds a car with engine
    variants one of which is above the lower bound and one of which is
    below the upper bound, both strictly. *)
Theorem matches_filters_spec (car : Car) (f : filters) (l : list Car) :
  mileage_more_than f = None ->
  mileage_less_than f = None ->
  (exists b, _matches_filters lower any_le any_ge car f = Return b
             /\ (b = true <-> passes lower car f))
  /\ (exists kept,
        filter_cars lower any_le any_ge f l = Return kept
        /\ forall c, In c kept <-> In c l /\ passes lower c f).
Proof.
  intros Hmore Hless. split; [now apply matches_filters_returns|].
  eexists. split; [now apply filter_cars_returns|].
  intros c. rewrite filter_In.
  now rewrite (kept_by_passes f c Hmore Hless).
Qed.

(** X17. What [list_cars] lists.  For arguments that pass the validation,
    give no mileage bound and do not sort on mileage, the answer is a page
    of the stripped copies of the catalogue cars that meet the filters, all
    of them and no other: the page holds at most [limit] cars for an
    offset and a limit that are not negative, and with offset 0 and a limit
    that reaches the number of such cars it holds every one of them. *)
Theorem list_cars_content (self : Service) (f : filters) (limit offset : Z) :
  validate_arguments lower extract self f = Return tt ->
  mileage_more_than f = None ->
  mileage_less_than f = None ->
  sort_by f <> Some "mileage" ->
  exists sorted,
    list_cars lower extract any_le any_ge sort_other_keys self limit offset f
    = Return (map get_basic_only (slice offset (offset + limit) sorted))
    /\ (forall car, In car sorted
                    <-> In car (PyDict.values (cars self))
                        /\ passes lower car f)
    /\ (0 <= offset -> 0 <= limit ->
        (length (slice offset (offset + limit) sorted) <= Z.to_nat limit)%nat)
    /\ (offset = 0 -> Z.of_nat (length sorted) <= limit ->
        slice offset (offset + limit) sorted = sorted).
Proof.
  intros Hv Hmore Hless Hsort.
  destruct (list_cars_returns self f Hv Hmore Hless Hsort)
    as (sorted & Hpage & Hperm & _).
  exists sorted. split; [apply Hpage|]. split; [|split].
  - intros car. split.
    + intros Hin. apply (Permutation_in _ Hperm), filter_In in Hin.
      now rewrite <- (kept_by_passes f car Hmore Hless).
    + intros [Hin Hpass]. apply (Permutation_in _ (Permutation_sym Hperm)).
      apply filter_In. split; [assumption|].
      now apply (kept_by_passes f car Hmore Hless).
  - apply slice_length.
  - intros -> Hlen. now apply slice_all.
Qed.

(** X18. The order of the list.  Under the same conditions every page is
    cut from one list, which holds the catalogue cars that the filters keep,
    each as often as the catalogue does, and no other car, in this order.
    Without [sort_by] the list is in ascending order of price, whatever
    [sort_order] says, so asking for ["desc"] alone changes nothing, and
    the prices of every page returned ascend.  With [sort_by] the list is
    ordered by the pair (has a value, value): in ascending order the cars
    that lack the value come first, in descending order last. *)
Theorem list_cars_order (self : Service) (f : filters) :
  validate_arguments lower extract self f = Return tt ->
  mileage_more_than f = None ->
  mileage_less_than f = None ->
  sort_by f <> Some "mileage" ->
  exists sorted,
    Permutation sorted
      (List.filter (kept_by lower any_le any_ge f) (PyDict.values (cars self)))
    /\ (forall car, In car sorted
                    <-> In car (PyDict.values (cars self))
                        /\ passes lower car f)
    /\ match sort_by f with
       | None => StronglySorted by_price sorted
       | Some sb =>
           if String.eqb (sort_order f) "desc"
           then StronglySorted (fun a b => by_key sb b a) sorted
           else StronglySorted (by_key sb) sorted
       end
    /\ (forall limit offset,
          list_cars lower extract any_le any_ge sort_other_keys
            self limit offset f
          = Return (map get_basic_only (slice offset (offset + limit) sorted)))
    /\ (sort_by f = None ->
        forall limit offset,
          exists page,
            list_cars lower extract any_le any_ge sort_other_keys
              self limit offset f
            = Return page
            /\ StronglySorted by_price page).
Proof.
  intros Hv Hmore Hless Hsort.
  destruct (list_cars_returns self f Hv Hmore Hless Hsort)
    as (sorted & Hpage & Hperm & Horder).
  exists sorted. split; [exact Hperm|]. split; [|split; [exact Horder|split]].
  - intros car. split.
    + intros Hin. apply (Permutation_in _ Hperm), filter_In in Hin.
      now rewrite <- (kept_by_passes f car Hmore Hless).
    + intros [Hin Hpass]. apply (Permutation_in _ (Permutation_sym Hperm)).
      apply filter_In. split; [assumption|].
      now apply (kept_by_passes f car Hmore Hless).
  - exact Hpage.
  - intros Hnone limit offset. rewrite Hnone in Horder.
    eexists. split; [apply Hpage|].
    apply StronglySorted_map.
    now apply (StronglySorted_slice (fun a b => by_price a b)).
Qed.

(** X19. Pages fit together.  Under the same conditions, for an offset and
    limits that are not negative, the page of [a] cars at [offset] followed
    by the page of [b] cars at [offset + a] is the page of [a + b] cars at
    [offset]: paging neither skips nor repeats a car. *)
Theorem list_cars_pages (self : Service) (f : filters) (offset a b : Z) :
  validate_arguments lower extract self f = Return tt ->
  mileage_more_than f = None ->
  mileage_less_than f = None ->
  sort_by f <> Some "mileage" ->
  0 <= offset -> 0 <= a -> 0 <= b ->
  exists first_page second_page,
    list_cars lower extract any_le any_ge sort_other_keys self a offset f
    = Return first_page
    /\ list_cars lower extract any_le any_ge sort_other_keys
         self b (offset + a) f
       = Return second_page
    /\ list_cars lower extract any_le any_ge sort_other_keys
         self (a + b) offset f
       = Return (first_page ++ second_page)%list.
Proof.
  intros Hv Hmore Hless Hsort Ho Ha Hb.
  destruct (list_cars_returns self f Hv Hmore Hless Hsort)
    as (sorted & Hpage & _).
  do 2 eexists. split; [apply Hpage|]. split; [apply Hpage|].
  rewrite Hpage, <- map_app. do 2 f_equal. now apply slice_pages.
Qed.

End ListingFacts.

Lemma comparison_shape_witness :
  exists comparison,
    CarCatalogue.get_car_comparison ascii_lower same_text_extract text_of
      three_cars ["Tata_Nexon"; "mahindra_thar"]
    = Return comparison
    /\ CarCatalogue.compared_cars comparison = [nexon; thar]
    /\ PyDict.keys (CarCatalogue.comparison_matrix comparison)
       = ["Price (INR)"; "Brand"; "Body Type"; "Engine Displacement";
          "Fuel Type"; "Transmission"; "Mileage"; "Seating Capacity";
          "Rating"]
    /\ Forall (fun row => length (snd row)
                          = length ["Tata_Nexon"; "mahindra_thar"])
              (CarCatalogue.comparison_matrix comparison)
    /\ PyDict.get "Price (INR)" (CarCatalogue.comparison_matrix comparison)
       = Some (map (fun car =>
                      FAQService.JInt (CarService.value (CarService.price car)))
                   [nexon; thar])
    /\ PyDict.get "Brand" (CarCatalogue.comparison_matrix comparison)
       = Some (map (fun car =>
                      FAQService.JStr
                        (CarService.brand_name (CarService.brand car)))
                   [nexon; thar]).
Proof.
  apply (comparison_shape ascii_lower same_text_extract text_of three_cars
           ["Tata_Nexon"; "mahindra_thar"] [nexon; thar]).
  - discriminate.
  - repeat constructor.
Defined.

Lemma matches_filters_spec_witness :
  (exists b,
     CarCatalogue._matches_filters ascii_lower float_only_le float_only_ge
       thar (brand_filter "MAHINDRA")
     = Return b
     /\ (b = true
         <-> CarCatalogue.passes ascii_lower thar (brand_filter "MAHINDRA")))
  /\ (exists kept,
        CarCatalogue.filter_cars ascii_lower float_only_le float_only_ge
          (brand_filter "MAHINDRA") [thar; nexon; be6]
        = Return kept
        /\ forall c,
             In c kept
             <-> In c [thar; nexon; be6]
                 /\ CarCatalogue.passes ascii_lower c (brand_filter "MAHINDRA")).
Proof.
  apply (matches_filters_spec ascii_lower float_only_le float_only_ge
           thar (brand_filter "MAHINDRA") [thar; nexon; be6]); reflexivity.
Defined.

Lemma list_cars_content_witness :
  exists sorted,
    CarCatalogue.list_cars ascii_lower same_text_extract
      float_only_le float_only_ge no_other_keys
      three_cars 2 0 (brand_filter "MAHINDRA")
    = Return (map CarService.get_basic_only (slice 0 (0 + 2) sorted))
    /\ (forall car,
          In car sorted
          <-> In car (PyDict.values (CarService.cars three_cars))
              /\ CarCatalogue.passes ascii_lower car (brand_filter "MAHINDRA"))
    /\ (0 <= 0 -> 0 <= 2 ->
        (length (slice 0 (0 + 2) sorted) <= Z.to_nat 2)%nat)
    /\ (0 = 0 -> Z.of_nat (length sorted) <= 2 ->
        slice 0 (0 + 2) sorted = sorted).
Proof.
  apply (list_cars_content ascii_lower same_text_extract
           float_only_le float_only_ge no_other_keys
           three_cars (brand_filter "MAHINDRA") 2 0).
  - vm_compute. reflexivity.
  - reflexivity.
  - reflexivity.
  - discriminate.
Defined.

Lemma list_cars_order_witness :
  exists sorted,
    Permutation sorted
      (List.filter (CarCatalogue.kept_by ascii_lower float_only_le float_only_ge
                      (sorted_on "seating_capacity" "asc"))
                   (PyDict.values (CarService.cars three_cars)))
    /\ (forall car,
          In car sorted
          <-> In car (PyDict.values (CarService.cars three_cars))
              /\ CarCatalogue.passes ascii_lower car
                   (sorted_on "seating_capacity" "asc"))
    /\ StronglySorted (CarCatalogue.by_key "seating_capacity") sorted
    /\ (forall limit offset,
          CarCatalogue.list_cars ascii_lower same_text_extract
            float_only_le float_only_ge no_other_keys
            three_cars limit offset (sorted_on "seating_capacity" "asc")
          = Return (map CarService.get_basic_only
                        (slice offset (offset + limit) sorted)))
    /\ (CarService.sort_by (sorted_on "seating_capacity" "asc") = None ->
        forall limit offset,
          exists page,
            CarCatalogue.list_cars ascii_lower same_text_extract
              float_only_le float_only_ge no_other_keys
              three_cars limit offset (sorted_on "seating_capacity" "asc")
            = Return page
            /\ StronglySorted CarCatalogue.by_price page).
Proof.
  apply (list_cars_order ascii_lower same_text_extract
           float_only_le float_only_ge no_other_keys
           three_cars (sorted_on "seating_capacity" "asc")).
  - vm_compute. reflexivity.
  - reflexivity.
  - reflexivity.
  - discriminate.
Defined.

Lemma list_cars_pages_witness :
  exists first_page second_page,
    CarCatalogue.list_cars ascii_lower same_text_extract
      float_only_le float_only_ge no_other_keys
      three_cars 1 0 (sorted_on "price" "desc")
    = Return first_page
    /\ CarCatalogue.list_cars ascii_lower same_text_extract
         float_only_le float_only_ge no_other_keys
         three_cars 2 (0 + 1) (sorted_on "price" "desc")
       = Return second_page
    /\ CarCatalogue.list_cars ascii_lower same_text_extract
         float_only_le float_only_ge no_other_keys
         three_cars (1 + 2) 0 (sorted_on "price" "desc")
       = Return (first_page ++ second_page)%list.
Proof.
  apply (list_cars_pages ascii_lower same_text_extract
           float_only_le float_only_ge no_other_keys
           three_cars (sorted_on "price" "desc") 0 1 2);
    try reflexivity; try discriminate; try lia.
Defined.

(** ** The sort arguments *)

Section SortArgumentFacts.
Import CarService.
Context {Fuel Extended : Type}.
Context (lower : string -> string).
Context (extract : string -> list string -> Z -> list (string * Z)).
Context (select_cars :
  CarService.t (Fuel := Fuel) (Extended := Extended) ->
  Z -> Z -> filters -> string + list (CarDetail Fuel Extended)).
Context (search_cars :
  CarService.t (Fuel := Fuel) (Extended := Extended) ->
  string -> Z -> filters -> string + list (CarDetail Fuel Extended)).
Context (serialize_car_detail : CarDetail Fuel Extended -> result string).

Lemma validate_arguments_sort
    (self : CarService.t (Fuel := Fuel) (Extended := Extended)) (f : filters) :
  Forall (accepted lower) (categorical self f) ->
  validate_arguments lower extract self f
  = (_ ← match sort_by f with
         | Some sb =>
             if bool_decide (sb ∈ valid_sort_fields) then Return tt
             else Raise (ValueError
                           ("Invalid sort_by: '" +:+ sb +:+ "'. Must be one of: "
                            +:+ String.concat ", " valid_sort_fields))
         | None => Return tt
         end;
     if bool_decide (sort_order f ∈ ["asc"; "desc"]) then Return tt
     else Raise (ValueError
                   ("Invalid sort_order: '" +:+ sort_order f
                    +:+ "'. Must be 'asc' or 'desc'"))).
Proof.
  intros Hall. unfold categorical in Hall.
  repeat match goal with
  | H : Forall (accepted lower) (_ :: _) |- _ => apply Forall_cons_iff in H as [? H]
  end.
  unfold validate_arguments.
  repeat match goal with
  | H : accepted lower (?n, ?v, ?a) |- _ =>
      rewrite (validate_optional_accepted lower extract n v a H); clear H
  end.
  reflexivity.
Qed.

(** X20. The sort arguments are checked after the four filters, [sort_by]
    before [sort_order].  With filters that are all accepted, a [sort_by]
    that is none of price, mileage, seating_capacity, engine_displacement
    makes [list_cars] and [search] raise the [ValueError] that names it,
    whatever [sort_order] is; with a valid or absent [sort_by], a
    [sort_order] other than asc and desc makes them raise the [ValueError]
    that names it.  No car is looked at in either case, and the tool
    answers "Error listing cars: ..." with the text of the error. *)
Theorem invalid_sort_arguments
    (self : CarService.t (Fuel := Fuel) (Extended := Extended))
    (query : string) (limit offset : Z) (f : filters) :
  Forall (accepted lower) (categorical self f) ->
  (forall sb,
     sort_by f = Some sb -> ~ In sb valid_sort_fields ->
     let message :=
       "Invalid sort_by: '" +:+ sb
       +:+ "'. Must be one of: price, mileage, seating_capacity, engine_displacement" in
     list_cars lower extract select_cars self limit offset f
     = Raise (ValueError message)
     /\ search lower extract search_cars self query limit f
        = Raise (ValueError message)
     /\ AgentToolKit.list_cars lower extract select_cars serialize_car_detail
          self limit offset f
        = Return ("Error listing cars: " +:+ message))
  /\ ((forall sb, sort_by f = Some sb -> In sb valid_sort_fields) ->
      sort_order f <> "asc" -> sort_order f <> "desc" ->
      let message :=
        "Invalid sort_order: '" +:+ sort_order f
        +:+ "'. Must be 'asc' or 'desc'" in
      list_cars lower extract select_cars self limit offset f
      = Raise (ValueError message)
      /\ search lower extract search_cars self query limit f
         = Raise (ValueError message)
      /\ AgentToolKit.list_cars lower extract select_cars serialize_car_detail
           self limit offset f
         = Return ("Error listing cars: " +:+ message)).
Proof.
  intros Hall. pose proof (validate_arguments_sort self f Hall) as Hv. split.
  - intros sb Hsb Hnot message.
    assert (Hraise :
      validate_arguments lower extract self f = Raise (ValueError message)).
    { rewrite Hv, Hsb.
      assert (Hout : sb ∉ valid_sort_fields) by now rewrite list_elem_of_In.
      rewrite (bool_decide_false _ Hout). reflexivity. }
    unfold AgentToolKit.list_cars, list_cars, search. rewrite Hraise.
    repeat split.
  - intros Hsb Hasc Hdesc message.
    assert (Hraise :
      validate_arguments lower extract self f = Raise (ValueError message)).
    { rewrite Hv.
      assert (Hby :
        match sort_by f with
        | Some sb =>
            if bool_decide (sb ∈ valid_sort_fields) then Return tt
            else Raise (ValueError
                          ("Invalid sort_by: '" +:+ sb +:+ "'. Must be one of: "
                           +:+ String.concat ", " valid_sort_fields))
        | None => Return tt
        end = Return tt).
      { destruct (sort_by f) as [sb|]; [|reflexivity].
        assert (Hin : sb ∈ valid_sort_fields)
          by (apply list_elem_of_In; now apply Hsb).
        now rewrite (bool_decide_true _ Hin). }
      rewrite Hby.
      assert (Hout : sort_order f ∉ ["asc"; "desc"])
        by (rewrite list_elem_of_In; simpl; intuition congruence).
      now rewrite (bool_decide_false _ Hout). }
    unfold AgentToolKit.list_cars, list_cars, search. rewrite Hraise.
    repeat split.
Qed.

End SortArgumentFacts.

Lemma invalid_sort_arguments_witness :
  (forall sb,
     CarService.sort_by (sorted_on "colour" "down") = Some sb ->
     ~ In sb CarService.valid_sort_fields ->
     let message :=
       "Invalid sort_by: '" +:+ sb
       +:+ "'. Must be one of: price, mileage, seating_capacity, engine_displacement" in
     CarService.list_cars ascii_lower same_text_extract no_cars
       two_brands 10 0 (sorted_on "colour" "down")
     = Raise (ValueError message)
     /\ CarService.search ascii_lower same_text_extract no_match
          two_brands "thar" 10 (sorted_on "colour" "down")
        = Raise (ValueError message)
     /\ AgentToolKit.list_cars ascii_lower same_text_extract no_cars
          (fun _ => Return "car") two_brands 10 0 (sorted_on "colour" "down")
        = Return ("Error listing cars: " +:+ message))
  /\ ((forall sb, CarService.sort_by (sorted_on "colour" "down") = Some sb ->
                  In sb CarService.valid_sort_fields) ->
      CarService.sort_order (sorted_on "colour" "down") <> "asc" ->
      CarService.sort_order (sorted_on "colour" "down") <> "desc" ->
      let message :=
        "Invalid sort_order: '"
        +:+ CarService.sort_order (sorted_on "colour" "down")
        +:+ "'. Must be 'asc' or 'desc'" in
      CarService.list_cars ascii_lower same_text_extract no_cars
        two_brands 10 0 (sorted_on "colour" "down")
      = Raise (ValueError message)
      /\ CarService.search ascii_lower same_text_extract no_match
           two_brands "thar" 10 (sorted_on "colour" "down")
         = Raise (ValueError message)
      /\ AgentToolKit.list_cars ascii_lower same_text_extract no_cars
           (fun _ => Return "car") two_brands 10 0 (sorted_on "colour" "down")
         = Return ("Error listing cars: " +:+ message)).
Proof.
  apply (invalid_sort_arguments ascii_lower same_text_extract
           no_cars no_match (fun _ => Return "car")
           two_brands "thar" 10 0 (sorted_on "colour" "down")).
  repeat constructor.
Defined.

(** ** Loading the catalogue *)

Section LoadingFacts.
Import CarService.
Import CarCatalogue.
Context (lower : string -> string).
Context (extract : string -> list string -> Z -> list (string * Z)).
Context (any_le any_ge : Any -> float -> result bool).
Context (sort_other_keys :
  (Car -> bool * Any) -> bool -> list Car -> result (list Car)).

Lemma track_keeps (car_id : string) (car other : Car) (self : Service) :
  values_available other self ->
  values_available other (track car_id car self).
Proof.
  intros (Hb & Hbt & Hf & He & Ht). unfold values_available, track. simpl.
  repeat split.
  - intros Hne. destruct (AgentToolKit.truthy _); [set_solver|auto].
  - intros bt Hbody Hne. specialize (Hbt bt Hbody Hne).
    destruct (body_type (basic_info car)) as [bt'|]; [|assumption].
    destruct (AgentToolKit.truthy bt'); [set_solver|assumption].
  - intros fu t Hfu Hin. specialize (Hf fu t Hfu Hin). set_solver.
  - intros e ts t Heng Hts Hin. specialize (He e ts t Heng Hts Hin).
    set_solver.
  - intros ts t Hts Hin. specialize (Ht ts t Hts Hin).
    destruct (transmission car); [set_solver|assumption].
Qed.

Lemma track_covers (car_id : string) (car : Car) (self : Service) :
  values_available car (track car_id car self).
Proof.
  unfold values_available, track. simpl. repeat split.
  - intros Hne. apply truthy_nonempty in Hne. rewrite Hne. set_solver.
  - intros bt -> Hne. apply truthy_nonempty in Hne. rewrite Hne. set_solver.
  - intros fu t -> Hin. apply list_elem_of_In in Hin. set_solver.
  - intros e ts t -> Hts Hin. simpl. rewrite Hts.
    apply list_elem_of_In in Hin. set_solver.
  - intros ts t -> Hin. apply list_elem_of_In in Hin. set_solver.
Qed.

(** What holds of a service while it is loaded. *)
Lemma load_cars_invariant
    (json_files : list (string * option Car)) (self : Service)
    (origin : string -> Car -> Prop) :
  (forall car_id car, PyDict.get car_id (cars self) = Some car ->
                      values_available car self /\ origin car_id car) ->
  (forall stem car, In (stem, Some car) json_files -> origin (lower stem) car) ->
  List.NoDup (PyDict.keys (cars self)) ->
  let loaded := _load_cars lower json_files self in
  (forall car_id car, PyDict.get car_id (cars loaded) = Some car ->
                      values_available car loaded /\ origin car_id car)
  /\ List.NoDup (PyDict.keys (cars loaded)).
Proof.
  revert self. unfold _load_cars.
  induction json_files as [|[stem [car|]] json_files IH];
    intros self Hself Horigin Hnd; simpl.
  - auto.
  - apply IH.
    + intros car_id other Hget. simpl in Hget.
      destruct (String.eqb_spec (lower stem) car_id) as [<-|Hne].
      * rewrite get_set_eq in Hget. injection Hget as <-.
        split; [apply track_covers|]. apply Horigin. now left.
      * rewrite get_set_ne in Hget by assumption.
        destruct (Hself car_id other Hget) as [Hav Hor].
        split; [now apply track_keeps|assumption].
    + intros stem' car' Hin. apply Horigin. now right.
    + simpl. now apply keys_set_NoDup.
  - apply IH; auto. intros stem' car' Hin. apply Horigin. now right.
Qed.

Lemma init_loads_cars_aux
    (json_folder : string) (fuzzy_threshold : Z)
    (json_files : list (string * option Car)) (self : Service) :
  CarCatalogue.init lower json_folder (Some json_files) fuzzy_threshold
  = Return self ->
  List.NoDup (PyDict.keys (cars self))
  /\ (forall car_id car,
        PyDict.get car_id (cars self) = Some car ->
        values_available car self
        /\ exists stem, In (stem, Some car) json_files /\ car_id = lower stem).
Proof.
  destruct json_files as [|file json_files]; [discriminate|].
  intros [= <-].
  set (files := file :: json_files).
  set (empty := {| CarService.fuzzy_threshold := fuzzy_threshold; cars := [];
                   available_brands := ∅; available_body_types := ∅;
                   available_fuel_types := ∅; available_transmissions := ∅ |}).
  destruct (load_cars_invariant files empty
              (fun car_id car =>
                 exists stem, In (stem, Some car) files /\ car_id = lower stem))
    as [Hcars Hnd].
  - intros car_id car [=].
  - intros stem car Hin. eauto.
  - constructor.
  - split; assumption.
Qed.

(** X21. Building the service.  A folder that does not exist, or holds no
    JSON file, makes [__init__] raise a [ValueError]; otherwise a service
    is returned, also when some or all files fail to load.  In it every
    car is stored under the lower-case stem of a file that loaded, no id
    keys two cars, and the values of every car stored are available to the
    validation: its brand and body type (when not empty), its fuel types
    and its transmissions. *)
Theorem init_loads_cars (json_folder : string) (fuzzy_threshold : Z) :
  CarCatalogue.init lower json_folder None fuzzy_threshold
  = Raise (ValueError ("JSON folder not found: " +:+ json_folder))
  /\ CarCatalogue.init lower json_folder (Some []) fuzzy_threshold
     = Raise (ValueError ("No JSON files found in: " +:+ json_folder))
  /\ (forall json_files,
        json_files <> [] ->
        exists self,
          CarCatalogue.init lower json_folder (Some json_files) fuzzy_threshold
          = Return self
          /\ List.NoDup (PyDict.keys (cars self))
          /\ (forall car_id car,
                PyDict.get car_id (cars self) = Some car ->
                values_available car self
                /\ exists stem, In (stem, Some car) json_files
                                /\ car_id = lower stem)).
Proof.
  split; [reflexivity|]. split; [reflexivity|].
  intros json_files Hne.
  destruct json_files as [|file json_files]; [congruence|].
  eexists. split; [reflexivity|].
  now apply (init_loads_cars_aux json_folder fuzzy_threshold).
Qed.

Lemma brand_filter_validates (self : Service) (b : string) :
  b ∈ available_brands self ->
  validate_arguments lower extract self (brand_filter b) = Return tt.
Proof.
  intros Hb. rewrite validate_arguments_sort; [reflexivity|].
  repeat constructor. simpl. unfold matches.
  apply list_elem_of_In, in_map, list_elem_of_In. now apply elem_of_elements.
Qed.

(** X22. A car that was loaded is found by its brand.  In a service built
    by [__init__], listing with the brand of a stored car (not empty) as
    the only filter, from offset 0 and with a limit that reaches the number
    of cars, raises nothing and returns a list that holds the stripped copy
    of that car. *)
Theorem loaded_car_listed_by_brand
    (json_folder : string) (fuzzy_threshold : Z)
    (json_files : list (string * option Car))
    (self : Service) (car_id : string) (car : Car) (limit : Z) :
  CarCatalogue.init lower json_folder (Some json_files) fuzzy_threshold
  = Return self ->
  PyDict.get car_id (cars self) = Some car ->
  brand_name (brand car) <> "" ->
  Z.of_nat (length (cars self)) <= limit ->
  exists found,
    list_cars lower extract any_le any_ge sort_other_keys self limit 0
      (brand_filter (brand_name (brand car)))
    = Return found
    /\ In (get_basic_only car) found
    /\ Forall (fun listed =>
                 lower (brand_name (brand listed))
                 = lower (brand_name (brand car)))
              found.
Proof.
  intros Hinit Hget Hname Hlimit.
  set (f := brand_filter (brand_name (brand car))).
  assert (Havailable : values_available car self).
  { destruct (init_loads_cars_aux json_folder fuzzy_threshold json_files
                self Hinit) as [_ Hcars].
    now apply (Hcars car_id car). }
  assert (Hv : validate_arguments lower extract self f = Return tt)
    by (apply brand_filter_validates; now apply Havailable).
  destruct (list_cars_returns lower extract any_le any_ge sort_other_keys
              self f Hv eq_refl eq_refl)
    as (sorted & Hpage & Hperm & _); [discriminate|].
  assert (Hkept : forall c, In c sorted
                            <-> In c (PyDict.values (cars self))
                                /\ passes lower c f).
  { intros c. split.
    - intros Hin. apply (Permutation_in _ Hperm), filter_In in Hin.
      now rewrite <- (kept_by_passes lower any_le any_ge f c eq_refl eq_refl).
    - intros [Hin Hpass]. apply (Permutation_in _ (Permutation_sym Hperm)).
      apply filter_In. split; [assumption|].
      now apply (kept_by_passes lower any_le any_ge f c eq_refl eq_refl). }
  assert (Hall : slice 0 (0 + limit) sorted = sorted).
  { apply slice_all.
    rewrite (Permutation_length Hperm).
    pose proof (filter_length_le (kept_by lower any_le any_ge f)
                  (PyDict.values (cars self))) as Hle.
    unfold PyDict.values in Hle. rewrite length_map in Hle.
    unfold PyDict.values. lia. }
  exists (map get_basic_only sorted). split; [|split].
  - rewrite Hpage. now rewrite Hall.
  - apply in_map. apply Hkept. split.
    + unfold PyDict.values. change car with (snd (car_id, car)).
      apply in_map. clear -Hget.
      induction (cars self) as [|[k v] d IH]; simpl in *; [discriminate|].
      destruct (String.eqb_spec car_id k) as [->|]; [|auto].
      injection Hget as ->. now left.
    + unfold passes, f. simpl.
      repeat apply conj; try (intros ? [=]; fail).
      intros b [= <-]. split; [assumption|reflexivity].
  - apply List.Forall_forall. intros listed Hin.
    apply in_map_iff in Hin as (c & <- & Hc).
    apply Hkept in Hc as [_ Hpass].
    destruct Hpass as (_ & _ & Hbrand & _).
    now destruct (Hbrand _ eq_refl).
Qed.

End LoadingFacts.

Lemma loaded_car_listed_by_brand_witness :
  exists found,
    CarCatalogue.list_cars ascii_lower same_text_extract
      float_only_le float_only_ge no_other_keys
      loaded_from_three_files 10 0
      (brand_filter (CarService.brand_name (CarService.brand thar)))
    = Return found
    /\ In (CarService.get_basic_only thar) found
    /\ Forall (fun listed =>
                 ascii_lower (CarService.brand_name (CarService.brand listed))
                 = ascii_lower (CarService.brand_name (CarService.brand thar)))
              found.
Proof.
  apply (loaded_car_listed_by_brand ascii_lower same_text_extract
           float_only_le float_only_ge no_other_keys
           "data/new_car_details" 70 three_files
           loaded_from_three_files "mahindra_thar" thar 10).
  - reflexivity.
  - reflexivity.
  - discriminate.
  - vm_compute. discriminate.
Defined.

(** ** The nearest charging stations *)

Section ChargerFacts.
Import EVChargerLocationService.
Context {Location Station : Type}.
Context (query_postal_code : string -> option postal_code_row).
Context (distance_from : float -> float -> Location -> attempt).
Context (convert : Location -> result Station).

Lemma leb_not_nan (x bound : float) :
  (x <=? bound)%float = true -> not_nan x = true.
Proof.
  rewrite FloatAxioms.leb_spec. unfold SFleb, not_nan.
  now destruct (Prim2SF x).
Qed.

Lemma within_radius_returns
    (search_lat search_lon radius_in_km : float) (locations : list Location) :
  Forall (fun loc => forall e, distance_from search_lat search_lon loc <> Failed e)
         locations ->
  exists found,
    within_radius distance_from search_lat search_lon radius_in_km locations
    = Return found
    /\ Forall (fun dl =>
                 (fst dl <=? radius_in_km)%float = true
                 /\ In (snd dl) locations
                 /\ distance_from search_lat search_lon (snd dl)
                    = Distance (fst dl))
              found.
Proof.
  induction 1 as [|loc locations Hloc _ (found & Hfound & Hall)]; simpl.
  - exists []. split; [reflexivity|constructor].
  - assert (Hrest :
      Forall (fun dl =>
                (fst dl <=? radius_in_km)%float = true
                /\ (loc = snd dl \/ In (snd dl) locations)
                /\ distance_from search_lat search_lon (snd dl)
                   = Distance (fst dl))
             found).
    { eapply List.Forall_impl; [|exact Hall]. simpl. intuition. }
    destruct (distance_from search_lat search_lon loc) as [d| |e] eqn:Hd.
    + rewrite Hfound. simpl.
      destruct (d <=? radius_in_km)%float eqn:Hle.
      * eexists. split; [reflexivity|]. constructor; [|exact Hrest].
        simpl. auto.
      * eexists. split; [reflexivity|exact Hrest].
    + exists found. split; [assumption|exact Hrest].
    + now destruct (Hloc e).
Qed.

Lemma StronglySorted_Forall2 {A B : Type}
    (f : A -> float) (g : B -> float) (l : list A) (k : list B) :
  Forall2 (fun a b => g b = f a) l k ->
  StronglySorted (fun x y => float_le (f x) (f y)) l ->
  StronglySorted (fun x y => float_le (g x) (g y)) k.
Proof.
  induction 1 as [|a b l k Hab Hlk IH]; intros Hs; [constructor|].
  inversion Hs as [|? ? Hsl Ha]; subst. constructor; [auto|].
  clear -Hab Hlk Ha. induction Hlk as [|a' b' l k Hab' _ IH]; [constructor|].
  inversion Ha; subst. constructor; [|auto].
  now rewrite Hab, Hab'.
Qed.

Lemma convert_all (chosen : list (float * Location)) :
  Forall (fun dl => exists converted, convert (snd dl) = Return converted) chosen ->
  exists results,
    mapM (fun '(distance, loc) =>
            converted ← convert loc;
            Return {| station := converted; distance_km := distance |})
         chosen
    = Return results
    /\ Forall2 (fun dl r => distance_km r = fst dl
                            /\ convert (snd dl) = Return (station r))
               chosen results.
Proof.
  induction 1 as [|[d loc] chosen (converted & Hc) _ (results & Hres & Hall)].
  - exists []. split; [reflexivity|constructor].
  - simpl in Hc. rewrite mapM_cons, Hc. simpl. rewrite Hres. simpl.
    eexists. split; [reflexivity|]. constructor; [|exact Hall].
    simpl. auto.
Qed.

(** X23. The chargers near a pincode.  For a pincode that [pgeocode]
    knows, when no location makes the loop fail and every location
    converts, [find_nearest_ev_charger] returns the place and a list of
    results such that every result is a location of the file at the
    distance computed for it, that distance is within the radius, the
    results are in ascending order of distance, and there are at most
    [limit] of them when [limit] is not negative.  For a pincode that
    [pgeocode] does not know, or whose coordinates are NaN, it returns no
    place and no result, whatever the locations are. *)
Theorem nearest_chargers
    (locations : list Location) (pincode : string)
    (radius_in_km : float) (limit : Z) (location_info : postal_code_row) :
  query_postal_code pincode = Some location_info ->
  PrimFloat.is_nan (row_latitude location_info) = false ->
  PrimFloat.is_nan (row_longitude location_info) = false ->
  Forall (fun loc =>
            forall e, distance_from (row_latitude location_info)
                        (row_longitude location_info) loc <> Failed e)
         locations ->
  Forall (fun loc => exists converted, convert loc = Return converted)
         locations ->
  (exists place results,
     find_nearest_ev_charger query_postal_code distance_from convert
       locations pincode radius_in_km limit
     = Return (Some place, results)
     /\ Forall (fun r =>
                  (distance_km r <=? radius_in_km)%float = true
                  /\ exists loc,
                       In loc locations
                       /\ distance_from (row_latitude location_info)
                            (row_longitude location_info) loc
                          = Distance (distance_km r)
                       /\ convert loc = Return (station r))
               results
     /\ StronglySorted (fun a b => float_le (distance_km a) (distance_km b))
                       results
     /\ (0 <= limit -> (length results <= Z.to_nat limit)%nat))
  /\ (forall unknown,
        query_postal_code unknown = None
        \/ (exists row, query_postal_code unknown = Some row
                        /\ PrimFloat.is_nan (row_latitude row)
                           || PrimFloat.is_nan (row_longitude row) = true) ->
        find_nearest_ev_charger query_postal_code distance_from convert
          locations unknown radius_in_km limit
        = Return (None, [])).
Proof.
  intros Hquery Hlat Hlon Hfail Hconvert. split.
  - unfold find_nearest_ev_charger. rewrite Hquery, Hlat, Hlon. simpl.
    destruct (within_radius_returns (row_latitude location_info)
                (row_longitude location_info) radius_in_km locations Hfail)
      as (found & -> & Hfound).
    simpl.
    set (lt := fun a b : float * Location => (fst a <? fst b)%float).
    assert (Hperm : Permutation (py_sorted lt found) found)
      by apply py_sorted_perm.
    assert (Hsorted :
      StronglySorted (fun a b => float_le (fst a) (fst b)) (py_sorted lt found)).
    { apply (py_sorted_sorted lt (fun a b => float_le (fst a) (fst b))
               (fun dl => (fst dl <=? radius_in_km)%float = true)).
      - intros x y _ _. apply ltb_float_le.
      - intros x y Hx Hy. apply not_ltb_float_le; eauto using leb_not_nan.
      - intros x y z _ _ _. apply float_le_trans.
      - eapply List.Forall_impl; [|exact Hfound]. simpl. tauto. }
    destruct (slice_to_firstn limit (py_sorted lt found)) as (n & Hslice & Hn).
    rewrite Hslice.
    assert (Hchosen :
      Forall (fun dl =>
                (fst dl <=? radius_in_km)%float = true
                /\ In (snd dl) locations
                /\ distance_from (row_latitude location_info)
                     (row_longitude location_info) (snd dl)
                   = Distance (fst dl))
             (firstn n (py_sorted lt found))).
    { apply List.Forall_forall. intros dl Hdl. apply in_firstn in Hdl.
      apply (Permutation_in _ Hperm) in Hdl.
      rewrite List.Forall_forall in Hfound. auto. }
    destruct (convert_all (firstn n (py_sorted lt found)))
      as (results & -> & Hresults).
    { eapply List.Forall_impl; [|exact Hchosen]. simpl.
      intros dl (_ & Hin & _). rewrite List.Forall_forall in Hconvert. auto. }
    simpl. do 2 eexists. split; [reflexivity|]. split; [|split].
    + clear -Hchosen Hresults.
      induction Hresults as [|dl r chosen results (Hd & Hc) _ IH];
        [constructor|].
      apply Forall_cons_iff in Hchosen as [(Hle & Hin & Hdist) Hchosen].
      constructor; [|auto]. rewrite Hd. eauto.
    + apply (StronglySorted_Forall2 fst distance_km
               (firstn n (py_sorted lt found)) results).
      * eapply Forall2_impl; [exact Hresults|]. simpl. tauto.
      * now apply StronglySorted_firstn.
    + intros Hlimit. rewrite <- (Forall2_length _ _ _ Hresults).
      rewrite length_firstn.
      destruct (Z.leb_spec 0 limit); lia.
  - intros unknown [Hnone|(row & Hrow & Hnan)];
      unfold find_nearest_ev_charger.
    + now rewrite Hnone.
    + now rewrite Hrow, Hnan.
Qed.

End ChargerFacts.

Lemma nearest_chargers_witness :
  (exists place results,
     EVChargerLocationService.find_nearest_ev_charger
       one_pincode coordinate_distance station_name
       three_stations "110001" 1%float 5
     = Return (Some place, results)
     /\ Forall (fun r =>
                  (EVChargerLocationService.distance_km r <=? 1)%float = true
                  /\ exists loc,
                       In loc three_stations
                       /\ coordinate_distance 28.5%float 77.25%float loc
                          = EVChargerLocationService.Distance
                              (EVChargerLocationService.distance_km r)
                       /\ station_name loc
                          = Return (EVChargerLocationService.station r))
               results
     /\ StronglySorted
          (fun a b => float_le (EVChargerLocationService.distance_km a)
                               (EVChargerLocationService.distance_km b))
          results
     /\ (0 <= 5 -> (length results <= Z.to_nat 5)%nat))
  /\ (forall unknown,
        one_pincode unknown = None
        \/ (exists row, one_pincode unknown = Some row
                        /\ PrimFloat.is_nan
                             (EVChargerLocationService.row_latitude row)
                           || PrimFloat.is_nan
                                (EVChargerLocationService.row_longitude row)
                           = true) ->
        EVChargerLocationService.find_nearest_ev_charger
          one_pincode coordinate_distance station_name
          three_stations unknown 1%float 5
        = Return (None, [])).
Proof.
  apply (nearest_chargers one_pincode coordinate_distance station_name
           three_stations "110001" 1%float 5
           {| EVChargerLocationService.row_place_name := Some "Connaught Place";
              EVChargerLocationService.row_state_name := Some "Delhi";
              EVChargerLocationService.row_latitude := 28.5%float;
              EVChargerLocationService.row_longitude := 77.25%float |}).
  - reflexivity.
  - reflexivity.
  - reflexivity.
  - repeat constructor; intros e; discriminate.
  - repeat constructor; eexists; reflexivity.
Defined.

(** ** Searching the catalogue *)

Section CarSearchFacts.
Import CarService.
Import CarCatalogue.
Context (lower : string -> string).
Context (extract : string -> list string -> Z -> list (string * Z)).
Context (any_le any_ge : Any -> float -> result bool).
Context (partial_ratio : string -> string -> Z).
Context (sort_scored_other_keys :
  string -> string -> list (Car * Z) -> result (list (Car * Z))).

Lemma direct_matches_returns (f : filters) (query_lower : string) (l : list Car) :
  mileage_more_than f = None ->
  mileage_less_than f = None ->
  direct_matches lower any_le any_ge f query_lower l
  = Return (map (fun car => (car, 100))
                (List.filter
                   (fun car => text_matches lower query_lower car
                               && kept_by lower any_le any_ge f car)
                   l)).
Proof.
  intros Hmore Hless. induction l as [|car l IH]; [reflexivity|].
  simpl. rewrite IH. unfold kept_by.
  destruct (text_matches lower query_lower car); [|reflexivity].
  destruct (matches_filters_returns lower any_le any_ge car f Hmore Hless)
    as (b & -> & _).
  now destruct b.
Qed.

Lemma fuzzy_matches_returns
    (threshold : Z) (f : filters) (query_lower : string) (l : list Car) :
  mileage_more_than f = None ->
  mileage_less_than f = None ->
  fuzzy_matches lower any_le any_ge partial_ratio threshold f query_lower l
  = Return (map (fun car =>
                   (car, partial_ratio query_lower
                           (lower (name (basic_info car)))))
                (List.filter
                   (fun car =>
                      (partial_ratio query_lower (lower (name (basic_info car)))
                       >=? threshold)
                      && kept_by lower any_le any_ge f car)
                   l)).
Proof.
  intros Hmore Hless. induction l as [|car l IH]; [reflexivity|].
  simpl. rewrite IH. unfold kept_by.
  destruct (_ >=? threshold); [|reflexivity].
  destruct (matches_filters_returns lower any_le any_ge car f Hmore Hless)
    as (b & -> & _).
  now destruct b.
Qed.

Lemma sorted_by_score_then_price (l : list (Car * Z)) :
  StronglySorted by_score_then_price (py_sorted score_price_lt l).
Proof.
  apply (py_sorted_sorted _ by_score_then_price (fun _ => True));
    unfold by_score_then_price, score_price_lt.
  - intros x y _ _. destruct (Z.eqb_spec (- snd x) (- snd y)).
    + rewrite Z.ltb_lt. lia.
    + rewrite Z.ltb_lt. lia.
  - intros x y _ _. destruct (Z.eqb_spec (- snd x) (- snd y)).
    + rewrite Z.ltb_ge. lia.
    + rewrite Z.ltb_ge. lia.
  - intros x y z _ _ _. lia.
  - now apply List.Forall_forall.
Qed.

Lemma scored_key_int (sb order : string) (x : Car * Z) :
  sb <> "mileage" -> is_set (scored_key sb order x) = true.
Proof.
  intros Hne. unfold scored_key.
  pose proof (get_sort_value_int (fst x) sb Hne) as Hint.
  now destruct (int_key (_get_sort_value (fst x) sb)) as [[has v]|].
Qed.

Lemma sorted_by_scored_key (sb order : string) (l : list (Car * Z)) :
  sb <> "mileage" ->
  StronglySorted (by_scored_key sb order)
    (py_sorted
       (fun a b =>
          match scored_key sb order a, scored_key sb order b with
          | Some x, Some y => triple_lt x y
          | _, _ => false
          end)
       l).
Proof.
  intros Hne.
  apply (py_sorted_sorted _ (by_scored_key sb order)
           (fun x => is_set (scored_key sb order x) = true));
    unfold by_scored_key.
  - intros x y _ _.
    destruct (scored_key sb order x) as [[[a1 a2] a3]|],
             (scored_key sb order y) as [[[b1 b2] b3]|]; try discriminate.
    unfold triple_lt.
    destruct a1, b1; simpl; try discriminate; auto;
      destruct (Z.eqb_spec a2 b2); rewrite Z.ltb_lt; lia.
  - intros x y.
    destruct (scored_key sb order x) as [[[a1 a2] a3]|],
             (scored_key sb order y) as [[[b1 b2] b3]|]; try discriminate.
    intros _ _. unfold triple_lt.
    destruct a1, b1; simpl; try discriminate; auto;
      destruct (Z.eqb_spec a2 b2); rewrite Z.ltb_ge; lia.
  - intros x y z _ _ _.
    destruct (scored_key sb order x) as [[[a1 a2] a3]|],
             (scored_key sb order y) as [[[b1 b2] b3]|],
             (scored_key sb order z) as [[[c1 c2] c3]|]; try tauto.
    destruct a1, b1, c1; try tauto; lia.
  - apply List.Forall_forall. intros x _. now apply scored_key_int.
Qed.

Lemma sort_scored_int (sb order : string) (l : list (Car * Z)) :
  sb <> "mileage" ->
  sort_scored sort_scored_other_keys sb order l
  = Return (py_sorted
              (fun a b =>
                 match scored_key sb order a, scored_key sb order b with
                 | Some x, Some y => triple_lt x y
                 | _, _ => false
                 end)
              l).
Proof.
  intros Hne. unfold sort_scored.
  replace (forallb _ l) with true; [reflexivity|].
  symmetry. apply forallb_forall. intros x _. now apply scored_key_int.
Qed.

(** After a validation that passes and without a mileage argument,
    [search] returns: the cars found, directly or else by their score, are
    sorted once and the answer is cut from the front of that list. *)
Lemma car_search_returns (self : Service) (query : string) (f : filters) :
  validate_arguments lower extract self f = Return tt ->
  mileage_more_than f = None ->
  mileage_less_than f = None ->
  sort_by f <> Some "mileage" ->
  let query_lower := lower query in
  let score car := partial_ratio query_lower (lower (name (basic_info car))) in
  let direct :=
    List.filter (fun car => text_matches lower query_lower car
                            && kept_by lower any_le any_ge f car)
                (PyDict.values (cars self)) in
  let matching :=
    match direct with
    | [] =>
        map (fun car => (car, score car))
            (List.filter (fun car => (score car >=? fuzzy_threshold self)
                                     && kept_by lower any_le any_ge f car)
                         (PyDict.values (cars self)))
    | _ => map (fun car => (car, 100)) direct
    end in
  exists ranked,
    (forall limit,
       search lower extract any_le any_ge partial_ratio sort_scored_other_keys
         self query limit f
       = Return (map get_basic_only (map fst (slice_to limit ranked))))
    /\ Permutation ranked matching
    /\ match sort_by f with
       | None => StronglySorted by_score_then_price ranked
       | Some sb => StronglySorted (by_scored_key sb (sort_order f)) ranked
       end.
Proof.
  intros Hv Hmore Hless Hsort query_lower score direct matching.
  assert (Hmatching :
    (matching_cars ←
       direct_matches lower any_le any_ge f query_lower
         (PyDict.values (cars self));
     match matching_cars with
     | [] =>
         fuzzy_matches lower any_le any_ge partial_ratio
           (fuzzy_threshold self) f query_lower (PyDict.values (cars self))
     | _ => Return matching_cars
     end) = Return matching).
  { rewrite (direct_matches_returns f query_lower _ Hmore Hless). fold direct.
    simpl. unfold matching. destruct direct as [|car direct]; simpl.
    - now rewrite (fuzzy_matches_returns _ f query_lower _ Hmore Hless).
    - reflexivity. }
  assert (Hbody : forall ranked,
    match sort_by f with
    | Some sb =>
        if AgentToolKit.truthy sb
        then sort_scored sort_scored_other_keys sb (sort_order f) matching
        else Return (py_sorted score_price_lt matching)
    | None => Return (py_sorted score_price_lt matching)
    end = Return ranked ->
    forall limit,
      search lower extract any_le any_ge partial_ratio sort_scored_other_keys
        self query limit f
      = Return (map get_basic_only (map fst (slice_to limit ranked)))).
  { intros ranked Hranked limit.
    unfold search, CarService.search. rewrite Hv. simpl.
    unfold search_cars, search_body. fold query_lower.
    destruct (direct_matches lower any_le any_ge f query_lower
                (PyDict.values (cars self))) as [e|found];
      [discriminate|].
    simpl in Hmatching. simpl. rewrite Hmatching. simpl.
    rewrite Hranked. reflexivity. }
  destruct (sort_by f) as [sb|] eqn:Hsb.
  - assert (Hne : sb <> "mileage") by congruence.
    assert (Htruthy : AgentToolKit.truthy sb = true).
    { pose proof (validated_sort_by lower extract self f sb Hv Hsb) as Hin.
      simpl in Hin. intuition (subst; reflexivity). }
    rewrite Htruthy in Hbody.
    rewrite (sort_scored_int sb _ matching Hne) in Hbody.
    eexists. split; [apply Hbody; reflexivity|]. split.
    + apply py_sorted_perm.
    + now apply sorted_by_scored_key.
  - eexists. split; [apply Hbody; reflexivity|]. split.
    + apply py_sorted_perm.
    + apply sorted_by_score_then_price.
Qed.

(** X24. A search that finds the query in a car.  For arguments that pass
    the validation, give no mileage bound and do not sort on mileage: when
    the query occurs, case ignored, in the name, manufacturer or model of
    some car that meets the filters, the fuzzy scorer decides nothing; the
    cars found are exactly the cars in which the query occurs and that meet
    the filters, each with the score 100, the answer is the stripped copies
    of the first [limit] of them, and without [sort_by] they are in
    ascending order of price. *)
Theorem car_search_direct
    (self : Service) (query : string) (limit : Z) (f : filters) (hit : Car) :
  validate_arguments lower extract self f = Return tt ->
  mileage_more_than f = None ->
  mileage_less_than f = None ->
  sort_by f <> Some "mileage" ->
  In hit (PyDict.values (cars self)) ->
  text_matches lower (lower query) hit = true ->
  passes lower hit f ->
  exists ranked,
    search lower extract any_le any_ge partial_ratio sort_scored_other_keys
      self query limit f
    = Return (map get_basic_only (map fst (slice_to limit ranked)))
    /\ (forall car score,
          In (car, score) ranked
          <-> score = 100
              /\ In car (PyDict.values (cars self))
              /\ text_matches lower (lower query) car = true
              /\ passes lower car f)
    /\ (sort_by f = None ->
        StronglySorted
          (fun a b => value (price (fst a)) <= value (price (fst b))) ranked).
Proof.
  intros Hv Hmore Hless Hsort Hin Htext Hpass.
  destruct (car_search_returns self query f Hv Hmore Hless Hsort)
    as (ranked & Hpage & Hperm & Horder).
  set (direct :=
         List.filter (fun car => text_matches lower (lower query) car
                                 && kept_by lower any_le any_ge f car)
                     (PyDict.values (cars self))) in *.
  assert (Hdirect : forall car,
    In car direct
    <-> In car (PyDict.values (cars self))
        /\ text_matches lower (lower query) car = true
        /\ passes lower car f).
  { intros car. unfold direct.
    rewrite filter_In, andb_true_iff.
    now rewrite (kept_by_passes lower any_le any_ge f car Hmore Hless). }
  assert (Hhit : In hit direct) by (apply Hdirect; auto).
  assert (Hranked : forall car score,
    In (car, score) ranked <-> score = 100 /\ In car direct).
  { intros car score.
    destruct direct as [|first direct']; [destruct Hhit|].
    split.
    - intros H. apply (Permutation_in _ Hperm), in_map_iff in H
        as (c & [= <- <-] & Hc). auto.
    - intros [-> Hc]. apply (Permutation_in _ (Permutation_sym Hperm)).
      apply in_map_iff. eauto. }
  exists ranked. split; [apply Hpage|]. split.
  - intros car score. rewrite Hranked, Hdirect. reflexivity.
  - intros Hnone. rewrite Hnone in Horder.
    apply (StronglySorted_impl_in by_score_then_price); [|assumption].
    intros [a sa] [b sb] Ha Hb. apply Hranked in Ha as [-> _].
    apply Hranked in Hb as [-> _]. unfold by_score_then_price. simpl. lia.
Qed.

(** X25. A search that falls back on the scores.  Under the same
    conditions, when the query occurs in no car that meets the filters, the
    cars found are exactly the cars whose name [partial_ratio] scores at
    least the threshold and that meet the filters, each with that score; the
    answer is the stripped copies of the first [limit] of them, and without
    [sort_by] they are ordered by descending score and, among equal scores,
    ascending price. *)
Theorem car_search_fuzzy
    (self : Service) (query : string) (limit : Z) (f : filters) :
  validate_arguments lower extract self f = Return tt ->
  mileage_more_than f = None ->
  mileage_less_than f = None ->
  sort_by f <> Some "mileage" ->
  (forall car, In car (PyDict.values (cars self)) ->
               text_matches lower (lower query) car = true ->
               ~ passes lower car f) ->
  exists ranked,
    search lower extract any_le any_ge partial_ratio sort_scored_other_keys
      self query limit f
    = Return (map get_basic_only (map fst (slice_to limit ranked)))
    /\ (forall car score,
          In (car, score) ranked
          <-> In car (PyDict.values (cars self))
              /\ score = partial_ratio (lower query)
                           (lower (name (basic_info car)))
              /\ fuzzy_threshold self <= score
              /\ passes lower car f)
    /\ (sort_by f = None -> StronglySorted by_score_then_price ranked).
Proof.
  intros Hv Hmore Hless Hsort Hnone.
  destruct (car_search_returns self query f Hv Hmore Hless Hsort)
    as (ranked & Hpage & Hperm & Horder).
  assert (Hdirect :
    List.filter (fun car => text_matches lower (lower query) car
                            && kept_by lower any_le any_ge f car)
                (PyDict.values (cars self)) = []).
  { apply filter_none. intros car Hin.
    destruct (text_matches lower (lower query) car) eqn:Htext; [|reflexivity].
    simpl. apply not_true_is_false. intros Hkept.
    apply (kept_by_passes lower any_le any_ge f car Hmore Hless) in Hkept.
    now apply (Hnone car). }
  rewrite Hdirect in Hperm.
  exists ranked. split; [apply Hpage|]. split.
  - intros car score. split.
    + intros H. apply (Permutation_in _ Hperm), in_map_iff in H
        as (c & [= <- <-] & Hc).
      apply filter_In in Hc as [Hin Hc]. apply andb_true_iff in Hc as [Hs Hk].
      apply (kept_by_passes lower any_le any_ge f c Hmore Hless) in Hk.
      rewrite Z.geb_leb, Z.leb_le in Hs. auto.
    + intros (Hin & -> & Hs & Hp).
      apply (Permutation_in _ (Permutation_sym Hperm)).
      apply in_map_iff. exists car. split; [reflexivity|].
      apply filter_In. split; [assumption|]. apply andb_true_iff. split.
      * rewrite Z.geb_leb, Z.leb_le. exact Hs.
      * now apply (kept_by_passes lower any_le any_ge f car Hmore Hless).
  - intros Hsb. now rewrite Hsb in Horder.
Qed.

(** X26. The order and the length of a search.  Under the same conditions
    every answer is cut from the front of one list and holds at most
    [limit] cars when [limit] is not negative.  That list holds the cars
    found, each with its score and as often as the catalogue holds it, and
    nothing else: the catalogue cars in which the query occurs and that the
    filters keep, with the score 100, or, when there is no such car, the
    catalogue cars whose name scores at least the threshold and that the
    filters keep, with that score.  With [sort_by], the list is ordered
    first by whether the car has the value, the cars that lack it coming
    first in the ascending and in the descending order alike, then by the
    value in the order asked, then by descending score; without it, by
    descending score and then ascending price. *)
Theorem car_search_order (self : Service) (query : string) (f : filters) :
  validate_arguments lower extract self f = Return tt ->
  mileage_more_than f = None ->
  mileage_less_than f = None ->
  sort_by f <> Some "mileage" ->
  let query_lower := lower query in
  let score car := partial_ratio query_lower (lower (name (basic_info car))) in
  let direct :=
    List.filter (fun car => text_matches lower query_lower car
                            && kept_by lower any_le any_ge f car)
                (PyDict.values (cars self)) in
  let matching :=
    match direct with
    | [] =>
        map (fun car => (car, score car))
            (List.filter (fun car => (score car >=? fuzzy_threshold self)
                                     && kept_by lower any_le any_ge f car)
                         (PyDict.values (cars self)))
    | _ => map (fun car => (car, 100)) direct
    end in
  exists ranked,
    Permutation ranked matching
    /\ (forall car s,
          In (car, s) ranked ->
          In car (PyDict.values (cars self)) /\ passes lower car f
          /\ (s = 100 /\ text_matches lower query_lower car = true
              \/ s = score car /\ fuzzy_threshold self <= s))
    /\ match sort_by f with
       | None => StronglySorted by_score_then_price ranked
       | Some sb => StronglySorted (by_scored_key sb (sort_order f)) ranked
       end
    /\ (forall limit,
          exists found,
            search lower extract any_le any_ge partial_ratio
              sort_scored_other_keys self query limit f
            = Return found
            /\ found = map get_basic_only (map fst (slice_to limit ranked))
            /\ (0 <= limit -> (length found <= Z.to_nat limit)%nat)).
Proof.
  intros Hv Hmore Hless Hsort query_lower score direct matching.
  destruct (car_search_returns self query f Hv Hmore Hless Hsort)
    as (ranked & Hpage & Hperm & Horder).
  fold query_lower in Hperm. fold score in Hperm. fold direct in Hperm.
  fold matching in Hperm.
  exists ranked. split; [exact Hperm|]. split; [|split; [exact Horder|]].
  - intros car s Hin. apply (Permutation_in _ Hperm) in Hin.
    unfold matching in Hin.
    destruct direct as [|first direct'] eqn:Hdirect.
    + apply in_map_iff in Hin as (c & [= <- <-] & Hc).
      apply filter_In in Hc as [Hc Hkeep].
      apply andb_true_iff in Hkeep as [Hs Hk].
      apply (kept_by_passes lower any_le any_ge f c Hmore Hless) in Hk.
      rewrite Z.geb_leb, Z.leb_le in Hs. auto.
    + apply in_map_iff in Hin as (c & [= <- <-] & Hc).
      rewrite <- Hdirect in Hc. unfold direct in Hc.
      apply filter_In in Hc as [Hc Hkeep].
      apply andb_true_iff in Hkeep as [Ht Hk].
      apply (kept_by_passes lower any_le any_ge f c Hmore Hless) in Hk.
      auto.
  - intros limit. eexists. split; [apply Hpage|]. split; [reflexivity|].
    intros Hlimit. rewrite !length_map, slice_to_nonneg by assumption.
    rewrite length_firstn. lia.
Qed.

End CarSearchFacts.

Lemma car_search_direct_witness :
  exists ranked,
    CarCatalogue.search ascii_lower same_text_extract
      float_only_le float_only_ge initial_ratio no_other_scored_keys
      three_cars "Mahindra" 5 (brand_filter "MAHINDRA")
    = Return (map CarService.get_basic_only (map fst (slice_to 5 ranked)))
    /\ (forall car score,
          In (car, score) ranked
          <-> score = 100
              /\ In car (PyDict.values (CarService.cars three_cars))
              /\ CarCatalogue.text_matches ascii_lower
                   (ascii_lower "Mahindra") car = true
              /\ CarCatalogue.passes ascii_lower car (brand_filter "MAHINDRA"))
    /\ (CarService.sort_by (brand_filter "MAHINDRA") = None ->
        StronglySorted
          (fun a b => CarService.value (CarService.price (fst a))
                      <= CarService.value (CarService.price (fst b)))
          ranked).
Proof.
  apply (car_search_direct ascii_lower same_text_extract
           float_only_le float_only_ge initial_ratio no_other_scored_keys
           three_cars "Mahindra" 5 (brand_filter "MAHINDRA") thar).
  - vm_compute. reflexivity.
  - reflexivity.
  - reflexivity.
  - discriminate.
  - now left.
  - vm_compute. reflexivity.
  - apply (kept_by_passes ascii_lower float_only_le float_only_ge
             (brand_filter "MAHINDRA") thar eq_refl eq_refl).
    reflexivity.
Defined.

Lemma car_search_fuzzy_witness :
  exists ranked,
    CarCatalogue.search ascii_lower same_text_extract
      float_only_le float_only_ge initial_ratio no_other_scored_keys
      three_cars "Tiago" 5 (brand_filter "tata")
    = Return (map CarService.get_basic_only (map fst (slice_to 5 ranked)))
    /\ (forall car score,
          In (car, score) ranked
          <-> In car (PyDict.values (CarService.cars three_cars))
              /\ score = initial_ratio (ascii_lower "Tiago")
                           (ascii_lower
                              (CarService.name (CarService.basic_info car)))
              /\ CarService.fuzzy_threshold three_cars <= score
              /\ CarCatalogue.passes ascii_lower car (brand_filter "tata"))
    /\ (CarService.sort_by (brand_filter "tata") = None ->
        StronglySorted CarCatalogue.by_score_then_price ranked).
Proof.
  apply (car_search_fuzzy ascii_lower same_text_extract
           float_only_le float_only_ge initial_ratio no_other_scored_keys
           three_cars "Tiago" 5 (brand_filter "tata")).
  - vm_compute. reflexivity.
  - reflexivity.
  - reflexivity.
  - discriminate.
  - intros car [<-|[<-|[<-|[]]]] Htext; vm_compute in Htext; discriminate.
Defined.

Lemma car_search_order_witness :
  exists ranked,
    Permutation ranked [(thar, 100); (be6, 100)]
    /\ (forall car s,
          In (car, s) ranked ->
          In car (PyDict.values (CarService.cars three_cars))
          /\ CarCatalogue.passes ascii_lower car
               (sorted_on "seating_capacity" "desc")
          /\ (s = 100
              /\ CarCatalogue.text_matches ascii_lower
                   (ascii_lower "Mahindra") car = true
              \/ s = initial_ratio (ascii_lower "Mahindra")
                       (ascii_lower
                          (CarService.name (CarService.basic_info car)))
                 /\ CarService.fuzzy_threshold three_cars <= s))
    /\ StronglySorted
         (CarCatalogue.by_scored_key "seating_capacity" "desc") ranked
    /\ (forall limit,
          exists found,
            CarCatalogue.search ascii_lower same_text_extract
              float_only_le float_only_ge initial_ratio no_other_scored_keys
              three_cars "Mahindra" limit (sorted_on "seating_capacity" "desc")
            = Return found
            /\ found
               = map CarService.get_basic_only
                     (map fst (slice_to limit ranked))
            /\ (0 <= limit -> (length found <= Z.to_nat limit)%nat)).
Proof.
  apply (car_search_order ascii_lower same_text_extract
           float_only_le float_only_ge initial_ratio no_other_scored_keys
           three_cars "Mahindra" (sorted_on "seating_capacity" "desc")).
  - vm_compute. reflexivity.
  - reflexivity.
  - reflexivity.
  - discriminate.
Defined.
